(** * EternalWeb / ArchiveBox chrome plugins: browser session, tabs and capture hooks

    A shallow embedding of the Node.js hook scripts under
    [plugins/chrome], [plugins/consolelog], [plugins/dns], [plugins/ssl],
    [plugins/responses], [plugins/redirects], [plugins/staticfile],
    [plugins/screenshot], [plugins/ublock] and [plugins/twocaptcha], and
    the properties the specification states about them.

    Conventions of the embedding:
    - a JavaScript string is a [string] of bytes; [trim], [toUpperCase] and
      friends act on the ASCII range only;
    - a JavaScript number that holds an integer (pid, port, size, epoch
      milliseconds) is a [Z], which is exact within the safe integers
      ([Js.safe]); [NaN] is [None];
    - the operating system, the file system and the browser are inputs:
      every call into them appears as an [Event] of the run, and its result
      is supplied by the caller of the model;
    - [process.exit], [throw] and the resident wait
      [await new Promise(() => {})] are the constructors of [Outcome];
    - a diagnostic written with [console.error] is a [Stderr] event that
      keeps the fixed text of the message; the text of an error raised
      by the platform and time stamps are left out of it. *)

From stdpp Require Import base option list strings pretty gmap.
From Stdlib Require Import ZArith Ascii Lia.

Local Open Scope Z_scope.

(* ===================================================================== *)
(** * JavaScript string primitives *)
(* ===================================================================== *)

Module Js.

Definition TAB : ascii := "009"%char.
Definition LF : ascii := "010"%char.
Definition CR : ascii := "013"%char.
Definition DQUOTE : ascii := "034"%char.

(** White space removed by [String.prototype.trim] (ASCII range). *)
Definition isWhite (c : ascii) : bool :=
  let n := nat_of_ascii c in
  ((9 <=? n) && (n <=? 13))%nat || (n =? 32)%nat.

Fixpoint trimStart (s : string) : string :=
  match s with
  | String c s' => if isWhite c then trimStart s' else s
  | EmptyString => EmptyString
  end.

Definition trimEnd (s : string) : string :=
  String.rev (trimStart (String.rev s)).

Definition trim (s : string) : string := trimEnd (trimStart s).

(** [!s] for a string: only the empty string is falsy. *)
Definition falsy (s : string) : bool :=
  match s with EmptyString => true | _ => false end.

(** [a || b] on strings. *)
Definition orElse (a b : string) : string := if falsy a then b else a.

Definition startsWith (s p : string) : bool := String.prefix p s.

Fixpoint includes (s p : string) : bool :=
  String.prefix p s ||
  match s with
  | String _ s' => includes s' p
  | EmptyString => false
  end.

Fixpoint drop (n : nat) (s : string) : string :=
  match n, s with
  | S n', String _ s' => drop n' s'
  | _, _ => s
  end.

Fixpoint take (n : nat) (s : string) : string :=
  match n, s with
  | S n', String c s' => String c (take n' s')
  | _, _ => EmptyString
  end.

Definition upperChar (c : ascii) : ascii :=
  let n := nat_of_ascii c in
  if ((97 <=? n) && (n <=? 122))%nat then ascii_of_nat (n - 32) else c.

Definition lowerChar (c : ascii) : ascii :=
  let n := nat_of_ascii c in
  if ((65 <=? n) && (n <=? 90))%nat then ascii_of_nat (n + 32) else c.

Fixpoint mapChars (f : ascii -> ascii) (s : string) : string :=
  match s with
  | String c s' => String (f c) (mapChars f s')
  | EmptyString => EmptyString
  end.

Definition toUpperCase : string -> string := mapChars upperChar.
Definition toLowerCase : string -> string := mapChars lowerChar.

(** [s.split(sep)] for a one-character separator. *)
Fixpoint split (sep : ascii) (s : string) : list string :=
  match s with
  | EmptyString => [EmptyString]
  | String c s' =>
      if Ascii.eqb c sep then EmptyString :: split sep s'
      else match split sep s' with
           | h :: t => String c h :: t
           | [] => [String c EmptyString]
           end
  end.

(** [s.split(/\r?\n/)]. *)
Fixpoint splitLines (s : string) : list string :=
  match s with
  | EmptyString => [EmptyString]
  | String c s' =>
      let keep :=
        match splitLines s' with
        | h :: t => String c h :: t
        | [] => [String c EmptyString]
        end in
      if Ascii.eqb c LF then EmptyString :: splitLines s'
      else if Ascii.eqb c CR then
        match s' with
        | String c' s'' =>
            if Ascii.eqb c' LF then EmptyString :: splitLines s'' else keep
        | EmptyString => keep
        end
      else keep
  end.

Definition digitVal (c : ascii) : option Z :=
  let n := nat_of_ascii c in
  if ((48 <=? n) && (n <=? 57))%nat then Some (Z.of_nat (n - 48)) else None.

Fixpoint digitsPrefix (acc : option Z) (s : string) : option Z :=
  match s with
  | String c s' =>
      match digitVal c with
      | Some d => digitsPrefix (Some (10 * default 0 acc + d)) s'
      | None => acc
      end
  | EmptyString => acc
  end.

(** [parseInt(s, 10)]: leading white space, an optional sign, then the
    longest run of decimal digits; [None] is [NaN]. *)
Definition parseInt (s : string) : option Z :=
  match trimStart s with
  | String "-"%char s' => Z.opp <$> digitsPrefix None s'
  | String "+"%char s' => digitsPrefix None s'
  | s' => digitsPrefix None s'
  end.

(** [parts.join(sep)]. *)
Fixpoint join (sep : string) (parts : list string) : string :=
  match parts with
  | [] => EmptyString
  | [x] => x
  | x :: rest => x +:+ sep +:+ join sep rest
  end.

(** Numbers.  The numbers of the hooks are integers, and an integer is
    a [Z] here.  This is exact where the doubles are: for magnitudes up
    to [2^53], [parseInt] rounds nothing and [String] prints every
    digit.  Beyond, the code rounds to the nearest double, and from
    [10^21] on prints an exponent; a statement that turns on the value
    of a numeral therefore carries [safe]. *)
Definition safe (n : Z) : Prop := - 2 ^ 53 <= n <= 2 ^ 53.

(** [String(n)] for an integer. *)
Definition ofZ (n : Z) : string := pretty n.

(** [String(ms / 1000)] for an integer number of milliseconds: the
    quotient, then the thousandths that are left, without the zeros at
    their end.  This is what the code prints as long as a double holds
    the quotient with its three decimals, that is for magnitudes below
    [10^15]. *)
Definition ofThousandths (ms : Z) : string :=
  let a := Z.abs ms in
  let r := a mod 1000 in
  let digit (k : Z) := pretty ((r / k) mod 10) in
  let fraction :=
    if (r =? 0)%Z then ""
    else "." +:+ digit 100 +:+
         (if (r mod 100 =? 0)%Z then ""
          else digit 10 +:+ (if (r mod 10 =? 0)%Z then "" else digit 1)) in
  (if (ms <? 0)%Z then "-" else "") +:+ pretty (a / 1000) +:+ fraction.

(** The names that every plain object inherits from [Object.prototype]. *)
Definition objectPrototypeKeys : list string :=
  [ "constructor"; "__defineGetter__"; "__defineSetter__"; "hasOwnProperty";
    "__lookupGetter__"; "__lookupSetter__"; "isPrototypeOf"; "propertyIsEnumerable";
    "toString"; "valueOf"; "__proto__"; "toLocaleString" ].

(** An [Error] value: [e.name] and [e.message]. *)
Record Error := mkError { ename : string; emessage : string }.

Definition newError (msg : string) : Error := mkError "Error" msg.

(** The template [`${e.name}: ${e.message}`]. *)
Definition describe (e : Error) : string := ename e +:+ ": " +:+ emessage e.

End Js.

(* ===================================================================== *)
(** * What a hook process does: events and outcomes *)
(* ===================================================================== *)

Inductive Status := Succeeded | Failed | Skipped.

(** The object passed to [JSON.stringify] for the result line; fields
    other than [status] and [output_str] are kept as key/value pairs. *)
Record ArchiveResult := mkResult {
  status : Status;
  output_str : string;
  pluginFields : list (string * string)
}.

Inductive OutLine :=
| JsonResult (r : ArchiveResult)   (* console.log(JSON.stringify({type:'ArchiveResult',...})) *)
| PlainText (s : string).          (* console.log of a human-readable line *)

Inductive Signal := SIGTERM | SIGINT | SIGKILL | SIG0.

Inductive Event :=
| Stdout (l : OutLine)
| Stderr (msg : string)
| ConnectToPage (timeoutMs : Z)             (* chrome_utils connectToPage *)
| ConnectBrowser (wsEndpoint : string)      (* puppeteer.connect *)
| Spawn (binary : string) (args : list string)
| Exec (cmd : string)                        (* execSync *)
| Kill (pid : Z) (sig : Signal)              (* process.kill *)
| Unlink (path : string)                     (* fs.unlinkSync *)
| WriteFile (path body : string)             (* fs.writeFileSync *)
| AppendFile (path body : string)            (* fs.appendFileSync *)
| CdpSend (method : string) (batch : nat)    (* client.send(method, payload) *)
| Mkdir (path : string)                      (* fs.mkdirSync *)
| CloseBrowser | DisconnectBrowser | ClosePage | NewPage.

(** A file as a hook finds it. *)
Inductive File :=
| NoFile                       (* fs.existsSync is false *)
| Unreadable                   (* fs.readFileSync throws *)
| Contents (text : string).

Inductive Outcome (A : Type) :=
| Returned (a : A)
| Thrown (e : Js.Error)
| Exited (code : Z)
| Resident.                                  (* awaiting a signal forever *)
Arguments Returned {A} a.
Arguments Thrown {A} e.
Arguments Exited {A} code.
Arguments Resident {A}.

Definition Trace := list Event.

(** How a run of a hook process stands at the end of the inputs given
    to the model. *)
Inductive Ending :=
| StillResident                 (* alive, waiting for a signal *)
| ExitCode (code : Z)           (* process.exit(code), or the end of main *)
| KilledBySignal.               (* ended by a signal it does not handle *)

(** The system calls of a run: everything but the diagnostics. *)
Definition isDiagnostic (e : Event) : bool :=
  match e with Stderr _ => true | _ => false end.

Definition syscalls (t : Trace) : Trace :=
  List.filter (fun e => negb (isDiagnostic e)) t.

Definition isResultLine (e : Event) : bool :=
  match e with Stdout (JsonResult _) => true | _ => false end.


Definition isConnect (e : Event) : bool :=
  match e with ConnectToPage _ | ConnectBrowser _ => true | _ => false end.

Definition isSpawn (e : Event) : bool :=
  match e with Spawn _ _ => true | _ => false end.


Definition stdoutLines (t : Trace) : list OutLine :=
  omap (fun e => match e with Stdout l => Some l | _ => None end) t.

Definition resultLines (t : Trace) : list ArchiveResult :=
  omap (fun e => match e with Stdout (JsonResult r) => Some r | _ => None end) t.

(* ===================================================================== *)
(** * chrome_utils.js: environment helpers *)
(* ===================================================================== *)

Module ChromeUtils.

(** [process.env]: the variables that are set.  A name that is not
    set reads as [undefined] unless it is one of
    [Js.objectPrototypeKeys], which [process.env] inherits; the hooks
    look up none of these. *)
Abbreviation Env := (gmap string string).

Definition getEnv (env : Env) (name defaultValue : string) : string :=
  Js.trim (Js.orElse (default "" (env !! name)) defaultValue).

Definition getEnvBool (env : Env) (name : string) (defaultValue : bool) : bool :=
  let val := Js.toLowerCase (getEnv env name "") in
  if bool_decide (val ∈ ["true"; "1"; "yes"; "on"]) then true
  else if bool_decide (val ∈ ["false"; "0"; "no"; "off"]) then false
  else defaultValue.

Definition getEnvInt (env : Env) (name : string) (defaultValue : Z) : Z :=
  default defaultValue (Js.parseInt (getEnv env name (Js.ofZ defaultValue))).

(** The comma-separated branch of [getEnvArray]; a value that starts
    with a bracket is handed to [jsonArray] ([JSON.parse] restricted to
    arrays), and falls through to the comma-separated parsing when that
    fails. *)
Definition getEnvArray (jsonArray : string -> option (list string))
    (env : Env) (name : string) (defaultValue : list string) : list string :=
  let val := getEnv env name "" in
  if Js.falsy val then defaultValue
  else
    let commas := filter (fun s => negb (Js.falsy s) = true)
                         (Js.trim <$> Js.split ","%char val) in
    if Js.startsWith val "[" then default commas (jsonArray val) else commas.

(** [parseResolution]: a missing, unparsable or zero component takes
    the default. *)
Definition parseResolution (resolution : string) : Z * Z :=
  let parts : list (option Z) :=
    (fun x => Js.parseInt (Js.trim x)) <$> Js.split ","%char resolution in
  let pick (i : nat) (d : Z) :=
    match parts !! i with
    | Some (Some n) => if (n =? 0)%Z then d else n
    | _ => d
    end in
  (pick 0%nat 1440, pick 1%nat 2000).

(** A value of the object [parseArgs] builds: [valueParts.join('=') || true]. *)
Inductive ArgVal := Str (s : string) | True_.

Fixpoint replaceDashes (s : string) : string :=
  match s with
  | String c s' => String (if Ascii.eqb c "-"%char then "_"%char else c) (replaceDashes s')
  | EmptyString => EmptyString
  end.

(** One step of the [forEach] of [parseArgs].  The map holds the own
    properties of the object [args]: the assignment [args[key] = ...]
    adds one, except for the key [__proto__], where the assignment of a
    string or of [true] goes to the setter of the prototype and stores
    nothing. *)
Definition parseArg (args : gmap string ArgVal) (arg : string) : gmap string ArgVal :=
  if Js.startsWith arg "--" then
    match Js.split "="%char (Js.drop 2 arg) with
    | key :: valueParts =>
        let v := Js.join "=" valueParts in
        let name := replaceDashes key in
        if String.eqb name "__proto__" then args
        else <[name := if Js.falsy v then True_ else Str v]> args
    | [] => args
    end
  else args.

(** [parseArgs()] on [process.argv.slice(2)]. *)
Definition parseArgs (argv : list string) : gmap string ArgVal :=
  fold_left parseArg argv ∅.

(** [!args.key] *)
Definition absent (v : option ArgVal) : bool :=
  match v with None => true | Some _ => false end.

(** The value spliced into a template string or written to a file. *)
Definition argText (v : ArgVal) : string :=
  match v with Str s => s | True_ => "true" end.

(* ------------------------------------------------------------------- *)
(** ** Zombie process cleanup: [killZombieChrome] *)

(** One entry of [findChromePidFiles]: a [.pid] file inside a
    [chrome/] directory, and the directory that holds that [chrome/]. *)
Record Candidate := mkCandidate { pidFile : string; crawlDir : string }.

(** The system calls the reaper makes.  [OS] is the state of the
    machine; a call that throws returns [None] or [false]. *)
Record Sys (OS : Type) := mkSys {
  sys_stat : OS -> string -> option Z;           (* fs.statSync(dir).mtimeMs *)
  sys_read : OS -> string -> option string;      (* fs.readFileSync(file, 'utf8') *)
  sys_kill : OS -> Z -> Signal -> OS * bool;     (* process.kill(pid, sig) *)
  sys_unlink : OS -> string -> OS * bool         (* fs.unlinkSync(file) *)
}.
Arguments sys_stat {OS}. Arguments sys_read {OS}.
Arguments sys_kill {OS}. Arguments sys_unlink {OS}.

Section Reaper.
Context {OS : Type} (sys : Sys OS).

(** [try { process.kill(-pid, 'SIGKILL'); } catch (e) { process.kill(pid, 'SIGKILL'); }]:
    the final state, the signals sent, and whether the statement
    completed without throwing. *)
Definition killGroupThenPid (os : OS) (pid : Z) : OS * Trace * bool :=
  let '(os1, okGroup) := sys_kill sys os (- pid) SIGKILL in
  if okGroup then (os1, [Kill (- pid) SIGKILL], true)
  else
    let '(os2, okPid) := sys_kill sys os1 pid SIGKILL in
    (os2, [Kill (- pid) SIGKILL; Kill pid SIGKILL], okPid).

(** The body of [for (const {pidFile, crawlDir} of chromePids)];
    the last component is the increment of [killed].  The diagnostic
    that reports a zombie stops before the base name of the crawl
    directory. *)
Definition reapCandidate (fiveMinutesAgo : Z) (os : OS) (c : Candidate)
    : OS * Trace * Z :=
  match sys_stat sys os (crawlDir c) with
  | None => (os, [], 0)                              (* statSync threw: continue *)
  | Some mtimeMs =>
    if (fiveMinutesAgo <? mtimeMs)%Z then (os, [], 0) (* crawl is active, skip *)
    else
      match sys_read sys os (pidFile c) with
      | None => (os, [], 0)                          (* skip invalid PID files *)
      | Some text =>
        match Js.parseInt (Js.trim text) with
        | None => (os, [], 0)
        | Some pid =>
          if (pid <=? 0)%Z then (os, [], 0)
          else
            let '(os1, alive) := sys_kill sys os pid SIG0 in
            if negb alive then
              let '(os2, _) := sys_unlink sys os1 (pidFile c) in
              (os2, [Kill pid SIG0; Unlink (pidFile c)], 0)
            else
              let found := Stderr ("[!] Found zombie (PID " +:+ Js.ofZ pid +:+ ")") in
              let '(os2, sent, ok) := killGroupThenPid os1 pid in
              if ok then
                let '(os3, _) := sys_unlink sys os2 (pidFile c) in
                (os3,
                 [Kill pid SIG0; found] ++ sent ++
                 [Stderr ("[+] Killed zombie (PID " +:+ Js.ofZ pid +:+ ")");
                  Unlink (pidFile c)],
                 1)
              else
                (os2,
                 [Kill pid SIG0; found] ++ sent ++
                 [Stderr ("[!] Failed to kill PID " +:+ Js.ofZ pid)],
                 0)
        end
      end
  end.

(** The loop over the collected candidates. *)
Fixpoint reapAll (fiveMinutesAgo : Z) (os : OS) (cs : list Candidate)
    : OS * Trace * Z :=
  match cs with
  | [] => (os, [], 0)
  | c :: rest =>
      let '(os1, t1, k1) := reapCandidate fiveMinutesAgo os c in
      let '(os2, t2, k2) := reapAll fiveMinutesAgo os1 rest in
      (os2, t1 ++ t2, k1 + k2)
  end.

(** Removal of the [SingletonLock] of every persona that has one. *)
Fixpoint removeLocks (os : OS) (locks : list string) : OS * Trace :=
  match locks with
  | [] => (os, [])
  | l :: rest =>
      let '(os1, ok) := sys_unlink sys os l in
      let '(os2, t) := removeLocks os1 rest in
      (os2, Unlink l ::
            (if ok then [Stderr ("[+] Removed stale SingletonLock: " +:+ l)] else [])
            ++ t)
  end.

(** [killZombieChrome]: [dataDirExists] is [fs.existsSync(dataDir)],
    [now] is [Date.now()], [chromePids] is what [findChromePidFiles]
    returns and [locks] the existing [SingletonLock] paths. *)
Definition killZombieChrome (now : Z) (dataDirExists : bool)
    (chromePids : list Candidate) (locks : list string) (os : OS)
    : OS * Trace * Z :=
  let fiveMinutesAgo := now - 300000 in
  let hello := Stderr "[*] Checking for zombie Chrome processes..." in
  if negb dataDirExists then
    (os, [hello; Stderr "[+] No data directory found"], 0)
  else
    let '(os1, t1, killed) := reapAll fiveMinutesAgo os chromePids in
    let summary :=
      if (0 <? killed)%Z
      then Stderr ("[+] Killed " +:+ Js.ofZ killed +:+ " zombie process(es)")
      else Stderr "[+] No zombies found" in
    let '(os2, t2) := removeLocks os1 locks in
    (os2, [hello] ++ t1 ++ [summary] ++ t2, killed).
(** [isProcessAlive]. *)
Definition isProcessAlive (os : OS) (pid : Z) : OS * Trace * bool :=
  let '(os1, ok) := sys_kill sys os pid SIG0 in (os1, [Kill pid SIG0], ok).

(** The last resort of [killChrome]: one [SIGKILL] per distinct
    related process id other than [pid]; failures are ignored. *)
Fixpoint killGroups (os : OS) (groups : list Z) : OS * Trace :=
  match groups with
  | [] => (os, [])
  | g :: rest =>
      let '(os1, _) := sys_kill sys os (- g) SIGKILL in
      let '(os2, t) := killGroups os1 rest in
      (os2, Kill (- g) SIGKILL :: t)
  end.

(** The set [processGroups] of [killChrome], in the order of its
    insertions: [for (const relatedPid of relatedPids) if (relatedPid
    !== pid) processGroups.add(relatedPid)]. *)
Definition processGroups (pid : Z) (relatedPids : list Z) : list Z :=
  fold_left (fun groups relatedPid =>
               if bool_decide (relatedPid = pid) then groups
               else if bool_decide (relatedPid ∈ groups) then groups
               else groups ++ [relatedPid])
            relatedPids [].

(** [killChrome(pid, outputDir)].  [pid] is [None] when the caller
    holds no process id; [portText] is the content of [port.txt]
    when [outputDir] is given and the file can be read; [pidPath] is
    [path.join(outputDir, 'chrome.pid')] when [outputDir] is given;
    [relatedPids] is what [findChromeProcessesByPort] returns. *)
Definition killChrome (os : OS) (pid : option Z) (portText : option string)
    (pidPath : option string) (relatedPids : list Z) : OS * Trace :=
  match pid with
  | None => (os, [])
  | Some pid =>
    if (pid =? 0)%Z then (os, []) else
    let debugPort := portText ≫= (fun t => Js.parseInt (Js.trim t)) in
    (* Step 1: SIGTERM to the process group, then to the process *)
    let announce :=
      Stderr ("[*] Sending SIGTERM to process group -" +:+ Js.ofZ pid +:+ "...") in
    let '(os1, okGroup) := sys_kill sys os (- pid) SIGTERM in
    let '(os2, t1) :=
      if okGroup then (os1, [announce; Kill (- pid) SIGTERM])
      else
        let '(os2, okPid) := sys_kill sys os1 pid SIGTERM in
        (os2, [announce;
               Kill (- pid) SIGTERM;
               Stderr "[*] Process group kill failed, trying single process...";
               Kill pid SIGTERM] ++
              (if okPid then [] else [Stderr "[!] SIGTERM failed"])) in
    (* Steps 2-3: wait, then probe *)
    let '(os3, t2, alive) := isProcessAlive os2 pid in
    let '(os7, t3) :=
      if negb alive then (os3, [Stderr "[+] Chrome process terminated gracefully"])
      else
        (* Step 4: SIGKILL to the group, then to the process *)
        let escalate :=
          Stderr ("[*] Process still alive, sending SIGKILL to process group -" +:+
                  Js.ofZ pid +:+ "...") in
        let '(os4, okGroup9) := sys_kill sys os3 (- pid) SIGKILL in
        let '(os5, t4) :=
          if okGroup9 then (os4, [escalate; Kill (- pid) SIGKILL])
          else
            let '(os5, okPid9) := sys_kill sys os4 pid SIGKILL in
            (os5, [escalate;
                   Kill (- pid) SIGKILL;
                   Stderr "[!] Process group SIGKILL failed, trying single process";
                   Kill pid SIGKILL] ++
                  (if okPid9 then [] else [Stderr "[!] SIGKILL failed"])) in
        (* Step 5: verify death *)
        let '(os6, t5, still) := isProcessAlive os5 pid in
        if still then
          let warn :=
            [Stderr ("[!] WARNING: Process " +:+ Js.ofZ pid +:+ " is unkillable (likely in UNE state)");
             Stderr "[!] This typically happens when Chrome crashes in kernel syscall";
             Stderr "[!] Process will remain as zombie until system reboot";
             Stderr "[!] macOS IOSurface crash creates unkillable processes in UNE state"] in
          match debugPort with
          | Some port =>
              if (port =? 0)%Z then (os6, t4 ++ t5 ++ warn)
              else if (1 <? length relatedPids)%nat then
                let groups := processGroups pid relatedPids in
                let '(os7, t6) := killGroups os6 groups in
                (os7, t4 ++ t5 ++ warn ++
                      [Stderr ("[*] Found " +:+ Js.ofZ (Z.of_nat (length relatedPids)) +:+
                               " Chrome processes still running on port " +:+ Js.ofZ port);
                       Stderr "[*] Attempting final process group SIGKILL..."] ++ t6)
              else (os6, t4 ++ t5 ++ warn)
          | None => (os6, t4 ++ t5 ++ warn)
          end
        else (os6, t4 ++ t5 ++ [Stderr "[+] Chrome process group killed successfully"]) in
    (* Step 8: clean up the PID file *)
    let '(os8, t7) :=
      match pidPath with
      | Some f => let '(os8, _) := sys_unlink sys os7 f in (os8, [Unlink f])
      | None => (os7, [])
      end in
    (os8,
     [Stderr ("[*] Killing Chrome process tree (PID " +:+ Js.ofZ pid +:+ ")...")] ++
     t1 ++ t2 ++ t3 ++ t7 ++ [Stderr "[*] Chrome cleanup completed"])
  end.
End Reaper.

(* ------------------------------------------------------------------- *)
(** ** Chrome launching: the command line of [launchChromium] *)

Record LaunchOptions := mkLaunch {
  userDataDir : string;
  width : Z;
  height : Z;
  headless : bool;
  sandbox : bool;
  checkSsl : bool;
  extensionPaths : list string
}.

Definition dynamicArgs (debugPort : Z) (o : LaunchOptions) : list string :=
  [ "--remote-debugging-port=" +:+ Js.ofZ debugPort;
    "--remote-debugging-address=127.0.0.1" ] ++
  (if sandbox o then [] else ["--no-sandbox"; "--disable-setuid-sandbox"]) ++
  [ "--disable-dev-shm-usage";
    "--disable-gpu";
    "--window-size=" +:+ Js.ofZ (width o) +:+ "," +:+ Js.ofZ (height o) ] ++
  (if Js.falsy (userDataDir o) then [] else ["--user-data-dir=" +:+ userDataDir o]) ++
  (if headless o then ["--headless=new"] else []) ++
  (if checkSsl o then [] else ["--ignore-certificate-errors"]).

(** The argument vector handed to [spawn]. *)
Definition chromiumArgs (baseArgs extraArgs : list string) (debugPort : Z)
    (o : LaunchOptions) : list string :=
  let args := baseArgs ++ dynamicArgs debugPort o ++ extraArgs in
  let args :=
    if bool_decide ("--use-mock-keychain" ∈ args) then args
    else args ++ ["--use-mock-keychain"] in
  let args :=
    if (0 <? length (extensionPaths o))%nat then
      args ++
      [ "--load-extension=" +:+ Js.join "," (extensionPaths o);
        "--enable-unsafe-extension-debugging";
        "--disable-features=DisableLoadExtensionCommandLineSwitch,ExtensionManifestV2Unsupported,ExtensionManifestV2Disabled" ]
    else args in
  args ++ ["about:blank"].

(** [chromiumArgs] with [baseArgs] and [extraArgs] read from the
    environment as [launchChromium] does. *)
Definition chromiumArgsFromEnv (jsonArray : string -> option (list string))
    (env : Env) (debugPort : Z) (o : LaunchOptions) : list string :=
  chromiumArgs (getEnvArray jsonArray env "CHROME_ARGS" [])
               (getEnvArray jsonArray env "CHROME_ARGS_EXTRA" [])
               debugPort o.

(** A switch [--key=value]. *)
Definition switch (key value : string) : string := "--" +:+ key +:+ "=" +:+ value.

(* ------------------------------------------------------------------- *)
(** ** Snapshot hook utilities: [waitForChromeSession], [connectToPage] *)

Record Target := mkTarget { _targetId : string }.

(** A page of the browser; [target] is [p.target()], which may be null. *)
Record Page := mkPage { target : option Target }.

(** What the hook observes while it polls: [clock k] is the value of
    the [k]-th call of [Date.now()], [bothExist k] says whether
    [cdp_url.txt] and [target_id.txt] both exist at the [k]-th test of
    the loop condition. *)
Record Polling := mkPolling { clock : nat -> Z; bothExist : nat -> bool }.

(** [while (Date.now() - startTime < timeoutMs) { if (...) return true; await sleep(100); }
    return false;] with [k] the number of the next clock reading. *)
Fixpoint waitLoop (fuel : nat) (w : Polling) (startTime timeoutMs : Z) (k : nat)
    : option bool :=
  match fuel with
  | O => None
  | S fuel' =>
      if (clock w k - startTime <? timeoutMs)%Z then
        if bothExist w k then Some true
        else waitLoop fuel' w startTime timeoutMs (S k)
      else Some false
  end.

Definition waitForChromeSession (fuel : nat) (w : Polling) (timeoutMs : Z)
    : option bool :=
  waitLoop fuel w (clock w 0) timeoutMs 1.

(** [readCdpUrl] and [readTargetId]: the file as it is when read
    ([None]: it does not exist); the result [None] is [null]. *)
Definition readTrimmed (file : option string) : option string := Js.trim <$> file.

(** [!x] for a value that is a string or null. *)
Definition missing (x : option string) : bool :=
  match x with Some s => Js.falsy s | None => true end.

Record Connection := mkConnection {
  page : Page;
  targetId : option string;
  cdpUrl : string
}.

(** [pages.find(p => { const target = p.target(); return target && target._targetId === targetId; })] *)
Definition findPage (pages : list Page) (tid : string) : option Page :=
  List.find (fun p => match target p with
                      | Some t => String.eqb (_targetId t) tid
                      | None => false
                      end) pages.

(** [connectToPage].  [puppeteer] says whether the module was passed,
    [cdpFile] and [targetIdFile] are the two marker files as they are
    after the wait, [connect] is [puppeteer.connect] followed by
    [browser.pages()].  [None]: [fuel] did not suffice for the wait.
    The marker files are taken to be readable when they exist: a read
    that throws would leave [connectToPage] with the error of the
    read. *)
Definition connectToPage (fuel : nat) (w : Polling) (puppeteer : bool)
    (timeoutMs : Z) (cdpFile targetIdFile : option string)
    (connect : string -> Js.Error + list Page)
    : option (Trace * Outcome Connection) :=
  if negb puppeteer then
    Some ([], Thrown (Js.newError "puppeteer module must be passed to connectToPage()"))
  else
    match waitForChromeSession fuel w timeoutMs with
    | None => None
    | Some false =>
        Some ([], Thrown (Js.newError
                ("Chrome session not ready after " +:+ Js.ofThousandths timeoutMs +:+
                 "s (chrome plugin must run first)")))
    | Some true =>
        let cdpUrl := readTrimmed cdpFile in
        if missing cdpUrl then
          Some ([], Thrown (Js.newError "No Chrome session found (cdp_url.txt missing)"))
        else
          let url := default "" cdpUrl in
          let targetId := readTrimmed targetIdFile in
          match connect url with
          | inl e => Some ([ConnectBrowser url], Thrown e)
          | inr pages =>
              let found :=
                if missing targetId then None
                else findPage pages (default "" targetId) in
              let page := match found with Some p => Some p | None => last pages end in
              match page with
              | None =>
                  Some ([ConnectBrowser url], Thrown (Js.newError "No page found in browser"))
              | Some p =>
                  Some ([ConnectBrowser url], Returned (mkConnection p targetId url))
              end
          end
    end.

End ChromeUtils.

(* ===================================================================== *)
(** * on_Crawl__90_chrome_launch.bg.js: the session launcher *)
(* ===================================================================== *)

Module ChromeLaunch.
Import ChromeUtils.

Record Cookie := mkCookie {
  name : string;
  value : string;
  domain : string;
  path : string;
  secure : bool;
  httpOnly : bool;
  expires : option Z
}.

(** What one line of the cookie file contributes. *)
Inductive Line :=
| Ignored                 (* blank line or comment: [continue] *)
| Malformed               (* [skipped += 1; continue] *)
| Parsed (c : Cookie).    (* [cookies.push(cookie)] *)

(** The two domain adjustments, in the order of the source. *)
Definition adjustDomain (includeSubdomains : bool) (domainRaw : string) : string :=
  let domain := domainRaw in
  let domain :=
    if includeSubdomains && negb (Js.startsWith domain ".")
    then "." +:+ domain else domain in
  let domain :=
    if negb includeSubdomains && Js.startsWith domain "."
    then Js.drop 1 domain else domain in
  domain.

(** [(raw || '').toUpperCase() === 'TRUE'] *)
Definition isTRUE (raw : string) : bool :=
  String.eqb (Js.toUpperCase (Js.orElse raw "")) "TRUE".

(** The fields of a data line, once at least seven are present. *)
Definition cookieOfParts (httpOnly : bool)
    (domainRaw includeSubdomainsRaw pathRaw secureRaw expiryRaw name value : string)
    : Line :=
  if Js.falsy name || Js.falsy domainRaw then Malformed
  else
    let includeSubdomains := isTRUE includeSubdomainsRaw in
    let expires :=
      match Js.parseInt expiryRaw with
      | Some e => if (0 <? e)%Z then Some e else None
      | None => None
      end in
    Parsed {| name := name;
              value := value;
              domain := adjustDomain includeSubdomains domainRaw;
              path := Js.orElse pathRaw "/";
              secure := isTRUE secureRaw;
              httpOnly := httpOnly;
              expires := expires |}.

(** The head of the loop body of [parseCookiesTxt]: [None] for a line
    the loop passes over (blank, or a comment), otherwise the
    [httpOnly] mark and the tab-separated parts of the data line. *)
Definition lineFields (rawLine : string) : option (bool * list string) :=
  let line := Js.trim rawLine in
  if Js.falsy line then None
  else
    let prefixed := Js.startsWith line "#HttpOnly_" in
    if negb prefixed && Js.startsWith line "#" then None
    else
      let httpOnly := prefixed in
      let dataLine := if prefixed then Js.drop 10 line else line in
      Some (httpOnly, Js.split Js.TAB dataLine).

(** The body of the loop of [parseCookiesTxt]. *)
Definition parseLine (rawLine : string) : Line :=
  match lineFields rawLine with
  | None => Ignored
  | Some (httpOnly, parts) =>
      match parts with
      | domainRaw :: includeSubdomainsRaw :: pathRaw :: secureRaw :: expiryRaw
          :: name :: value :: _ =>
          cookieOfParts httpOnly domainRaw includeSubdomainsRaw pathRaw secureRaw
                        expiryRaw name value
      | _ => Malformed                                  (* parts.length < 7 *)
      end
  end.

Definition parsedCookie (l : Line) : option Cookie :=
  match l with Parsed c => Some c | _ => None end.

Definition isMalformed (l : Line) : bool :=
  match l with Malformed => true | _ => false end.

Definition parseStep (acc : list Cookie * Z) (rawLine : string) : list Cookie * Z :=
  match parseLine rawLine with
  | Ignored => acc
  | Malformed => (acc.1, acc.2 + 1)
  | Parsed c => (acc.1 ++ [c], acc.2)
  end.

(** [parseCookiesTxt(contents)] returns [{cookies, skipped}]. *)
Definition parseCookiesTxt (contents : string) : list Cookie * Z :=
  fold_left parseStep (Js.splitLines contents) ([], 0).

Definition chunkSize : nat := 200.

(** [for (let i = 0; i < cookies.length; i += chunkSize)]: the chunks
    handed to [Network.setCookies], with their offsets. *)
Fixpoint chunksFrom (fuel i : nat) (cookies : list Cookie) : list (nat * list Cookie) :=
  match fuel with
  | O => []
  | S fuel' =>
      if (i <? length cookies)%nat then
        (i, take chunkSize (drop i cookies)) :: chunksFrom fuel' (i + chunkSize) cookies
      else []
  end.

Definition chunks (cookies : list Cookie) : list (nat * list Cookie) :=
  chunksFrom (length cookies) 0 cookies.

(** One [await client.send('Network.setCookies', { cookies: chunk })]
    with its [catch]; [sendOk i] says whether the call at offset [i]
    is accepted. *)
Definition sendChunk (sendOk : nat -> bool) (ic : nat * list Cookie) : Trace * nat :=
  let send := CdpSend "Network.setCookies" (length ic.2) in
  if sendOk ic.1 then ([send], length ic.2)
  else ([send; Stderr ("[!] Failed to import cookies " +:+
                       Js.ofZ (Z.of_nat ic.1 + 1) +:+ "-" +:+
                       Js.ofZ (Z.of_nat (ic.1 + length ic.2)))], 0%nat).

Fixpoint sendAll (sendOk : nat -> bool) (cs : list (nat * list Cookie)) : Trace * nat :=
  match cs with
  | [] => ([], 0%nat)
  | c :: rest =>
      let '(t1, n1) := sendChunk sendOk c in
      let '(t2, n2) := sendAll sendOk rest in
      (t1 ++ t2, (n1 + n2)%nat)
  end.

(** [importCookiesFromFile(browser, cookiesFile, userDataDir)];
    [sessionError] is the error, if any, of opening the page and its
    protocol session ([newPage], [createCDPSession], [Network.enable]). *)
Definition importCookiesFromFile (cookiesFile : string) (file : File)
    (userDataDir : string) (sessionError : option Js.Error) (sendOk : nat -> bool)
    : Trace * Outcome unit :=
  if Js.falsy cookiesFile then ([], Returned ())
  else
    match file with
    | NoFile => ([Stderr ("[!] Cookies file not found: " +:+ cookiesFile)], Returned ())
    | Unreadable => ([Stderr "[!] Failed to read COOKIES_TXT_FILE"], Returned ())
    | Contents contents =>
        let '(cookies, skipped) := parseCookiesTxt contents in
        if (length cookies =? 0)%nat then
          ([Stderr "[!] No cookies found to import"], Returned ())
        else
          let logs :=
            [Stderr ("[*] Importing " +:+ Js.ofZ (Z.of_nat (length cookies)) +:+
                     " cookies from " +:+ cookiesFile +:+ "...")] ++
            (if (skipped =? 0)%Z then []
             else [Stderr ("[*] Skipped " +:+ Js.ofZ skipped +:+ " malformed cookie line(s)")]) ++
            (if Js.falsy userDataDir
             then [Stderr "[!] CHROME_USER_DATA_DIR not set; cookies will not persist beyond this session"]
             else []) in
          match sessionError with
          | Some e => (logs ++ [NewPage], Thrown e)
          | None =>
              let '(sent, imported) := sendAll sendOk (chunks cookies) in
              (logs ++ [NewPage; CdpSend "Network.enable" 0] ++ sent ++
               [ClosePage;
                Stderr ("[+] Imported " +:+ Js.ofZ (Z.of_nat imported) +:+ "/" +:+
                        Js.ofZ (Z.of_nat (length cookies)) +:+ " cookies")],
               Returned ())
          end
    end.

(** The sizes of the [Network.setCookies] payloads of a run. *)
Definition setCookiesBatches (t : Trace) : list nat :=
  omap (fun e => match e with
                 | CdpSend m n => if String.eqb m "Network.setCookies" then Some n else None
                 | _ => None
                 end) t.


(** What the environment answers to the session launcher. *)
Record World := mkWorld {
  env : Env;
  chromium : option string;                  (* findChromium() *)
  version : string;                          (* execSync of --version; empty when it threw *)
  jsonArray : string -> option (list string);(* JSON.parse of an array of strings *)
  extensionCaches : Js.Error + list string;  (* unpacked paths of the cached extensions *)
  debugPort : Z;                             (* findFreePort() *)
  launched : string + (option Z * string);   (* launchChromium after its spawn: error,
                                                or pid and CDP URL *)
  connected : option Js.Error;               (* puppeteer.connect *)
  cookieFile : File;
  cookieSession : option Js.Error;
  sendOk : nat -> bool;
  extensionCheck : Js.Error + list string    (* stderr lines of the extension matching *)
}.

(** The options [main] passes to [launchChromium], completed from the
    environment as its defaults are. *)
Definition launchOptions (w : World) (extensionPaths : list string) : LaunchOptions :=
  let resolution :=
    Js.orElse (getEnv (env w) "CHROME_RESOLUTION" "")
              (getEnv (env w) "RESOLUTION" "1440,2000") in
  let '(width, height) := parseResolution resolution in
  {| userDataDir := getEnv (env w) "CHROME_USER_DATA_DIR" "";
     width := width;
     height := height;
     headless := getEnvBool (env w) "CHROME_HEADLESS" true;
     sandbox := getEnvBool (env w) "CHROME_SANDBOX" true;
     checkSsl := getEnvBool (env w) "CHROME_CHECK_SSL_VALIDITY"
                            (getEnvBool (env w) "CHECK_SSL_VALIDITY" true);
     extensionPaths := extensionPaths |}.

(** The variables of the module that [cleanup] reads. *)
Record State := mkState {
  chromePid : option Z;
  browserInstance : bool
}.

(** What [main] reports before it looks for extensions. *)
Definition greeting (w : World) (binary : string) : Trace :=
  let userDataDir := getEnv (env w) "CHROME_USER_DATA_DIR" "" in
  let cookiesFile :=
    Js.orElse (getEnv (env w) "COOKIES_TXT_FILE" "") (getEnv (env w) "COOKIES_FILE" "") in
  [Exec (String Js.DQUOTE binary +:+ String Js.DQUOTE " --version");
   Stderr ("[*] Using browser: " +:+ binary)] ++
  (if Js.falsy (version w) then [] else [Stderr ("[*] Version: " +:+ version w)]) ++
  (if Js.falsy userDataDir then []
   else [Stderr ("[*] Using user data dir: " +:+ userDataDir)]) ++
  (if Js.falsy cookiesFile then []
   else [Stderr ("[*] Using cookies file: " +:+ cookiesFile)]).

(** [main()].  Of [launchChromium] the trace keeps the [spawn]: the
    sweep it starts with is [killZombieChrome] above, and its
    directories and marker files are left out, as are the diagnostics
    of the extension loop and of [launchChromium], which all go to
    stderr; those of the extension matching are the lines of
    [extensionCheck]. *)
Definition main (w : World) (argv : list string) : Trace * Outcome unit * State :=
  let args := parseArgs argv in
  let none := mkState None false in
  match chromium w with
  | None =>
      ([Stderr "ERROR: Chromium binary not found";
        Stderr "DEPENDENCY_NEEDED=chromium";
        Stderr "BIN_PROVIDERS=puppeteer,env,playwright,apt,brew";
        Stderr "INSTALL_HINT=npx @puppeteer/browsers install chromium@latest"],
       Exited 1, none)
  | Some binary =>
      let t0 := greeting w binary in
      let userDataDir := getEnv (env w) "CHROME_USER_DATA_DIR" "" in
      let cookiesFile :=
        Js.orElse (getEnv (env w) "COOKIES_TXT_FILE" "") (getEnv (env w) "COOKIES_FILE" "") in
      let fatal (t : Trace) (e : Js.Error) (st : State) :=
        (t ++ [Stderr ("ERROR: " +:+ Js.describe e)], Exited 1, st) in
      match extensionCaches w with
      | inl e => fatal t0 e none
      | inr extensionPaths =>
          let spawn :=
            Spawn binary (chromiumArgsFromEnv (jsonArray w) (env w) (debugPort w)
                                              (launchOptions w extensionPaths)) in
          match launched w with
          | inl error =>
              (t0 ++ [spawn; Stderr ("ERROR: " +:+ error)], Exited 1, none)
          | inr (pid, cdpUrl) =>
              let t1 := t0 ++ [spawn; Stderr "[*] Connecting puppeteer to CDP...";
                               ConnectBrowser cdpUrl] in
              match connected w with
              | Some e => fatal t1 e (mkState pid false)
              | None =>
                  let st := mkState pid true in
                  match importCookiesFromFile cookiesFile (cookieFile w) userDataDir
                                              (cookieSession w) (sendOk w) with
                  | (t2, Thrown e) => fatal (t1 ++ t2) e st
                  | (t2, _) =>
                      let check :=
                        if (0 <? length extensionPaths)%nat then extensionCheck w else inr [] in
                      match check with
                      | inl e => fatal (t1 ++ t2) e st
                      | inr lines =>
                          let crawlId :=
                            match args !! "crawl_id" with
                            | Some v => argText v
                            | None => "undefined"
                            end in
                          (t1 ++ t2 ++ (Stderr <$> lines) ++
                           [Stderr ("[+] Chromium session started for crawl " +:+ crawlId);
                            Stderr ("[+] CDP URL: " +:+ cdpUrl);
                            Stderr ("[+] PID: " +:+
                                    match pid with
                                    | Some n => Js.ofZ n
                                    | None => "undefined"
                                    end);
                            Stdout (PlainText "[*] Chromium launch hook staying alive to handle cleanup...")],
                           Resident, st)
                      end
                  end
              end
          end
      end
  end.

(** [cleanup()], the handler of [SIGTERM] and [SIGINT];
    [closeError] is what [browserInstance.close()] throws, if it
    does. *)
Definition cleanup {OS : Type} (sys : Sys OS) (os : OS) (st : State)
    (closeError : option Js.Error) (portText : option string) (relatedPids : list Z)
    : Trace * Outcome unit :=
  let closing :=
    if browserInstance st then
      [Stderr "[*] Closing browser gracefully..."; CloseBrowser;
       Stderr (match closeError with
               | None => "[+] Browser closed gracefully"
               | Some e => "[!] Graceful close failed: " +:+ Js.emessage e
               end)]
    else [] in
  let killing :=
    match chromePid st with
    | Some pid =>
        if (pid =? 0)%Z then []
        else (killChrome sys os (Some pid) portText (Some "chrome.pid") relatedPids).2
    | None => []
    end in
  ([Stderr "[*] Cleaning up Chrome session..."] ++ closing ++ killing, Exited 0).

(** A whole run: [main], then [cleanup] at the first signal. *)
Definition run {OS : Type} (sys : Sys OS) (os : OS) (w : World) (argv : list string)
    (closeError : option Js.Error) (portText : option string) (relatedPids : list Z)
    (signalled : bool) : Trace * Ending :=
  match main w argv with
  | (t, Resident, st) =>
      if signalled
      then (t ++ (cleanup sys os st closeError portText relatedPids).1, ExitCode 0)
      else (t, StillResident)
  | (t, Exited code, _) => (t, ExitCode code)
  | (t, _, _) => (t, StillResident)
  end.

End ChromeLaunch.

(* ===================================================================== *)
(** * The life cycle shared by the background capture hooks

    [on_Snapshot__21_consolelog], [__22_dns], [__23_ssl], [__24_responses],
    [__25_redirects] and [__26_staticfile] have the same [main]: usage
    check, enablement check, listener set-up through [connectToPage],
    an advisory wait for the page-loaded marker, then a resident wait.
    [Config] holds what differs between them. *)
(* ===================================================================== *)

Module CaptureHook.
Import ChromeUtils.

Record Config := mkConfig {
  script : string;                 (* name printed by the usage line *)
  enabledFlag : string;            (* <PLUGIN>_ENABLED *)
  timeoutVar : string;             (* <PLUGIN>_TIMEOUT *)
  (** what the set-up does before it calls [connectToPage]: the files
      and directories it creates, or the error it throws for this URL *)
  prepare : ArgVal -> Js.Error + Trace;
  cdpSession : bool                (* opens a protocol session and enables Network *)
}.

(** What the environment answers during [main]. *)
Record World := mkWorld {
  env : Env;
  prepareError : option Js.Error;          (* a file of [prepare] cannot be written *)
  connection : Js.Error + Connection;      (* result of [connectToPage] *)
  sessionError : option Js.Error;          (* createCDPSession / Network.enable *)
  pageLoaded : bool                        (* waitForPageLoaded found the marker *)
}.

Definition usageLine (c : Config) : string :=
  "Usage: " +:+ script c +:+ " --url=<url> --snapshot-id=<uuid>".

Definition skipResult (c : Config) : ArchiveResult :=
  mkResult Skipped (enabledFlag c +:+ "=False") [].

Definition failResult (e : Js.Error) : ArchiveResult :=
  mkResult Failed (Js.describe e) [].

(** The [catch (e)] of [main]. *)
Definition failWith (e : Js.Error) : Trace * Outcome Connection :=
  ([Stderr ("ERROR: " +:+ Js.describe e); Stdout (JsonResult (failResult e))], Exited 1).

(** The listener set-up: [setupListener(url)] and its namesakes. *)
Definition setup (c : Config) (w : World) (url : ArgVal) : Trace * Outcome Connection :=
  let timeout := getEnvInt (env w) (timeoutVar c) 30 * 1000 in
  match prepare c url with
  | inl e => ([], Thrown e)
  | inr made =>
      match prepareError w with
      | Some e => ([], Thrown e)
      | None =>
          match connection w with
          | inl e => (made ++ [ConnectToPage timeout], Thrown e)
          | inr conn =>
              if cdpSession c then
                match sessionError w with
                | Some e => (made ++ [ConnectToPage timeout], Thrown e)
                | None =>
                    (made ++ [ConnectToPage timeout; CdpSend "Network.enable" 0],
                     Returned conn)
                end
              else (made ++ [ConnectToPage timeout], Returned conn)
          end
      end
  end.

(** [main()]: [Returned conn] stands for the resident wait with the
    listeners installed on [conn]. *)
Definition main (c : Config) (w : World) (argv : list string)
    : Trace * Outcome Connection :=
  let args := parseArgs argv in
  match args !! "url", args !! "snapshot_id" with
  | Some url, Some _ =>
      if negb (getEnvBool (env w) (enabledFlag c) true) then
        ([Stderr ("Skipping (" +:+ enabledFlag c +:+ "=False)");
          Stdout (JsonResult (skipResult c))],
         Exited 0)
      else
        match setup c w url with
        | (t, Returned conn) =>
            (t ++ (if pageLoaded w then []
                   else [Stderr "WARN: Timeout waiting for navigation (chrome_navigate did not complete)"]),
             Returned conn)
        | (t, Thrown e) => (t ++ (failWith e).1, Exited 1)
        | (t, o) => (t, o)
        end
  | _, _ => ([Stderr (usageLine c)], Exited 1)
  end.

(** Truncating an output file before the listeners are installed. *)
Definition truncate (file : string) (_ : ArgVal) : Js.Error + Trace :=
  inr [WriteFile file ""].

Definition nothing (_ : ArgVal) : Js.Error + Trace := inr [].

Definition consolelog : Config :=
  mkConfig "on_Snapshot__21_consolelog.js" "CONSOLELOG_ENABLED" "CONSOLELOG_TIMEOUT"
           (truncate "console.jsonl") false.

(** The response archiver makes its directory [all] (when it is not
    there yet: the trace records the call that makes sure of it) and
    truncates its index. *)
Definition responses : Config :=
  mkConfig "on_Snapshot__24_responses.js" "RESPONSES_ENABLED" "RESPONSES_TIMEOUT"
           (fun _ => inr [Mkdir "all"; WriteFile "index.jsonl" ""]) false.

Definition redirects : Config :=
  mkConfig "on_Snapshot__25_redirects.bg.js" "REDIRECTS_ENABLED" "REDIRECTS_TIMEOUT"
           (truncate "redirects.jsonl") true.

End CaptureHook.

(* ===================================================================== *)
(** * on_Snapshot__22_dns.js: the DNS recorder *)
(* ===================================================================== *)

Module Dns.
Import ChromeUtils.

Definition OUTPUT_FILE : string := "dns.jsonl".

Definition config : CaptureHook.Config :=
  CaptureHook.mkConfig "on_Snapshot__22_dns.js" "DNS_ENABLED" "DNS_TIMEOUT"
                       (CaptureHook.truncate OUTPUT_FILE) true.

(** The protocol events the recorder listens to.  A field the browser
    leaves out ([undefined]) is the empty string, or [None] for the port. *)
Inductive CdpEvent :=
| RequestWillBeSent (requestId url : string)
| ResponseReceived (requestId url remoteIPAddress : string) (remotePort : option Z)
| LoadingFailed (requestId errorText : string).

(** One line of [dns.jsonl] (the time stamp is left out). *)
Record DnsRecord := mkRecord {
  hostname : string;
  ip : option string;
  port : option Z;
  rtype : string;
  protocol : string;
  url : string;
  requestId : string;
  error : option string
}.

(** The variables of the module and of the closure of [setupListener],
    and the content of the output file; [fs.appendFileSync] is taken to
    succeed. *)
Record State := mkState {
  seenResolutions : gset string;
  requestUrls : gmap string string;
  recordCount : Z;
  shuttingDown : bool;
  output : list DnsRecord
}.

Definition initial : State := mkState ∅ ∅ 0 false [].

Definition protocolOf (url : string) : string :=
  if Js.startsWith url "https://" then "https" else "http".

Section Listeners.
(** [extractHostname]: [new URL(url).hostname], [None] when the URL
    does not parse. *)
Variable extractHostname : string -> option string.

Definition resolutionKey (hostname address : string) : string :=
  hostname +:+ ":" +:+ address.

(** The listener of [Network.responseReceived]. *)
Definition onResponseReceived (st : State)
    (requestId url remoteIPAddress : string) (remotePort : option Z) : State :=
  if Js.falsy url || Js.falsy remoteIPAddress then st
  else
    match extractHostname url with
    | None => st
    | Some hostname =>
      if Js.falsy hostname then st
      else if String.eqb hostname remoteIPAddress then st
      else
        let key := resolutionKey hostname remoteIPAddress in
        if bool_decide (key ∈ seenResolutions st) then st
        else
          let isIPv6 := Js.includes remoteIPAddress ":" in
          let record :=
            {| hostname := hostname;
               ip := Some remoteIPAddress;
               port := match remotePort with
                       | Some p => if (p =? 0)%Z then None else Some p
                       | None => None
                       end;
               rtype := if isIPv6 then "AAAA" else "A";
               protocol := protocolOf url;
               url := url;
               requestId := requestId;
               error := None |} in
          {| seenResolutions := {[key]} ∪ seenResolutions st;
             requestUrls := requestUrls st;
             recordCount := recordCount st + 1;
             shuttingDown := shuttingDown st;
             output := output st ++ [record] |}
    end.

(** The listener of [Network.loadingFailed]. *)
Definition onLoadingFailed (st : State) (requestId errorText : string) : State :=
  match requestUrls st !! requestId with
  | None => st
  | Some url =>
    if Js.falsy url then st
    else
      match extractHostname url with
      | None => st
      | Some hostname =>
        if Js.falsy hostname then st
        else if Js.includes errorText "net::ERR_NAME_NOT_RESOLVED"
                || Js.includes errorText "net::ERR_NAME_RESOLUTION_FAILED" then
          let key := resolutionKey hostname "NXDOMAIN" in
          if bool_decide (key ∈ seenResolutions st) then st
          else
            let record :=
              {| hostname := hostname;
                 ip := None;
                 port := None;
                 rtype := "NXDOMAIN";
                 protocol := protocolOf url;
                 url := url;
                 requestId := requestId;
                 error := Some errorText |} in
            {| seenResolutions := {[key]} ∪ seenResolutions st;
               requestUrls := requestUrls st;
               recordCount := recordCount st + 1;
               shuttingDown := shuttingDown st;
               output := output st ++ [record] |}
        else st
      end
  end.

Definition onEvent (st : State) (e : CdpEvent) : State :=
  match e with
  | RequestWillBeSent requestId url =>
      {| seenResolutions := seenResolutions st;
         requestUrls := <[requestId := url]> (requestUrls st);
         recordCount := recordCount st;
         shuttingDown := shuttingDown st;
         output := output st |}
  | ResponseReceived requestId url remoteIPAddress remotePort =>
      onResponseReceived st requestId url remoteIPAddress remotePort
  | LoadingFailed requestId errorText => onLoadingFailed st requestId errorText
  end.

(** The recorder after the events of one Snapshot. *)
Definition record (events : list CdpEvent) : State := fold_left onEvent events initial.
End Listeners.

(** Counting the lines of the output file. *)
Definition countWhere (f : DnsRecord -> bool) (l : list DnsRecord) : nat :=
  length (List.filter f l).

(** A line that records the resolution of [h] to the address [a]. *)
Definition isResolution (h a : string) (r : DnsRecord) : bool :=
  String.eqb (hostname r) h &&
  match ip r with Some x => String.eqb x a | None => false end.

(** A line that records a failed resolution of [h]. *)
Definition isFailure (h : string) (r : DnsRecord) : bool :=
  String.eqb (hostname r) h && String.eqb (rtype r) "NXDOMAIN".

(** A response for a URL of host [h], served from the address [a]. *)
Definition observed (extractHostname : string -> option string) (h a : string)
    (e : CdpEvent) : Prop :=
  match e with
  | ResponseReceived _ url remoteIPAddress _ =>
      url <> "" /\ remoteIPAddress = a /\ extractHostname url = Some h
  | _ => False
  end.

(** A host name that is a name: not empty, free of colons and not a
    bracketed literal; and an address that the recorder can tell from
    it and from its sentinel. *)
Definition resolvable (h a : string) : Prop :=
  h <> "" /\ a <> "" /\ h <> a /\ a <> "NXDOMAIN" /\
  Js.includes h ":" = false /\ Js.startsWith h "[" = false.

(** An event that appends the line [r] and marks the key [k]. *)
Definition added (extractHostname : string -> option string)
    (st st' : State) (r : DnsRecord) (k : string) : Prop :=
  output st' = output st ++ [r] /\
  seenResolutions st' = {[k]} ∪ seenResolutions st /\
  (k ∉ seenResolutions st) /\
  (exists url, extractHostname url = Some (hostname r)).

(** The recorder's invariant: the keys seen are exactly the keys of the
    lines written, and no pair and no failed host is written twice. *)
Definition consistent (st : State) : Prop :=
  (forall r, In r (output st) ->
     Js.includes (hostname r) ":" = false \/ Js.startsWith (hostname r) "[" = true) /\
  (forall r a, In r (output st) -> ip r = Some a ->
     resolutionKey (hostname r) a ∈ seenResolutions st) /\
  (forall r, In r (output st) -> rtype r = "NXDOMAIN" ->
     resolutionKey (hostname r) "NXDOMAIN" ∈ seenResolutions st) /\
  (forall k, k ∈ seenResolutions st ->
     exists r, In r (output st) /\
       ((exists a, ip r = Some a /\ k = resolutionKey (hostname r) a) \/
        k = resolutionKey (hostname r) "NXDOMAIN")) /\
  (forall h a, (countWhere (isResolution h a) (output st) <= 1)%nat) /\
  (forall h, (countWhere (isFailure h) (output st) <= 1)%nat).

(** [emitResult(status)]. *)
Definition emitResult (st : State) (status : Status) : State * Trace :=
  if shuttingDown st then (st, [])
  else
    ({| seenResolutions := seenResolutions st;
        requestUrls := requestUrls st;
        recordCount := recordCount st;
        shuttingDown := true;
        output := output st |},
     [Stdout (JsonResult
        (mkResult status
           (OUTPUT_FILE +:+ " (" +:+ Js.ofZ (recordCount st) +:+ " DNS records)") []))]).

Definition signalName (s : Signal) : string :=
  match s with
  | SIGTERM => "SIGTERM" | SIGINT => "SIGINT" | SIGKILL => "SIGKILL" | SIG0 => "0"
  end.

(** [handleShutdown(signal)]: [browser] is set by the time the
    handlers are registered. *)
Definition handleShutdown (st : State) (signal : Signal) : Trace * Outcome unit :=
  let '(_, emitted) := emitResult st Succeeded in
  ([Stderr (String Js.LF "Received " +:+ signalName signal +:+
            ", emitting final results...")] ++
   emitted ++ [DisconnectBrowser],
   Exited 0).

(** What reaches the resident process: protocol events and signals. *)
Inductive Input := Cdp (e : CdpEvent) | Sig (s : Signal).

Section Process.
Variable extractHostname : string -> option string.

(** The resident phase: events feed the listeners until the first
    handled signal ends the process; [SIGKILL] ends it at once. *)
Fixpoint resident (st : State) (inputs : list Input) : Trace * Ending :=
  match inputs with
  | [] => ([], StillResident)
  | Cdp e :: rest => resident (onEvent extractHostname st e) rest
  | Sig SIGTERM :: _ => ((handleShutdown st SIGTERM).1, ExitCode 0)
  | Sig SIGINT :: _ => ((handleShutdown st SIGINT).1, ExitCode 0)
  | Sig SIGKILL :: _ => ([], KilledBySignal)
  | Sig SIG0 :: rest => resident st rest
  end.

(** A whole run: [main], then the resident phase if [main] got there. *)
Definition run (w : CaptureHook.World) (argv : list string) (inputs : list Input)
    : Trace * Ending :=
  match CaptureHook.main config w argv with
  | (t, Returned _) => let '(t', ending) := resident initial inputs in (t ++ t', ending)
  | (t, Exited code) => (t, ExitCode code)
  | (t, _) => (t, StillResident)
  end.
End Process.

End Dns.

(* ===================================================================== *)
(** * on_Snapshot__23_ssl.bg.js: the TLS certificate extractor *)
(* ===================================================================== *)

Module Ssl.
Import ChromeUtils.

Definition OUTPUT_FILE : string := "ssl.jsonl".

(** The guard at the head of [setupListener(url)].  A bare [--url]
    makes [url] the value [true], on which [startsWith] is not a
    function. *)
Definition httpsOnly (url : ArgVal) : Js.Error + Trace :=
  match url with
  | Str u =>
      if negb (Js.startsWith u "https://")
      then inl (Js.newError "URL is not HTTPS")
      else inr []
  | True_ => inl (Js.mkError "TypeError" "url.startsWith is not a function")
  end.

Definition config : CaptureHook.Config :=
  CaptureHook.mkConfig "on_Snapshot__23_ssl.js" "SSL_ENABLED" "SSL_TIMEOUT"
                       httpsOnly false.

(** [response.securityDetails()] *)
Record SecurityDetails := mkDetails {
  sd_protocol : string;
  sd_subjectName : string;
  sd_issuer : string;
  sd_validFrom : Z;
  sd_validTo : Z;
  sd_sanList : list string
}.

(** A [response] event of the page. *)
Record Response := mkResponse {
  isNavigationRequest : bool;
  inMainFrame : bool;                  (* request.frame() === page.mainFrame() *)
  responseUrl : string;
  securityDetails : option SecurityDetails
}.

(** The object written to [ssl.jsonl]. *)
Record SslInfo := mkInfo {
  securityState : string;
  schemeIsCryptographic : bool;
  details : option SecurityDetails;
  sslError : option string
}.

Record State := mkState {
  sslCaptured : bool;
  shuttingDown : bool;
  written : option SslInfo             (* content of ssl.jsonl *)
}.

Definition initial : State := mkState false false None.

(** [url.split('?')[0]] *)
Definition beforeQuery (url : string) : string :=
  default "" (head (Js.split "?"%char url)).

(** The [response] listener installed for the target [url]; the
    write of the output file is taken to succeed. *)
Definition onResponse (url : string) (st : State) (r : Response) : State :=
  if negb (isNavigationRequest r) || negb (inMainFrame r) then st
  else if negb (Js.startsWith (responseUrl r) (beforeQuery url)) then st
  else
    let sslInfo :=
      match securityDetails r with
      | Some d => mkInfo "secure" true (Some d) None
      | None =>
          if Js.startsWith (responseUrl r) "https://"
          then mkInfo "unknown" true None (Some "No security details available")
          else mkInfo "insecure" false None None
      end in
    {| sslCaptured := true; shuttingDown := shuttingDown st; written := Some sslInfo |}.

Definition emitResult (st : State) (status : Status) : State * Trace :=
  if shuttingDown st then (st, [])
  else
    ({| sslCaptured := sslCaptured st; shuttingDown := true; written := written st |},
     [Stdout (JsonResult (mkResult status OUTPUT_FILE []))]).

Definition handleShutdown (st : State) (signal : Signal) : Trace * Outcome unit :=
  let '(_, emitted) := emitResult st Succeeded in
  ([Stderr (String Js.LF "Received " +:+ Dns.signalName signal +:+
            ", emitting final results...")] ++
   emitted ++ [DisconnectBrowser],
   Exited 0).

(** The state [insecure] is not what the listener has written. *)
Definition notInsecure (st : State) : Prop :=
  match written st with
  | Some info => securityState info <> "insecure"
  | None => True
  end.

Inductive Input := Resp (r : Response) | Sig (s : Signal).

(** The resident phase for the target [url]; the final state is
    returned with the trace. *)
Fixpoint resident (url : string) (st : State) (inputs : list Input)
    : Trace * Ending * State :=
  match inputs with
  | [] => ([], StillResident, st)
  | Resp r :: rest => resident url (onResponse url st r) rest
  | Sig SIGTERM :: _ => ((handleShutdown st SIGTERM).1, ExitCode 0, st)
  | Sig SIGINT :: _ => ((handleShutdown st SIGINT).1, ExitCode 0, st)
  | Sig SIGKILL :: _ => ([], KilledBySignal, st)
  | Sig SIG0 :: rest => resident url st rest
  end.

(** A whole run of the hook. *)
Definition run (w : CaptureHook.World) (argv : list string) (inputs : list Input)
    : Trace * Ending * State :=
  match CaptureHook.main config w argv with
  | (t, Returned _) =>
      let url := match parseArgs argv !! "url" with
                 | Some v => argText v
                 | None => ""
                 end in
      let '(t', ending, st) := resident url initial inputs in (t ++ t', ending, st)
  | (t, Exited code) => (t, ExitCode code, initial)
  | (t, _) => (t, StillResident, initial)
  end.

End Ssl.

(* ===================================================================== *)
(** * on_Snapshot__26_staticfile.bg.js: the static-file downloader *)
(* ===================================================================== *)

Module StaticFile.
Import ChromeUtils.

Definition PLUGIN_NAME : string := "staticfile".

Definition config : CaptureHook.Config :=
  CaptureHook.mkConfig "on_Snapshot__26_staticfile.bg.js" "STATICFILE_ENABLED"
                       "STATICFILE_TIMEOUT" CaptureHook.nothing false.

Definition STATIC_CONTENT_TYPES : list string :=
  [ "application/pdf"; "application/msword";
    "application/vnd.openxmlformats-officedocument.wordprocessingml.document";
    "application/vnd.ms-excel";
    "application/vnd.openxmlformats-officedocument.spreadsheetml.sheet";
    "application/vnd.ms-powerpoint";
    "application/vnd.openxmlformats-officedocument.presentationml.presentation";
    "application/rtf"; "application/epub+zip";
    "image/png"; "image/jpeg"; "image/gif"; "image/webp"; "image/svg+xml";
    "image/x-icon"; "image/bmp"; "image/tiff"; "image/avif"; "image/heic"; "image/heif";
    "audio/mpeg"; "audio/mp3"; "audio/wav"; "audio/flac"; "audio/aac"; "audio/ogg";
    "audio/webm"; "audio/m4a"; "audio/opus";
    "video/mp4"; "video/webm"; "video/x-matroska"; "video/avi"; "video/quicktime";
    "video/x-ms-wmv"; "video/x-flv";
    "application/zip"; "application/x-tar"; "application/gzip"; "application/x-bzip2";
    "application/x-xz"; "application/x-7z-compressed"; "application/x-rar-compressed";
    "application/vnd.rar";
    "application/json"; "application/xml"; "text/csv"; "text/xml"; "application/x-yaml";
    "application/octet-stream"; "application/x-executable"; "application/x-msdos-program";
    "application/x-apple-diskimage"; "application/vnd.debian.binary-package";
    "application/x-rpm";
    "application/x-bittorrent"; "application/wasm" ].

Definition STATIC_CONTENT_TYPE_PREFIXES : list string :=
  [ "image/"; "audio/"; "video/"; "application/zip"; "application/x-" ].

(** [s.split(';')[0].trim()] *)
Definition mediaType (contentType : string) : string :=
  Js.trim (default "" (head (Js.split ";"%char contentType))).

Definition isStaticContentType (contentType : string) : bool :=
  if Js.falsy contentType then false
  else
    let ct := Js.toLowerCase (mediaType contentType) in
    bool_decide (ct ∈ STATIC_CONTENT_TYPES)
    || existsb (fun prefix => Js.startsWith ct prefix) STATIC_CONTENT_TYPE_PREFIXES.

(** A character of the class [a-zA-Z0-9._-]. *)
Definition safeChar (c : ascii) : bool :=
  let n := nat_of_ascii c in
  ((97 <=? n) && (n <=? 122) || (65 <=? n) && (n <=? 90) || (48 <=? n) && (n <=? 57))%nat
  || Ascii.eqb c "."%char || Ascii.eqb c "_"%char || Ascii.eqb c "-"%char.

(** [sanitizeFilename(str)] with [maxLen = 200]. *)
Definition sanitizeFilename (str : string) : string :=
  Js.take 200 (Js.mapChars (fun c => if safeChar c then c else "_"%char) str).

(** [getFilenameFromUrl]; [pathname] is [new URL(url).pathname]
    ([None] when the URL does not parse), [basename] is [path.basename]. *)
Definition getFilenameFromUrl (pathname : string -> option string)
    (basename : string -> string) (url : string) : string :=
  match pathname url with
  | Some p => sanitizeFilename (Js.orElse (basename p) "downloaded_file")
  | None => "downloaded_file"
  end.

(** A character other than a double quote, a single quote, a
    semicolon and a line feed: the class of the captured group. *)
Definition nameChar (c : ascii) : bool :=
  negb (Ascii.eqb c Js.DQUOTE || Ascii.eqb c "'"%char || Ascii.eqb c ";"%char
        || Ascii.eqb c Js.LF).

Fixpoint takeWhile (f : ascii -> bool) (s : string) : string :=
  match s with
  | String c s' => if f c then String c (takeWhile f s') else EmptyString
  | EmptyString => EmptyString
  end.

(** The regular expression of the source tried at the head of [s]:
    the word filename, an optional star, an equals sign, an optional
    quote of either kind, then one or more [nameChar]s, which are the
    captured group. *)
Definition filenameAt (s : string) : option string :=
  if Js.startsWith s "filename" then
    let r := Js.drop 8 s in
    let r := match r with
             | String c r' => if Ascii.eqb c "*"%char then r' else r
             | EmptyString => r
             end in
    match r with
    | String c r' =>
        if Ascii.eqb c "="%char then
          let r'' := match r' with
                     | String q t =>
                         if Ascii.eqb q Js.DQUOTE || Ascii.eqb q "'"%char then t else r'
                     | EmptyString => r'
                     end in
          let group := takeWhile nameChar r'' in
          if Js.falsy group then None else Some group
        else None
    | EmptyString => None
    end
  else None.

(** [contentDisp.match(...)]: the leftmost match. *)
Fixpoint filenameMatch (s : string) : option string :=
  match filenameAt s with
  | Some g => Some g
  | None =>
      match s with
      | String _ s' => filenameMatch s'
      | EmptyString => None
      end
  end.

(** A [response] event of the page, with what reading its body and
    writing the file will give. *)
Record Response := mkResponse {
  url : string;
  headers : gmap string string;        (* header names in lower case *)
  status : Z;
  body : Js.Error + string;            (* await response.buffer() *)
  writeError : option Js.Error         (* fs.writeFileSync(outputPath, buffer) *)
}.

(** The variables of the module, [firstResponseHandled] of the
    closure, and the files written to the output directory. *)
Record State := mkState {
  originalUrl : string;
  detectedContentType : option string;
  isStaticFile : bool;
  downloadedFilePath : option string;
  downloadError : option string;
  firstResponseHandled : bool;
  files : gmap string string
}.

Definition initial (url : string) : State :=
  mkState url None false None None false ∅.

(** [getEnvInt('STATICFILE_MAX_SIZE', 1024 * 1024 * 1024)] *)
Definition maxSize (env : Env) : Z :=
  getEnvInt env "STATICFILE_MAX_SIZE" (1024 * 1024 * 1024).

(** A response for a URL other than [u], or with a status outside
    200-299. *)
Definition passedOver (u : string) (r : Response) : Prop :=
  url r <> u \/ status r < 200 \/ 300 <= status r.

Section Listener.
Variable env : Env.
Variable pathname : string -> option string.
Variable basename : string -> string.

(** The [response] listener of [setupStaticFileListener]. *)
Definition onResponse (st : State) (r : Response) : State :=
  if firstResponseHandled st then st
  else
    let contentType := Js.orElse (default "" (headers r !! "content-type")) "" in
    (* Only process the main document response *)
    if negb (String.eqb (url r) (originalUrl st)) then st
    else if (status r <? 200)%Z || (300 <=? status r)%Z then st
    else
      let detected := mediaType contentType in
      let st1 :=
        {| originalUrl := originalUrl st;
           detectedContentType := Some detected;
           isStaticFile := isStaticFile st;
           downloadedFilePath := downloadedFilePath st;
           downloadError := downloadError st;
           firstResponseHandled := true;
           files := files st |} in
      if negb (isStaticContentType detected) then st1
      else
        let st2 :=
          {| originalUrl := originalUrl st1;
             detectedContentType := detectedContentType st1;
             isStaticFile := true;
             downloadedFilePath := downloadedFilePath st1;
             downloadError := downloadError st1;
             firstResponseHandled := true;
             files := files st1 |} in
        let failed (msg : string) :=
          {| originalUrl := originalUrl st2;
             detectedContentType := detectedContentType st2;
             isStaticFile := true;
             downloadedFilePath := downloadedFilePath st2;
             downloadError := Some msg;
             firstResponseHandled := true;
             files := files st2 |} in
        let maxSize := getEnvInt env "STATICFILE_MAX_SIZE" (1024 * 1024 * 1024) in
        match body r with
        | inl e => failed (Js.describe e)
        | inr buffer =>
            let size := Z.of_nat (String.length buffer) in
            if (maxSize <? size)%Z then
              failed ("File too large: " +:+ Js.ofZ size +:+ " bytes > " +:+
                      Js.ofZ maxSize +:+ " max")
            else
              let filename := getFilenameFromUrl pathname basename (url r) in
              let contentDisp :=
                Js.orElse (default "" (headers r !! "content-disposition")) "" in
              let filename :=
                if Js.includes contentDisp "filename=" then
                  match filenameMatch contentDisp with
                  | Some g => sanitizeFilename (Js.trim g)
                  | None => filename
                  end
                else filename in
              match writeError r with
              | Some e => failed (Js.describe e)
              | None =>
                  {| originalUrl := originalUrl st2;
                     detectedContentType := detectedContentType st2;
                     isStaticFile := true;
                     downloadedFilePath := Some filename;
                     downloadError := downloadError st2;
                     firstResponseHandled := true;
                     files := <[filename := buffer]> (files st2) |}
              end
        end.

(** The listener after a sequence of responses. *)
Definition observe (st : State) (rs : list Response) : State := fold_left onResponse rs st.
End Listener.

(** The result object of [handleShutdown(signal)]. *)
Definition finalResult (st : State) : ArchiveResult :=
  match detectedContentType st with
  | None => mkResult Skipped "No Content-Type detected" [("plugin", PLUGIN_NAME)]
  | Some ct =>
    if Js.falsy ct then
      mkResult Skipped "No Content-Type detected" [("plugin", PLUGIN_NAME)]
    else if negb (isStaticFile st) then
      mkResult Skipped ("Not a static file (Content-Type: " +:+ ct +:+ ")")
               [("plugin", PLUGIN_NAME); ("content_type", ct)]
    else
      match downloadError st, downloadedFilePath st with
      | Some err, _ =>
          if Js.falsy err then
            match downloadedFilePath st with
            | Some f =>
                if Js.falsy f
                then mkResult Failed "Static file detected but download did not complete"
                              [("plugin", PLUGIN_NAME); ("content_type", ct)]
                else mkResult Succeeded f [("plugin", PLUGIN_NAME); ("content_type", ct)]
            | None => mkResult Failed "Static file detected but download did not complete"
                               [("plugin", PLUGIN_NAME); ("content_type", ct)]
            end
          else mkResult Failed err [("plugin", PLUGIN_NAME); ("content_type", ct)]
      | None, Some f =>
          if Js.falsy f
          then mkResult Failed "Static file detected but download did not complete"
                        [("plugin", PLUGIN_NAME); ("content_type", ct)]
          else mkResult Succeeded f [("plugin", PLUGIN_NAME); ("content_type", ct)]
      | None, None =>
          mkResult Failed "Static file detected but download did not complete"
                   [("plugin", PLUGIN_NAME); ("content_type", ct)]
      end
  end.

Definition handleShutdown (st : State) (signal : Signal) : Trace * Outcome unit :=
  ([Stderr (String Js.LF "Received " +:+ Dns.signalName signal +:+
            ", emitting final results...");
    Stdout (JsonResult (finalResult st))],
   Exited 0).

(** What reaches the resident process. *)
Inductive Input := Resp (r : Response) | Sig (s : Signal).

Section Process.
Variable pathname : string -> option string.
Variable basename : string -> string.

(** The resident phase.  [url] is the value of [originalUrl]: a bare
    [--url] makes it [true], which the URL of no response equals. *)
Fixpoint resident (env : Env) (url : ArgVal) (st : State) (inputs : list Input)
    : Trace * Ending :=
  match inputs with
  | [] => ([], StillResident)
  | Resp r :: rest =>
      resident env url
               (match url with
                | Str _ => onResponse env pathname basename st r
                | True_ => st
                end) rest
  | Sig SIGTERM :: _ => ((handleShutdown st SIGTERM).1, ExitCode 0)
  | Sig SIGINT :: _ => ((handleShutdown st SIGINT).1, ExitCode 0)
  | Sig SIGKILL :: _ => ([], KilledBySignal)
  | Sig SIG0 :: rest => resident env url st rest
  end.

(** A whole run of the hook. *)
Definition run (w : CaptureHook.World) (argv : list string) (inputs : list Input)
    : Trace * Ending :=
  match CaptureHook.main config w argv, parseArgs argv !! "url" with
  | (t, Returned _), Some url =>
      let '(t', ending) :=
        resident (CaptureHook.env w) url (initial (argText url)) inputs in
      (t ++ t', ending)
  | (t, Exited code), _ => (t, ExitCode code)
  | (t, _), _ => (t, StillResident)
  end.
End Process.

End StaticFile.

(* ===================================================================== *)
(** * on_Snapshot__51_screenshot.js: the screenshot taker *)
(* ===================================================================== *)

Module Screenshot.
Import ChromeUtils.

(** What the script finds around it.  [capture] is what happens once
    [puppeteer.connect] is called: the outer error is a failure of the
    connection, the inner one a failure between [browser.targets()]
    and [page.screenshot]. *)
Record World := mkWorld {
  env : Env;
  staticFileOutput : bool;                 (* hasStaticFileOutput() *)
  tabLoaded : bool;                        (* await waitForChromeTabLoaded(timeoutMs) *)
  cdpUrl : option string;                  (* readCdpUrl(CHROME_SESSION_DIR) *)
  targetIdFile : option string;            (* ../chrome/target_id.txt, when it exists *)
  capture : Js.Error + (Js.Error + unit);
  stat : Js.Error + Z                      (* fs.statSync(outputPath).size *)
}.

Definition OUTPUT_FILE : string := "screenshot.png".

(** The statements at module level that run before [main]: the
    enablement check comes before puppeteer is even required. *)
Definition moduleInit (w : World) : Trace * Outcome unit :=
  if negb (getEnvBool (env w) "SCREENSHOT_ENABLED" true) then
    (* Temporary failure (config disabled) - NO JSONL emission *)
    ([Stderr "Skipping screenshot (SCREENSHOT_ENABLED=False)"], Exited 0)
  else ([], Returned ()).

(** [takeScreenshot(url)]: the events, and the path returned or the
    error thrown.  The [finally] block disconnects on both ways out. *)
Definition takeScreenshot (w : World) : Trace * (Js.Error + string) :=
  let timeoutSeconds := Js.parseInt (getEnv (env w) "SCREENSHOT_TIMEOUT" "10") in
  if negb (tabLoaded w) then
    ([], inl (Js.newError
                ("Page not loaded after " +:+
                 match timeoutSeconds with Some n => Js.ofZ n | None => "NaN" end +:+
                 "s (chrome_navigate must complete first)")))
  else
    match cdpUrl w with
    | None => ([], inl (Js.newError "No Chrome session found (chrome plugin must run first)"))
    | Some url =>
      if Js.falsy url then
        ([], inl (Js.newError "No Chrome session found (chrome plugin must run first)"))
      else
        match targetIdFile w with
        | None => ([], inl (Js.newError "No target_id.txt found (chrome_tab must run first)"))
        | Some _ =>
          match capture w with
          | inl e => ([ConnectBrowser url], inl e)
          | inr (inl e) => ([ConnectBrowser url; DisconnectBrowser], inl e)
          | inr (inr _) => ([ConnectBrowser url; DisconnectBrowser], inr OUTPUT_FILE)
          end
        end
    end.

(** [main()] with its [catch]. *)
Definition main (w : World) (argv : list string) : Trace * Outcome unit :=
  let args := parseArgs argv in
  match args !! "url", args !! "snapshot_id" with
  | Some url, Some _ =>
      if staticFileOutput w then
        ([Stderr "Skipping screenshot - staticfile extractor already downloaded this";
          Stdout (JsonResult (mkResult Skipped "staticfile already handled" []))],
         Exited 0)
      else
        match takeScreenshot w with
        | (t, inl e) => (t ++ [Stderr ("ERROR: " +:+ Js.emessage e)], Exited 1)
        | (t, inr outputPath) =>
            match stat w with
            | inl e => (t ++ [Stderr ("ERROR: " +:+ Js.emessage e)], Exited 1)
            | inr size =>
                (t ++
                 [Stderr ("Screenshot saved (" +:+ Js.ofZ size +:+ " bytes)");
                  Stdout (JsonResult (mkResult Succeeded outputPath []))],
                 Returned ())
            end
        end
  | _, _ =>
      ([Stderr "Usage: on_Snapshot__51_screenshot.js --url=<url> --snapshot-id=<uuid>"],
       Exited 1)
  end.

(** The script from its first statement on. *)
Definition run (w : World) (argv : list string) : Trace * Outcome unit :=
  match moduleInit w with
  | (t, Returned _) => let '(t', o) := main w argv in (t ++ t', o)
  | stopped => stopped
  end.

End Screenshot.

(* ===================================================================== *)
(** * on_Snapshot__10_chrome_tab.bg.js: the tab allocator *)
(* ===================================================================== *)

Module ChromeTab.
Import ChromeUtils.

(** The variables of the module. *)
Record State := mkState {
  finalStatus : Status;
  finalOutput : string;
  finalError : string;
  cmdVersion : string;
  finalized : bool
}.

Definition initial : State := mkState Failed "" "" "" false.

(** [emitResult(statusOverride)] *)
Definition emitResult (st : State) (statusOverride : option Status) : State * Trace :=
  if finalized st then (st, [])
  else
    let status := default (finalStatus st) statusOverride in
    let outputStr :=
      match status with
      | Succeeded => finalOutput st
      | _ => Js.orElse (finalError st) (Js.orElse (finalOutput st) "")
      end in
    ({| finalStatus := finalStatus st;
        finalOutput := finalOutput st;
        finalError := finalError st;
        cmdVersion := cmdVersion st;
        finalized := true |},
     [Stdout (JsonResult
        (mkResult status outputStr
           (if Js.falsy (cmdVersion st) then [] else [("cmd_version", cmdVersion st)])))]).

(** What the environment answers to the tab allocator. *)
Record World := mkWorld {
  env : Env;
  chromium : option string;                (* findChromium() *)
  version : option string;                 (* execSync of the version probe *)
  pathJoin : string -> string -> string;   (* path.join *)
  fs : string -> File;
  alive : Z -> bool;                       (* process.kill(pid, 0) does not throw *)
  newTab : Js.Error + string;              (* connect, newPage, setViewport: the target id *)
  closeTab : bool                          (* the tab of this snapshot is still open *)
}.

(** [findCrawlChromeSession()] *)
Definition findCrawlChromeSession (w : World) : option (string * Z) :=
  let crawlOutputDir := getEnv (env w) "CRAWL_OUTPUT_DIR" "" in
  if Js.falsy crawlOutputDir then None
  else
    let crawlChromeDir := pathJoin w crawlOutputDir "chrome" in
    let cdpFile := pathJoin w crawlChromeDir "cdp_url.txt" in
    let pidFile := pathJoin w crawlChromeDir "chrome.pid" in
    match fs w cdpFile, fs w pidFile with
    | NoFile, _ | _, NoFile => None
    | Contents cdpText, Contents pidText =>
        let cdpUrl := Js.trim cdpText in
        match Js.parseInt (Js.trim pidText) with
        | Some pid => if alive w pid then Some (cdpUrl, pid) else None
        | None => None                     (* process.kill(NaN, 0) throws *)
        end
    | _, _ => None                         (* a read threw *)
    end.

(** What [fs.writeFileSync] throws when handed the value [true]. *)
Definition notWritable : Js.Error :=
  let q := String Js.DQUOTE "" in
  Js.mkError "TypeError"
    ("The " +:+ q +:+ "data" +:+ q +:+ " argument must be of type string or an instance of " +:+
     "Buffer, TypedArray, or DataView. Received type boolean (true)").

(** [createTabInExistingChrome(cdpUrl, url, pid)].  A bare [--url]
    makes [url] the value [true], which the last write refuses. *)
Definition createTabInExistingChrome (w : World) (cdpUrl : string) (url : ArgVal) (pid : Z)
    : Trace * Outcome string :=
  let hello := Stdout (PlainText ("[*] Connecting to existing Chrome session: " +:+ cdpUrl)) in
  match newTab w with
  | inl e => ([hello; ConnectBrowser cdpUrl], Thrown e)
  | inr targetId =>
      let written :=
        [hello; ConnectBrowser cdpUrl; NewPage;
         WriteFile "cdp_url.txt" cdpUrl;
         WriteFile "chrome.pid" (Js.ofZ pid);
         WriteFile "target_id.txt" targetId] in
      match url with
      | Str u => (written ++ [WriteFile "url.txt" u; DisconnectBrowser], Returned targetId)
      | True_ => (written, Thrown notWritable)
      end
  end.


Definition noSession : string :=
  "No crawl Chrome session found (CRAWL_OUTPUT_DIR missing or chrome not running)".

(** [main()]: the trace, how it ends, and the module variables it
    leaves.  On the success path [main] awaits a promise that never
    settles; by then [createTabInExistingChrome] has given up its
    connection with [browser.disconnect()], so no socket and no timer
    is left to wait for, and the process ends by itself, with code 0
    and without a result line. *)
Definition main (w : World) (argv : list string) : Trace * Outcome unit * State :=
  let args := parseArgs argv in
  match args !! "url", args !! "snapshot_id" with
  | Some url, Some _ =>
      match chromium w with
      | None =>
          ([Stderr "ERROR: Chromium binary not found";
            Stderr "DEPENDENCY_NEEDED=chromium";
            Stderr "BIN_PROVIDERS=puppeteer,env,playwright,apt,brew";
            Stderr "INSTALL_HINT=npx @puppeteer/browsers install chromium@latest"],
           Exited 1, initial)
      | Some binary =>
          let probe := Exec (String Js.DQUOTE binary +:+ String Js.DQUOTE " --version") in
          let version := Js.take 64 (Js.trim (default "" (version w))) in
          (* Try to use existing crawl Chrome session *)
          let '(t, status, output, error) :=
            match findCrawlChromeSession w with
            | Some (cdpUrl, pid) =>
                let crawlId :=
                  match args !! "crawl_id" with
                  | Some v => argText v
                  | None => getEnv (env w) "CRAWL_ID" ""
                  end in
                let found :=
                  Stdout (PlainText ("[*] Found existing Chrome session from crawl " +:+ crawlId)) in
                match createTabInExistingChrome w cdpUrl url pid with
                | (t, Returned targetId) =>
                    (found :: t ++
                     [Stdout (PlainText "[+] Chrome tab ready");
                      Stdout (PlainText ("[+] CDP URL: " +:+ cdpUrl));
                      Stdout (PlainText ("[+] Page target ID: " +:+ targetId))],
                     Succeeded, ".", "")
                | (t, Thrown e) => (found :: t, Failed, "", Js.describe e)
                | (t, _) => (found :: t, Failed, "", "")
                end
            | None => ([], Failed, "", noSession)
            end in
          let complaint := if Js.falsy error then [] else [Stderr ("ERROR: " +:+ error)] in
          let st := mkState status output error version false in
          match status with
          | Succeeded =>
              (probe :: t ++ complaint ++
               [Stdout (PlainText "[*] Chrome tab created, waiting for cleanup signal...")],
               Exited 0, st)
          | _ =>
              let '(st', emitted) := emitResult st (Some status) in
              (probe :: t ++ complaint ++ emitted, Exited 1, st')
          end
      end
  | _, _ =>
      ([Stderr "Usage: on_Snapshot__10_chrome_tab.bg.js --url=<url> --snapshot-id=<uuid> [--crawl-id=<uuid>]"],
       Exited 1, initial)
  end.

(** [cleanup(signal)], the handler of [SIGTERM] and [SIGINT]: closes
    the tab of this snapshot when the marker files are there, emits the
    result, and exits.  It can only run for a signal that arrives while
    [main] is still at work. *)
Definition cleanup (w : World) (st : State) (signal : Signal) : Trace * Outcome unit * State :=
  let closing :=
    match fs w "cdp_url.txt", fs w "target_id.txt" with
    | Contents cdpText, Contents _ =>
        [ConnectBrowser (Js.trim cdpText)] ++
        (if closeTab w then [ClosePage] else []) ++ [DisconnectBrowser]
    | _, _ => []
    end in
  let '(st', emitted) := emitResult st None in
  ([Stderr (String Js.LF "Received " +:+ Dns.signalName signal +:+ ", closing chrome tab...")] ++
   closing ++ emitted,
   Exited (match finalStatus st with Succeeded => 0 | _ => 1 end), st').

(** A whole run, left alone by signals: [main] and the way the process
    ends. *)
Definition run (w : World) (argv : list string) : Trace * Ending :=
  match main w argv with
  | (t, Exited code, _) => (t, ExitCode code)
  | (t, _, _) => (t, StillResident)
  end.

End ChromeTab.

(* ===================================================================== *)
(** * on_Crawl__95_twocaptcha_config.js: the CAPTCHA-solver configurator *)
(* ===================================================================== *)

Module TwoCaptchaConfig.
Import ChromeUtils.

(** What [configure2Captcha()] resolves to. *)
Inductive Configured :=
| ConfigSkipped                  (* { success: true, skipped: true } *)
| ConfigDone                     (* { success: true, ... } *)
| ConfigError (error : string).  (* { success: false, error } *)

Record World := mkWorld {
  diagnostics : list string;               (* the stderr lines of configure2Captcha *)
  configured : Js.Error + Configured
}.

(** [main()]: config hooks don't emit JSONL, the exit code tells the
    outcome. *)
Definition main (w : World) (argv : list string) : Trace * Outcome unit :=
  let args := parseArgs argv in
  match args !! "url", args !! "snapshot_id" with
  | Some _, Some _ =>
      let '(status, error) :=
        match configured w with
        | inr ConfigSkipped => (Skipped, "")
        | inr ConfigDone => (Succeeded, "")
        | inr (ConfigError e) => (Failed, Js.orElse e "Configuration failed")
        | inl e => (Failed, Js.describe e)
        end in
      ((Stderr <$> diagnostics w) ++
       (if Js.falsy error then [] else [Stderr ("ERROR: " +:+ error)]),
       Exited (match status with Failed => 1 | _ => 0 end))
  | _, _ =>
      ([Stderr "Usage: on_Crawl__95_twocaptcha_config.js --url=<url> --snapshot-id=<uuid>"],
       Exited 1)
  end.

End TwoCaptchaConfig.

(* ===================================================================== *)
(** * on_Snapshot__25_redirects.bg.js: the redirect recorder *)
(* ===================================================================== *)

Module Redirects.
Import ChromeUtils.

Definition OUTPUT_FILE : string := "redirects.jsonl".
Definition PLUGIN_NAME : string := "redirects".

(** One line of [redirects.jsonl] (the time stamp is left out). *)
Inductive Entry :=
| Http (from_url to_url : string) (status : Z) (request_id : string)
| MetaRefresh (from_url to_url content : string)
| Javascript (from_url to_url : string).

(** The variables of the module, and the content of the output file;
    [fs.appendFileSync] is taken to succeed. *)
Record State := mkState {
  redirectChain : list Entry;
  originalUrl : ArgVal;
  finalUrl : string;
  output : list Entry
}.

(** The variables when the listeners are installed: [main] has set
    [originalUrl]. *)
Definition initial (url : ArgVal) : State := mkState [] url "" [].

(** [redirectChain.push(entry); fs.appendFileSync(outputPath, ...)] *)
Definition push (st : State) (entry : Entry) : State :=
  {| redirectChain := redirectChain st ++ [entry];
     originalUrl := originalUrl st;
     finalUrl := finalUrl st;
     output := output st ++ [entry] |}.

(** The listener of [Network.requestWillBeSent]; [redirectResponse]
    holds the URL and the status of the response that redirected. *)
Definition onRequestWillBeSent (st : State) (requestId url : string)
    (redirectResponse : option (string * Z)) : State :=
  let st1 :=
    match redirectResponse with
    | Some (from, status) => push st (Http from url status requestId)
    | None => st
    end in
  (* Update final URL *)
  if negb (Js.falsy url) && Js.startsWith url "http" then
    {| redirectChain := redirectChain st1;
       originalUrl := originalUrl st1;
       finalUrl := url;
       output := output st1 |}
  else st1.

(** The first check of the [load] listener: [metaRefresh] is what
    [page.evaluate] returned, [null] or the content of the tag with
    the URL matched in it. *)
Definition onMetaRefresh (st : State) (pageUrl : string)
    (metaRefresh : option (string * option string)) : State :=
  match metaRefresh with
  | Some (content, Some url) =>
      if Js.falsy url then st else push st (MetaRefresh pageUrl url content)
  | _ => st
  end.

(** The second check of the [load] listener. *)
Definition onJsRedirect (st : State) (pageUrl : string) (jsRedirect : option string) : State :=
  match jsRedirect with
  | Some url => if Js.falsy url then st else push st (Javascript pageUrl url)
  | None => st
  end.

(** A field of the result that is a string or a boolean. *)
Inductive Value := Text (s : string) | Flag (b : bool).

Definition ofArg (a : ArgVal) : Value :=
  match a with Str s => Text s | True_ => Flag true end.

(** The plugin's fields of the result object of [handleShutdown]. *)
Record Report := mkReport {
  original_url : Value;
  final_url : Value;
  redirect_count : nat;
  is_redirect : Value
}.

Definition report (st : State) : Report :=
  {| original_url := ofArg (originalUrl st);
     (* finalUrl || originalUrl *)
     final_url := if Js.falsy (finalUrl st) then ofArg (originalUrl st) else Text (finalUrl st);
     redirect_count := length (redirectChain st);
     (* redirectChain.length > 0 || (finalUrl && finalUrl !== originalUrl) *)
     is_redirect :=
       if (0 <? length (redirectChain st))%nat then Flag true
       else if Js.falsy (finalUrl st) then Text (finalUrl st)
       else Flag match originalUrl st with
                 | Str s => negb (String.eqb (finalUrl st) s)
                 | True_ => true
                 end |}.

(** A field as [String] shows it. *)
Definition shown (v : Value) : string :=
  match v with Text s => s | Flag true => "true" | Flag false => "false" end.

(** [handleShutdown(signal)] *)
Definition handleShutdown (st : State) (signal : Signal) : Trace * Outcome unit :=
  let r := report st in
  ([Stderr (String Js.LF "Received " +:+ Dns.signalName signal +:+
            ", emitting final results...");
    Stdout (JsonResult
      (mkResult Succeeded OUTPUT_FILE
         [ ("plugin", PLUGIN_NAME);
           ("original_url", shown (original_url r));
           ("final_url", shown (final_url r));
           ("redirect_count", Js.ofZ (Z.of_nat (redirect_count r)));
           ("is_redirect", shown (is_redirect r)) ]))],
   Exited 0).

(** What reaches the resident process: a request of the page, one of
    the two checks of the [load] listener getting its answer, or a
    signal. *)
Inductive Input :=
| Request (requestId url : string) (redirectResponse : option (string * Z))
| MetaRefreshChecked (pageUrl : string) (metaRefresh : option (string * option string))
| JsRedirectChecked (pageUrl : string) (jsRedirect : option string)
| Sig (s : Signal).

Definition onInput (st : State) (i : Input) : State :=
  match i with
  | Request requestId url redirectResponse =>
      onRequestWillBeSent st requestId url redirectResponse
  | MetaRefreshChecked pageUrl metaRefresh => onMetaRefresh st pageUrl metaRefresh
  | JsRedirectChecked pageUrl jsRedirect => onJsRedirect st pageUrl jsRedirect
  | Sig _ => st
  end.

(** The resident phase; the final state is returned with the trace. *)
Fixpoint resident (st : State) (inputs : list Input) : Trace * Ending * State :=
  match inputs with
  | [] => ([], StillResident, st)
  | Sig SIGTERM :: _ => ((handleShutdown st SIGTERM).1, ExitCode 0, st)
  | Sig SIGINT :: _ => ((handleShutdown st SIGINT).1, ExitCode 0, st)
  | Sig SIGKILL :: _ => ([], KilledBySignal, st)
  | i :: rest => resident (onInput st i) rest
  end.

(** The line that a request, or a check of the [load] listener,
    appends to the file. *)
Definition lineOf (i : Input) : option Entry :=
  match i with
  | Request requestId url (Some (from, status)) => Some (Http from url status requestId)
  | MetaRefreshChecked pageUrl (Some (content, Some url)) =>
      if Js.falsy url then None else Some (MetaRefresh pageUrl url content)
  | JsRedirectChecked pageUrl (Some url) =>
      if Js.falsy url then None else Some (Javascript pageUrl url)
  | _ => None
  end.

(** The URL of a request, when it starts with [http]. *)
Definition httpRequest (i : Input) : option string :=
  match i with
  | Request _ url _ => if negb (Js.falsy url) && Js.startsWith url "http" then Some url else None
  | _ => None
  end.

(** An input that is no signal. *)
Definition isEvent (i : Input) : bool :=
  match i with Sig _ => false | _ => true end.

(** A whole run of the hook. *)
Definition run (w : CaptureHook.World) (argv : list string) (inputs : list Input)
    : Trace * Ending :=
  match CaptureHook.main CaptureHook.redirects w argv, parseArgs argv !! "url" with
  | (t, Returned _), Some url =>
      let '(t', ending, _) := resident (initial url) inputs in (t ++ t', ending)
  | (t, Exited code), _ => (t, ExitCode code)
  | (t, _), _ => (t, StillResident)
  end.

End Redirects.

(* ===================================================================== *)
(** * on_Snapshot__21_consolelog.bg.js: the console recorder *)
(* ===================================================================== *)

Module ConsoleLog.
Import ChromeUtils.

Definition OUTPUT_FILE : string := "console.jsonl".

(** An argument of a console message, by what [serializeArgs] gets
    out of it: its JSON value, or else its [String], or neither. *)
Inductive Arg :=
| JsonValue (json : string)
| Printable (text : string)
| Opaque.

(** The body of the loop of [serializeArgs]. *)
Definition serializeArg (arg : Arg) : string :=
  match arg with
  | JsonValue json => json
  | Printable text => text
  | Opaque => "[Unserializable]"
  end.

Definition serializeArgs (args : list Arg) : list string := serializeArg <$> args.

(** One line of [console.jsonl] (the time stamp is left out), by the
    listener that wrote it. *)
Inductive Line :=
| ConsoleLine (type text : string) (args : list string) (location : string)
| PageErrorLine (text stack : string)
| RequestFailedLine (text error url : string).

(** The field [type] of a line. *)
Definition lineType (l : Line) : string :=
  match l with
  | ConsoleLine type _ _ _ => type
  | PageErrorLine _ _ => "error"
  | RequestFailedLine _ _ _ => "request_failed"
  end.

(** The variables of the module, and the content of the output file;
    [fs.appendFileSync] is taken to succeed. *)
Record State := mkState {
  logCount : Z;
  errorCount : Z;
  requestFailCount : Z;
  shuttingDown : bool;
  output : list Line
}.

Definition initial : State := mkState 0 0 0 false [].

(** The listener of [console]. *)
Definition onConsole (st : State) (type text : string) (args : list Arg)
    (location : string) : State :=
  {| logCount := logCount st + 1;
     errorCount := errorCount st;
     requestFailCount := requestFailCount st;
     shuttingDown := shuttingDown st;
     output := output st ++ [ConsoleLine type text (serializeArgs args) location] |}.

(** The listener of [pageerror]; [stack] is [None] when the error has
    no stack. *)
Definition onPageError (st : State) (message : string) (stack : option string) : State :=
  {| logCount := logCount st;
     errorCount := errorCount st + 1;
     requestFailCount := requestFailCount st;
     shuttingDown := shuttingDown st;
     output := output st ++ [PageErrorLine message (Js.orElse (default "" stack) "")] |}.

(** The listener of [requestfailed]; [failure] is the error text of
    [request.failure()], [None] when that is [null]. *)
Definition onRequestFailed (st : State) (url : string) (failure : option string) : State :=
  {| logCount := logCount st;
     errorCount := errorCount st;
     requestFailCount := requestFailCount st + 1;
     shuttingDown := shuttingDown st;
     output := output st ++
               [RequestFailedLine ("Request failed: " +:+ url)
                                  (match failure with
                                   | Some errorText => errorText
                                   | None => "Unknown error"
                                   end)
                                  url] |}.

Definition counts (st : State) : string :=
  Js.ofZ (logCount st) +:+ " console, " +:+ Js.ofZ (errorCount st) +:+ " errors, " +:+
  Js.ofZ (requestFailCount st) +:+ " failed requests".

(** [emitResult(status)] *)
Definition emitResult (st : State) (status : Status) : State * Trace :=
  if shuttingDown st then (st, [])
  else
    ({| logCount := logCount st;
        errorCount := errorCount st;
        requestFailCount := requestFailCount st;
        shuttingDown := true;
        output := output st |},
     [Stdout (JsonResult
        (mkResult status (OUTPUT_FILE +:+ " (" +:+ counts st +:+ ")") []))]).

(** [handleShutdown(signal)]: [browser] is set by the time the
    handlers are registered. *)
Definition handleShutdown (st : State) (signal : Signal) : Trace * Outcome unit :=
  let '(_, emitted) := emitResult st Succeeded in
  ([Stderr (String Js.LF "Received " +:+ Dns.signalName signal +:+
            ", emitting final results...")] ++
   emitted ++ [DisconnectBrowser],
   Exited 0).

(** What reaches the resident process. *)
Inductive Input :=
| Console (type text : string) (args : list Arg) (location : string)
| PageError (message : string) (stack : option string)
| RequestFailed (url : string) (failure : option string)
| Sig (s : Signal).

Definition onInput (st : State) (i : Input) : State :=
  match i with
  | Console type text args location => onConsole st type text args location
  | PageError message stack => onPageError st message stack
  | RequestFailed url failure => onRequestFailed st url failure
  | Sig _ => st
  end.

(** The resident phase; the final state is returned with the trace. *)
Fixpoint resident (st : State) (inputs : list Input) : Trace * Ending * State :=
  match inputs with
  | [] => ([], StillResident, st)
  | Sig SIGTERM :: _ => ((handleShutdown st SIGTERM).1, ExitCode 0, st)
  | Sig SIGINT :: _ => ((handleShutdown st SIGINT).1, ExitCode 0, st)
  | Sig SIGKILL :: _ => ([], KilledBySignal, st)
  | i :: rest => resident (onInput st i) rest
  end.

(** An input that is no signal. *)
Definition isEvent (i : Input) : bool :=
  match i with Sig _ => false | _ => true end.

(** The lines of the file by the listener that wrote them. *)
Definition isConsoleLine (l : Line) : bool :=
  match l with ConsoleLine _ _ _ _ => true | _ => false end.

Definition isPageErrorLine (l : Line) : bool :=
  match l with PageErrorLine _ _ => true | _ => false end.

Definition isRequestFailedLine (l : Line) : bool :=
  match l with RequestFailedLine _ _ _ => true | _ => false end.

Definition count (f : Line -> bool) (lines : list Line) : Z :=
  Z.of_nat (length (List.filter f lines)).

(** A whole run of the hook. *)
Definition run (w : CaptureHook.World) (argv : list string) (inputs : list Input)
    : Trace * Ending :=
  match CaptureHook.main CaptureHook.consolelog w argv with
  | (t, Returned _) =>
      let '(t', ending, _) := resident initial inputs in (t ++ t', ending)
  | (t, Exited code) => (t, ExitCode code)
  | (t, _) => (t, StillResident)
  end.

End ConsoleLog.

(* ===================================================================== *)
(** * on_Snapshot__24_responses.js: the response archiver, at shutdown *)
(* ===================================================================== *)

Module Responses.
Import ChromeUtils.

(** The variables of the module that [emitResult] reads. *)
Record State := mkState {
  responseCount : Z;
  shuttingDown : bool
}.

Definition initial : State := mkState 0 false.

(** [emitResult(status)] *)
Definition emitResult (st : State) (status : Status) : State * Trace :=
  if shuttingDown st then (st, [])
  else
    ({| responseCount := responseCount st; shuttingDown := true |},
     [Stdout (JsonResult
        (mkResult status
           (if (0 <? responseCount st)%Z
            then "responses/ (" +:+ Js.ofZ (responseCount st) +:+ " responses)"
            else "responses/") []))]).

(** [handleShutdown(signal)]: [browser] is set by the time the
    handlers are registered. *)
Definition handleShutdown (st : State) (signal : Signal) : Trace * Outcome unit :=
  let '(_, emitted) := emitResult st Succeeded in
  ([Stderr (String Js.LF "Received " +:+ Dns.signalName signal +:+
            ", emitting final results...")] ++
   emitted ++ [DisconnectBrowser],
   Exited 0).

(** What reaches the resident process: a run of the [response]
    listener, which either gets as far as its last statement,
    [responseCount += 1], or gives up before; or a signal. *)
Inductive Input := Archived | PassedOver | Sig (s : Signal).

Fixpoint resident (st : State) (inputs : list Input) : Trace * Ending :=
  match inputs with
  | [] => ([], StillResident)
  | Archived :: rest =>
      resident {| responseCount := responseCount st + 1;
                  shuttingDown := shuttingDown st |} rest
  | PassedOver :: rest => resident st rest
  | Sig SIGTERM :: _ => ((handleShutdown st SIGTERM).1, ExitCode 0)
  | Sig SIGINT :: _ => ((handleShutdown st SIGINT).1, ExitCode 0)
  | Sig SIGKILL :: _ => ([], KilledBySignal)
  | Sig SIG0 :: rest => resident st rest
  end.

(** A whole run of the hook. *)
Definition run (w : CaptureHook.World) (argv : list string) (inputs : list Input)
    : Trace * Ending :=
  match CaptureHook.main CaptureHook.responses w argv with
  | (t, Returned _) => let '(t', ending) := resident initial inputs in (t ++ t', ending)
  | (t, Exited code) => (t, ExitCode code)
  | (t, _) => (t, StillResident)
  end.

End Responses.

(* ===================================================================== *)
(** * on_Crawl__80_install_ublock_extension.js and the installer of the
      2captcha extension (priority 83): the extension installers *)
(* ===================================================================== *)

Module Installer.
Import ChromeUtils.

Inductive Plugin := Ublock | TwoCaptcha.

(** The display name in the lines of the script. *)
Definition title (p : Plugin) : string :=
  match p with Ublock => "uBlock Origin" | TwoCaptcha => "2captcha" end.

(** The marks that open some lines: a check mark, a cross, a warning
    sign, in UTF-8. *)
Definition CHECK : string :=
  String "226" (String "156" (String "147" "")).
Definition CROSS : string :=
  String "226" (String "157" (String "140" "")).
Definition WARNING : string :=
  String "226" (String "154" (String "160" (String "239" (String "184" (String "143" ""))))).

(** A line written by [installExtensionWithCache] and the functions it
    calls: with [console.log], or with [console.warn] or
    [console.error]. *)
Inductive Line := Logged (text : string) | Warned (text : string).

Definition written (l : Line) : Event :=
  match l with Logged text => Stdout (PlainText text) | Warned text => Stderr text end.

(** What the environment answers to an installer:
    [installExtensionWithCache] writes [installLines] and then returns
    the extension ([false] stands for [null]) or throws; for a thrown
    error the field holds what [console.error] shows of it. *)
Record World := mkWorld {
  env : Env;
  installLines : list Line;
  installed : string + bool
}.

(** What [main] adds once the extension is there. *)
Definition note (p : Plugin) (w : World) : Trace :=
  match p with
  | Ublock => [Stdout (PlainText "[+] Ads and trackers will be blocked during archiving")]
  | TwoCaptcha =>
      let apiKey :=
        Js.orElse (default "" (env w !! "TWOCAPTCHA_API_KEY"))
                  (default "" (env w !! "API_KEY_2CAPTCHA")) in
      if Js.falsy apiKey || String.eqb apiKey "YOUR_API_KEY_HERE" then
        [Stderr ("[" +:+ WARNING +:+
                 "] 2captcha extension installed but TWOCAPTCHA_API_KEY not configured");
         Stderr ("[" +:+ WARNING +:+
                 "] Set TWOCAPTCHA_API_KEY environment variable to enable automatic CAPTCHA solving")]
      else [Stdout (PlainText "[+] 2captcha extension installed and API key configured")]
  end.

(** The script run directly: [main()] with its [then] and [catch]. *)
Definition run (p : Plugin) (w : World) : Trace * Outcome unit :=
  match installed w with
  | inl shown =>
      ((written <$> installLines w) ++
       [Stderr ("[" +:+ CROSS +:+ "] " +:+ title p +:+ " extension setup failed: " +:+ shown)],
       Exited 1)
  | inr extension =>
      ((written <$> installLines w) ++
       (if extension then note p w else []) ++
       [Stdout (PlainText ("[" +:+ CHECK +:+ "] " +:+ title p +:+ " extension setup complete"))],
       Exited 0)
  end.

End Installer.

(* ===================================================================== *)
(** * Readings of a trace *)
(* ===================================================================== *)

(** The signals sent during a run, in order. *)
Definition signals (t : Trace) : list (Z * Signal) :=
  omap (fun e => match e with Kill pid sig => Some (pid, sig) | _ => None end) t.

(** What the reaper may send: a probe of a positive process id, or a
    [SIGKILL] for a process id, or its group, that is probed in [sent]. *)
Definition reaperSignal (sent : list (Z * Signal)) (ps : Z * Signal) : Prop :=
  (ps.2 = SIG0 /\ 0 < ps.1) \/
  (ps.2 = SIGKILL /\ ps.1 <> 0 /\ (Z.abs ps.1, SIG0) ∈ sent).

(** The files handed to [fs.unlinkSync], in order. *)
Definition unlinked (t : Trace) : list string :=
  omap (fun e => match e with Unlink path => Some path | _ => None end) t.

(** The files handed to [fs.writeFileSync], in order. *)
Definition written (t : Trace) : list (string * string) :=
  omap (fun e => match e with WriteFile path body => Some (path, body) | _ => None end) t.





(** A run that calls [browser.close()]. *)
Definition closesBrowser (t : Trace) : bool :=
  existsb (fun e => match e with CloseBrowser => true | _ => false end) t.

(* ===================================================================== *)
(** * chrome_utils.js: process look-up, page-load wait, extension ids,
      binary discovery *)
(* ===================================================================== *)

Module ChromeHelpers.
Import ChromeUtils.

(** The body of the loop of [findChromeProcessesByPort]: a line of the
    [ps] pipeline gives a process id when it parses to a positive
    number. *)
Definition pidOfLine (line : string) : option Z :=
  match Js.parseInt (Js.trim line) with
  | Some pid => if (0 <? pid)%Z then Some pid else None
  | None => None
  end.

(** [findChromeProcessesByPort(port)]; [output] is what [execSync]
    returns for the pipeline, [None] when it throws. *)
Definition findChromeProcessesByPort (output : option string) : list Z :=
  match output with
  | Some out => omap pidOfLine (Js.split Js.LF out)
  | None => []
  end.

(** The loop of [waitForPageLoaded]:
    [while (!fs.existsSync(marker) && waitTime < timeoutMs) { await sleep(100); waitTime += 100; }].
    [present k] is the answer of the [k]-th call of [fs.existsSync];
    the result is the number of the next call and the time waited. *)
Fixpoint pollMarker (fuel : nat) (present : nat -> bool) (timeoutMs : Z)
    (k : nat) (waitTime : Z) : option (nat * Z) :=
  match fuel with
  | O => None
  | S fuel' =>
      if negb (present k) && (waitTime <? timeoutMs)%Z
      then pollMarker fuel' present timeoutMs (S k) (waitTime + 100)
      else Some (S k, waitTime)
  end.

Definition navigationTimeout : Js.Error :=
  Js.newError "Timeout waiting for navigation (chrome_navigate did not complete)".

(** [waitForPageLoaded(chromeSessionDir, timeoutMs, postLoadDelayMs)]:
    the milliseconds slept and how the call ends.  [None]: [fuel] did
    not suffice for the loop. *)
Definition waitForPageLoaded (fuel : nat) (present : nat -> bool)
    (timeoutMs postLoadDelayMs : Z) : option (Z * (Js.Error + unit)) :=
  match pollMarker fuel present timeoutMs 0 0 with
  | None => None
  | Some (k, waitTime) =>
      if negb (present k) then Some (waitTime, inl navigationTimeout)
      else if (0 <? postLoadDelayMs)%Z then Some (waitTime + postLoadDelayMs, inr ())
      else Some (waitTime, inr ())
  end.

(** The looks that suffice for a timeout: one per 100 ms step, and the
    one that ends the loop. *)
Definition looksFor (timeoutMs : Z) : nat := S (Z.to_nat ((timeoutMs + 99) / 100)).

(** [parseInt(i, 16)] for a one-character string. *)
Definition hexVal (c : ascii) : option nat :=
  let n := nat_of_ascii c in
  if ((48 <=? n) && (n <=? 57))%nat then Some (n - 48)%nat
  else if ((97 <=? n) && (n <=? 102))%nat then Some (n - 87)%nat
  else if ((65 <=? n) && (n <=? 70))%nat then Some (n - 55)%nat
  else None.

(** [String.fromCharCode(parseInt(i, 16) + 'a'.charCodeAt(0))]; the
    character of code [NaN] is the character of code 0. *)
Definition idChar (c : ascii) : ascii :=
  match hexVal c with
  | Some v => ascii_of_nat (v + 97)
  | None => zero
  end.

(** [getExtensionId(unpacked_path)]; [realpath] is [fs.realpathSync]
    ([None] when it throws), [sha256hex] the digest of a string in
    hexadecimal. *)
Definition getExtensionId (realpath : string -> option string)
    (sha256hex : string -> string) (unpacked_path : string) : string :=
  let resolved_path := default unpacked_path (realpath unpacked_path) in
  Js.mapChars idChar (Js.take 32 (sha256hex resolved_path)).

(** A character of an extension id: a letter from a to p. *)
Definition idLetter (c : ascii) : bool :=
  let n := nat_of_ascii c in ((97 <=? n) && (n <=? 112))%nat.

Definition hexDigit (c : ascii) : bool :=
  match hexVal c with Some _ => true | None => false end.

Fixpoint allChars (f : ascii -> bool) (s : string) : bool :=
  match s with
  | String c s' => f c && allChars f s'
  | EmptyString => true
  end.

Section FindChromium.
Variable resolve : string -> string.                  (* path.resolve *)
Variable join : string -> string -> string.           (* path.join *)
Variable existsSync : string -> bool.                 (* fs.existsSync *)
Variable runs : string -> bool.                       (* execSync of the version probe returns *)
Variable readdir : string -> option (list string).    (* fs.readdirSync; None: it throws *)
Variable newestFirst : list string -> list string.    (* versions.sort().reverse() *)

(** The helper [validateBinary] of [findChromium]. *)
Definition validateBinary (binaryPath : string) : bool :=
  if Js.falsy binaryPath || negb (existsSync binaryPath) then false
  else runs binaryPath.

Definition puppeteerCandidates (versionDir : string) : list string :=
  [ join versionDir "chrome-mac-arm64/Chromium.app/Contents/MacOS/Chromium";
    join versionDir "chrome-mac/Chromium.app/Contents/MacOS/Chromium";
    join versionDir "chrome-mac-x64/Chromium.app/Contents/MacOS/Chromium";
    join versionDir "chrome-linux64/chrome";
    join versionDir "chrome-linux/chrome" ].

(** The helper [findInPuppeteerDir]: the first candidate that exists,
    versions taken newest first. *)
Definition findInPuppeteerDir (baseDir : string) : option string :=
  if negb (existsSync baseDir) then None
  else
    match readdir baseDir with
    | None => None
    | Some versions =>
        List.find existsSync
          (concat ((fun version => puppeteerCandidates (join baseDir version))
                     <$> newestFirst versions))
    end.

Definition fallbackLocations (home : string) : list string :=
  [ "/Applications/Chromium.app/Contents/MacOS/Chromium";
    "/usr/bin/chromium";
    "/usr/bin/chromium-browser";
    join home ".cache/puppeteer/chromium";
    join home ".cache/puppeteer" ].

(** [for (const loc of fallbackLocations)] *)
Fixpoint searchFallbacks (locs : list string) : option string :=
  match locs with
  | [] => None
  | loc :: rest =>
      if Js.includes loc ".cache/puppeteer" then
        match findInPuppeteerDir loc with
        | Some binary =>
            if negb (Js.falsy binary) && validateBinary binary then Some binary
            else searchFallbacks rest
        | None => searchFallbacks rest
        end
      else if validateBinary loc then Some loc
      else searchFallbacks rest
  end.

(** [findChromium()]: the warnings written to stderr and the binary
    found, [None] for [null]. *)
Definition findChromium (env : Env) : Trace * option string :=
  let chromeBinary := getEnv env "CHROME_BINARY" "" in
  let fallback := searchFallbacks (fallbackLocations (Js.orElse (default "" (env !! "HOME")) "")) in
  let invalid :=
    Stderr ("[!] Warning: CHROME_BINARY=" +:+ String Js.DQUOTE chromeBinary +:+
            String Js.DQUOTE " is not valid") in
  if Js.falsy chromeBinary then
    ([Stderr "[!] Warning: CHROME_BINARY not set, searching system locations..."], fallback)
  else
    let absPath := resolve chromeBinary in
    if Js.includes absPath "Google Chrome" || Js.includes absPath "google-chrome" then
      ([Stderr "[!] Warning: CHROME_BINARY points to Chrome. Chromium is required for extension support.";
        invalid],
       fallback)
    else if validateBinary absPath then ([], Some absPath)
    else ([invalid], fallback).
End FindChromium.

End ChromeHelpers.

(* ===================================================================== *)
(** * on_Snapshot__11_chrome_wait.js: the foreground wait for the tab *)
(* ===================================================================== *)

Module ChromeWait.
Import ChromeUtils.

(** What the hook finds: the environment, what the poll of the marker
    files sees, and the two files as they are when read after the wait
    ([None]: the file is not there; a file that is there is taken to
    be readable). *)
Record World := mkWorld {
  env : Env;
  polling : Polling;
  cdpFile : option string;
  targetIdFile : option string
}.

(** [getEnvInt('CHROME_TAB_TIMEOUT', getEnvInt('CHROME_TIMEOUT', getEnvInt('TIMEOUT', 60)))] *)
Definition timeoutSeconds (env : Env) : Z :=
  getEnvInt env "CHROME_TAB_TIMEOUT"
    (getEnvInt env "CHROME_TIMEOUT" (getEnvInt env "TIMEOUT" 60)).

Definition notReady (timeoutSeconds : Z) : string :=
  "Chrome session not ready after " +:+ Js.ofZ timeoutSeconds +:+
  "s (cdp_url.txt/target_id.txt missing)".

Definition incomplete : string :=
  "Chrome session files incomplete (cdp_url.txt/target_id.txt missing)".

(** The two statements that report a failure and the exit that follows. *)
Definition fail (error : string) : Trace * Outcome unit :=
  ([Stderr ("[chrome_wait] ERROR: " +:+ error);
    Stdout (JsonResult (mkResult Failed error []))],
   Exited 1).

(** [main()].  [None]: [fuel] did not suffice for the wait. *)
Definition main (fuel : nat) (w : World) (argv : list string)
    : option (Trace * Outcome unit) :=
  let args := parseArgs argv in
  match args !! "url", args !! "snapshot_id" with
  | Some _, Some _ =>
      let timeoutSeconds := timeoutSeconds (env w) in
      let timeoutMs := timeoutSeconds * 1000 in
      let hello :=
        Stderr ("[chrome_wait] Waiting for Chrome session (timeout=" +:+
                Js.ofZ timeoutSeconds +:+ "s)...") in
      match waitForChromeSession fuel (polling w) timeoutMs with
      | None => None
      | Some false =>
          let '(t, o) := fail (notReady timeoutSeconds) in Some (hello :: t, o)
      | Some true =>
          let cdpUrl := readTrimmed (cdpFile w) in
          let targetId := readTrimmed (targetIdFile w) in
          if missing cdpUrl || missing targetId then
            let '(t, o) := fail incomplete in Some (hello :: t, o)
          else
            Some ([hello;
                   Stderr ("[chrome_wait] Chrome session ready (cdp_url=" +:+
                           Js.take 32 (default "" cdpUrl) +:+ "..., target_id=" +:+
                           default "" targetId +:+ ").");
                   Stdout (JsonResult (mkResult Succeeded "chrome session ready" []))],
                  Exited 0)
      end
  | _, _ =>
      Some ([Stderr "Usage: on_Snapshot__11_chrome_wait.js --url=<url> --snapshot-id=<uuid>"],
            Exited 1)
  end.

End ChromeWait.

(* ===================================================================== *)
(** * Readings of the recorders' files *)
(* ===================================================================== *)

(** What a line of [dns.jsonl] looks like: the host name of its URL,
    the protocol of its URL, and either an address with the record
    type that fits it, or the sentinel type with the error text of a
    failed name resolution. *)
Definition dnsLine (extractHostname : string -> option string) (r : Dns.DnsRecord) : Prop :=
  Dns.hostname r <> "" /\
  extractHostname (Dns.url r) = Some (Dns.hostname r) /\
  Dns.protocol r = Dns.protocolOf (Dns.url r) /\
  match Dns.ip r with
  | Some a =>
      a <> "" /\ a <> Dns.hostname r /\
      Dns.rtype r = (if Js.includes a ":" then "AAAA" else "A") /\
      Dns.port r <> Some 0 /\
      Dns.error r = None
  | None =>
      Dns.rtype r = "NXDOMAIN" /\ Dns.port r = None /\
      exists e, Dns.error r = Some e /\
        (Js.includes e "net::ERR_NAME_NOT_RESOLVED"
         || Js.includes e "net::ERR_NAME_RESOLUTION_FAILED") = true
  end.

(** What the static-file downloader has put into its directory: one
    file under the name it reports, a name of at most 200 characters of
    the class [a-zA-Z0-9._-]; or nothing. *)
Definition downloadKept (st : StaticFile.State) : Prop :=
  match StaticFile.downloadedFilePath st with
  | Some f =>
      ChromeHelpers.allChars StaticFile.safeChar f = true /\
      (String.length f <= 200)%nat /\
      StaticFile.downloadError st = None /\
      exists buffer, StaticFile.files st = {[ f := buffer ]}
  | None => StaticFile.files st = ∅
  end.

(** A response that the listener of the TLS extractor takes up: the
    navigation request of the main frame, for the target URL up to its
    query. *)
Definition tlsCandidate (url : string) (r : Ssl.Response) : bool :=
  Ssl.isNavigationRequest r && Ssl.inMainFrame r &&
  Js.startsWith (Ssl.responseUrl r) (Ssl.beforeQuery url).

(* ===================================================================== *)
(** * Sample inputs *)
(* ===================================================================== *)

Module Sample.

Definition tab : string := String Js.TAB "".

(** A host-only cookie line whose domain field starts with two dots. *)
Definition dottedLine : string :=
  "..example.com" +:+ tab +:+ "FALSE" +:+ tab +:+ "/" +:+ tab +:+ "FALSE" +:+ tab +:+
  "0" +:+ tab +:+ "sid" +:+ tab +:+ "abc".

(** A well-formed line for a domain and its subdomains. *)
Definition subdomainLine : string :=
  "example.com" +:+ tab +:+ "TRUE" +:+ tab +:+ "/" +:+ tab +:+ "TRUE" +:+ tab +:+
  "1700000000" +:+ tab +:+ "sid" +:+ tab +:+ "abc".

(** An environment whose configured flags set the debugging address. *)
Definition addressEnv : gmap string string :=
  {[ "CHROME_ARGS" := "--remote-debugging-address=0.0.0.0" ]}.

(** The plugins that share the life cycle of [CaptureHook]. *)
Definition capturePlugins : list CaptureHook.Config :=
  [ CaptureHook.consolelog; Dns.config; Ssl.config; CaptureHook.responses;
    CaptureHook.redirects; StaticFile.config ].

Definition plainLaunch : ChromeUtils.LaunchOptions :=
  ChromeUtils.mkLaunch "" 1440 2000 true true true [].

(** A machine on which process 4242 answers the liveness probe but
    cannot be signalled any more (it ends between the probe and the
    kill), under a crawl directory last modified at time 0. *)
Definition vanishing : ChromeUtils.Sys unit :=
  ChromeUtils.mkSys unit
    (fun _ _ => Some 0)
    (fun _ _ => Some "4242")
    (fun _ _ sig => (tt, match sig with SIG0 => true | _ => false end))
    (fun _ _ => (tt, true)).

(** A machine on which process 4242 is gone. *)
Definition gone : ChromeUtils.Sys unit :=
  ChromeUtils.mkSys unit
    (fun _ _ => Some 0)
    (fun _ _ => Some "4242")
    (fun _ _ _ => (tt, false))
    (fun _ _ => (tt, true)).

Definition marker : ChromeUtils.Candidate :=
  ChromeUtils.mkCandidate "data/crawl1/chrome/chrome.pid" "data/crawl1".

(** Marker files that are there at the first look. *)
Definition ready : ChromeUtils.Polling := ChromeUtils.mkPolling (fun _ => 0) (fun _ => true).

Definition tabT1 : ChromeUtils.Page := ChromeUtils.mkPage (Some (ChromeUtils.mkTarget "T1")).
Definition tabT2 : ChromeUtils.Page := ChromeUtils.mkPage (Some (ChromeUtils.mkTarget "T2")).


(** The header [attachment; filename="x.pdf"]. *)
Definition attachment : string :=
  "attachment; filename=" +:+ String Js.DQUOTE ("x.pdf" +:+ String Js.DQUOTE "").

Definition pdfHeaders : gmap string string :=
  {[ "content-type" := "application/pdf"; "content-disposition" := attachment ]}.

(** A four-byte PDF served for the navigated URL. *)
Definition pdfResponse : StaticFile.Response :=
  StaticFile.mkResponse "https://example.com/doc" pdfHeaders 200 (inr "%PDF") None.

(** The same URL answered with status 503 and no body of interest. *)
Definition unavailable : StaticFile.Response :=
  StaticFile.mkResponse "https://example.com/doc" ∅ 503 (inr "") None.

(** A URL parser that knows two URLs. *)
Definition hostOf (url : string) : option string :=
  if String.eqb url "http://example.com/" then Some "example.com"
  else if String.eqb url "http://10.0.0.1/" then Some "10.0.0.1"
  else None.


Definition connection : ChromeUtils.Connection :=
  ChromeUtils.mkConnection tabT1 (Some "T1") "ws://127.0.0.1:9222/devtools/browser/b".

(** A world with an empty environment in which every call succeeds. *)
Definition world : CaptureHook.World :=
  CaptureHook.mkWorld ∅ None (inr connection) None true.

(** The same world with one variable set. *)
Definition worldWith (name value : string) : CaptureHook.World :=
  CaptureHook.mkWorld {[ name := value ]} None (inr connection) None true.

(** The screenshot plugin switched off, with a session it could use. *)
Definition screenshotOff : Screenshot.World :=
  Screenshot.mkWorld {[ "SCREENSHOT_ENABLED" := "false" ]} false true
                     (Some "ws://127.0.0.1:9222/devtools/browser/b")
                     (Some "T1") (inr (inr ())) (inr 2048).

End Sample.

(** Further sample inputs. *)
Module Scenario.

(** What the [ps] pipeline prints for two processes. *)
Definition psOutput : string :=
  "4242" +:+ String Js.LF ("4300" +:+ String Js.LF "").

(** A clock that advances by 100 ms per look, and marker files that
    are there from the third look on. *)
Definition ticking : ChromeUtils.Polling :=
  ChromeUtils.mkPolling (fun k => 100 * Z.of_nat k) (fun k => (3 <=? k)%nat).

(** The tab's directory as the foreground wait finds it. *)
Definition tabReady : ChromeWait.World :=
  ChromeWait.mkWorld ∅ ticking (Some "ws://127.0.0.1:9222/devtools/browser/b") (Some "T1").



(** A machine with one browser, at [/usr/bin/chromium]. *)
Definition onlySystemChromium (path : string) : bool := String.eqb path "/usr/bin/chromium".

(** A digest of 64 hexadecimal digits. *)
Definition digest : string :=
  "9f86d081884c7d659a2feaa0c55ad015a3bf4f1b2b0b822cd15d6c15b0f00a08".

End Scenario.

(* ===================================================================== *)
(** * Properties *)
(* ===================================================================== *)

(** ** Strings *)

Lemma startsWith_cons (c : ascii) (s p : string) :
  Js.startsWith (String c s) (String c p) = Js.startsWith s p.
Proof.
  unfold Js.startsWith. simpl. destruct (ascii_dec c c); [reflexivity | congruence].
Qed.

Lemma startsWith_empty (s : string) : Js.startsWith s "" = true.
Proof. destruct s; reflexivity. Qed.

Lemma startsWith_head (c d : ascii) (s p : string) :
  Js.startsWith (String c s) (String d p) = true -> c = d.
Proof.
  unfold Js.startsWith. simpl. destruct (ascii_dec d c); [congruence | discriminate].
Qed.

(** ** Cookie import *)

Section Cookies.
Import ChromeLaunch.

Lemma adjustDomain_subdomains (d : string) :
  Js.startsWith (adjustDomain true d) "." = true.
Proof.
  unfold adjustDomain. simpl.
  destruct (Js.startsWith d ".") eqn:E; simpl.
  - exact E.
  - change (Js.startsWith (String "."%char d) (String "."%char "") = true).
    rewrite startsWith_cons. apply startsWith_empty.
Qed.

Lemma adjustDomain_added (d : string) :
  Js.startsWith d "." = false -> adjustDomain true d = "." +:+ d.
Proof. intros E. unfold adjustDomain. simpl. rewrite E. reflexivity. Qed.

Lemma adjustDomain_removed (d : string) :
  Js.startsWith d "." = true -> adjustDomain false d = Js.drop 1 d.
Proof. intros E. unfold adjustDomain. simpl. rewrite E. reflexivity. Qed.

Lemma adjustDomain_host_only (d : string) :
  Js.startsWith d ".." = false -> Js.startsWith (adjustDomain false d) "." = false.
Proof.
  intros E. unfold adjustDomain. simpl.
  destruct (Js.startsWith d ".") eqn:E1; [| exact E1].
  destruct d as [| c d']; [discriminate |].
  pose proof (startsWith_head _ _ _ _ E1) as ->.
  rewrite startsWith_cons in E. simpl. exact E.
Qed.

Lemma chunksFrom_bounded (fuel i : nat) (cs : list Cookie) :
  Forall (fun ic => (length ic.2 <= chunkSize)%nat) (chunksFrom fuel i cs).
Proof.
  revert i. induction fuel as [| fuel IH]; intros i; simpl; [constructor |].
  destruct (i <? length cs)%nat; constructor; [| apply IH].
  simpl. rewrite length_take. lia.
Qed.

Lemma chunksFrom_covers (fuel i : nat) (cs : list Cookie) :
  (length cs - i <= fuel)%nat ->
  concat (snd <$> chunksFrom fuel i cs) = drop i cs.
Proof.
  revert i. induction fuel as [| fuel IH]; intros i Hfuel; simpl.
  - symmetry. apply drop_ge. lia.
  - destruct (Nat.ltb_spec i (length cs)) as [Hlt | Hge]; simpl.
    + rewrite IH by (unfold chunkSize; lia).
      rewrite <- (take_drop chunkSize (drop i cs)) at 2.
      rewrite drop_drop. reflexivity.
    + symmetry. apply drop_ge. lia.
Qed.

Lemma chunks_cover (cs : list Cookie) : concat (snd <$> chunks cs) = cs.
Proof. unfold chunks. rewrite chunksFrom_covers by lia. reflexivity. Qed.

Lemma setCookiesBatches_app (t1 t2 : Trace) :
  setCookiesBatches (t1 ++ t2) = setCookiesBatches t1 ++ setCookiesBatches t2.
Proof. unfold setCookiesBatches. apply omap_app. Qed.

Lemma sendAll_batches (sendOk : nat -> bool) (cs : list (nat * list Cookie)) :
  setCookiesBatches (sendAll sendOk cs).1 = (fun ic => length ic.2) <$> cs.
Proof.
  induction cs as [| c cs IH]; [reflexivity |].
  simpl. destruct (sendAll sendOk cs) as [t2 n2] eqn:E. simpl in IH.
  unfold sendChunk. destruct (sendOk c.1); simpl; rewrite IH; reflexivity.
Qed.

Lemma parse_fold (lines : list string) (acc : list Cookie * Z) :
  fold_left parseStep lines acc =
  (acc.1 ++ omap (fun l => parsedCookie (parseLine l)) lines,
   acc.2 + Z.of_nat (length (filter (fun l => isMalformed (parseLine l) = true) lines))).
Proof.
  revert acc. induction lines as [| l lines IH]; intros [cs k]; simpl.
  - rewrite app_nil_r. f_equal. lia.
  - rewrite IH. unfold parseStep. rewrite filter_cons.
    destruct (parseLine l); simpl.
    + reflexivity.
    + f_equal. lia.
    + rewrite <- app_assoc. reflexivity.
Qed.

Lemma import_batches (cookiesFile userDataDir : string) (file : File)
    (sessionError : option Js.Error) (sendOk : nat -> bool) :
  let batches :=
    setCookiesBatches
      (importCookiesFromFile cookiesFile file userDataDir sessionError sendOk).1 in
  batches = [] \/
  exists contents,
    file = Contents contents /\
    batches = (fun ic => length ic.2) <$> chunks (parseCookiesTxt contents).1.
Proof.
  unfold importCookiesFromFile.
  destruct (Js.falsy cookiesFile); [left; reflexivity |].
  destruct file as [| | contents]; [left; reflexivity | left; reflexivity |].
  destruct (parseCookiesTxt contents) as [cookies nSkipped] eqn:E.
  destruct (length cookies =? 0)%nat; [left; reflexivity |].
  destruct sessionError as [e |].
  - left. destruct (nSkipped =? 0)%Z, (Js.falsy userDataDir); reflexivity.
  - right. exists contents. split; [reflexivity |].
    rewrite E. simpl.
    pose proof (sendAll_batches sendOk (chunks cookies)) as Hs.
    destruct (sendAll sendOk (chunks cookies)) as [sent imported].
    unfold setCookiesBatches in *.
    destruct (nSkipped =? 0)%Z, (Js.falsy userDataDir); simpl in *;
      rewrite omap_app; simpl; rewrite app_nil_r; exact Hs.
Qed.

Lemma import_batches_sent (cookiesFile userDataDir contents : string)
    (sendOk : nat -> bool) :
  Js.falsy cookiesFile = false ->
  setCookiesBatches
    (importCookiesFromFile cookiesFile (Contents contents) userDataDir None sendOk).1 =
  (fun ic => length ic.2) <$> chunks (parseCookiesTxt contents).1.
Proof.
  intros Hfile. unfold importCookiesFromFile. rewrite Hfile.
  destruct (parseCookiesTxt contents) as [cookies nSkipped] eqn:E.
  destruct (Nat.eqb_spec (length cookies) 0) as [Hz | Hnz].
  - destruct cookies; [reflexivity | discriminate].
  - simpl.
    pose proof (sendAll_batches sendOk (chunks cookies)) as Hs.
    destruct (sendAll sendOk (chunks cookies)) as [sent imported].
    unfold setCookiesBatches in *.
    destruct (nSkipped =? 0)%Z, (Js.falsy userDataDir); simpl in *;
      rewrite omap_app; simpl; rewrite app_nil_r; exact Hs.
Qed.

(** C9, as the claim states it, fails: a well-formed host-only line
    (include-subdomains FALSE) whose domain field starts with two dots
    yields a record whose domain still starts with a dot, because only
    the first character is removed. *)
Lemma cookie_double_dot_keeps_leading_dot :
  lineFields Sample.dottedLine =
    Some (false, ["..example.com"; "FALSE"; "/"; "FALSE"; "0"; "sid"; "abc"]) /\
  isTRUE "FALSE" = false /\
  parseLine Sample.dottedLine =
    Parsed (mkCookie "sid" "abc" ".example.com" "/" false false None) /\
  Js.startsWith ".example.com" "." = true.
Proof. repeat split; vm_compute; reflexivity. Qed.

(** C9, amended.  For every Netscape cookie file handed to the launcher:
    - the parse never aborts: the records are those of the lines that
      parse, in order, and [skipped] counts the malformed lines;
    - a data line (after trimming and the [#HttpOnly_] prefix) with fewer
      than 7 tab-separated fields, or an empty name or domain, is counted
      as malformed and yields no record;
    - any other data line yields a record whose domain is the domain
      field with one dot put in front when include-subdomains is TRUE
      (in any letter case) and the field has none, and with its first
      character removed when include-subdomains is not TRUE and the field
      starts with a dot; so the domain starts with a dot whenever
      include-subdomains is TRUE, and does not start with one when it is
      not TRUE unless the field started with two dots;
    - every [Network.setCookies] call carries at most 200 records, and
      when the session opens the calls carry, chunk after chunk, exactly
      the parsed records. *)
Theorem cookie_import_contract
    (contents cookiesFile userDataDir : string)
    (sessionError : option Js.Error) (sendOk : nat -> bool) :
  let lines := Js.splitLines contents in
  let result := parseCookiesTxt contents in
  let run :=
    importCookiesFromFile cookiesFile (Contents contents) userDataDir sessionError sendOk in
  result.1 = omap (fun l => parsedCookie (parseLine l)) lines /\
  result.2 = Z.of_nat (length (filter (fun l => isMalformed (parseLine l) = true) lines)) /\
  (forall line httpOnly parts,
     lineFields line = Some (httpOnly, parts) ->
     ((length parts < 7)%nat \/ parts !! 5%nat = Some "" \/ parts !! 0%nat = Some "" ->
      parseLine line = Malformed) /\
     (forall d i n,
        (7 <= length parts)%nat ->
        parts !! 0%nat = Some d -> parts !! 1%nat = Some i -> parts !! 5%nat = Some n ->
        d <> "" -> n <> "" ->
        exists c,
          parseLine line = Parsed c /\
          domain c = adjustDomain (isTRUE i) d /\
          (isTRUE i = true -> Js.startsWith (domain c) "." = true) /\
          (isTRUE i = true -> Js.startsWith d "." = false -> domain c = "." +:+ d) /\
          (isTRUE i = false -> Js.startsWith d "." = true -> domain c = Js.drop 1 d) /\
          (isTRUE i = false -> Js.startsWith d ".." = false ->
           Js.startsWith (domain c) "." = false))) /\
  Forall (fun n => (n <= 200)%nat) (setCookiesBatches run.1) /\
  (Js.falsy cookiesFile = false -> sessionError = None ->
   setCookiesBatches run.1 = (fun ic => length ic.2) <$> chunks result.1 /\
   concat (snd <$> chunks result.1) = result.1).
Proof.
  cbv zeta.
  split; [unfold parseCookiesTxt; rewrite parse_fold; reflexivity |].
  split; [unfold parseCookiesTxt; rewrite parse_fold; reflexivity |].
  split; [| split].
  - intros line httpOnly parts Hf. unfold parseLine. rewrite Hf. split.
    + intros H.
      destruct parts as [| d [| i [| p [| s [| e [| n [| v rest]]]]]]];
        try reflexivity.
      unfold cookieOfParts. simpl in H.
      destruct H as [H | [H | H]]; [lia | |]; injection H as ->.
      * reflexivity.
      * destruct (Js.falsy n); reflexivity.
    + intros d i n Hlen Hd Hi Hn Hdne Hnne.
      destruct parts as [| d' [| i' [| p [| s [| e [| n' [| v rest]]]]]]];
        simpl in Hlen; try lia.
      simpl in Hd, Hi, Hn. injection Hd as ->. injection Hi as ->. injection Hn as ->.
      unfold cookieOfParts.
      assert (Js.falsy n = false) as -> by (destruct n; [congruence | reflexivity]).
      assert (Js.falsy d = false) as -> by (destruct d; [congruence | reflexivity]).
      simpl. eexists. split; [reflexivity |]. simpl.
      split; [reflexivity |].
      split; [intros ->; apply adjustDomain_subdomains |].
      split; [intros ->; apply adjustDomain_added |].
      split; [intros ->; apply adjustDomain_removed |].
      intros ->; apply adjustDomain_host_only.
  - pose proof (import_batches cookiesFile userDataDir (Contents contents)
                               sessionError sendOk) as [-> | (c & Hc & ->)];
      [constructor |].
    rewrite Forall_fmap. eapply Forall_impl; [apply chunksFrom_bounded |].
    intros ic Hic. exact Hic.
  - intros Hfile ->. split; [| apply chunks_cover].
    apply import_batches_sent. exact Hfile.
Qed.

(** The contract at a sample file: the line for a domain and its
    subdomains yields a record whose domain starts with a dot. *)
Lemma cookie_import_contract_witness :
  exists c,
    parseLine Sample.subdomainLine = Parsed c /\ Js.startsWith (domain c) "." = true.
Proof.
  destruct (cookie_import_contract Sample.subdomainLine "cookies.txt" "" None (fun _ => true))
    as (_ & _ & H & _).
  destruct (H Sample.subdomainLine false
              ["example.com"; "TRUE"; "/"; "TRUE"; "1700000000"; "sid"; "abc"] eq_refl)
    as [_ H2].
  destruct (H2 "example.com" "TRUE" "sid") as (c & Hc & _ & Hdot & _);
    [simpl; lia | reflexivity | reflexivity | reflexivity | discriminate | discriminate |].
  exists c. split; [exact Hc | apply Hdot; reflexivity].
Defined.

End Cookies.

(** ** The command line of the shared browser *)

Section CommandLine.
Import ChromeUtils.

Lemma chromiumArgs_shape (baseArgs extraArgs : list string) (debugPort : Z)
    (o : LaunchOptions) :
  exists rest,
    chromiumArgs baseArgs extraArgs debugPort o =
    baseArgs ++ dynamicArgs debugPort o ++ extraArgs ++ rest.
Proof.
  unfold chromiumArgs.
  set (args := baseArgs ++ dynamicArgs debugPort o ++ extraArgs).
  destruct (bool_decide ("--use-mock-keychain" ∈ args));
    destruct (0 <? length (extensionPaths o))%nat;
    eexists; subst args; repeat rewrite <- app_assoc; reflexivity.
Qed.

(** C2, as the claim states it, fails: with the configured flag
    [--remote-debugging-address=0.0.0.0] and the computed flag
    [--remote-debugging-address=127.0.0.1] (same key, different values)
    the command line carries both. *)
Lemma chromiumArgs_keeps_both_values :
  getEnvArray (fun _ => None) Sample.addressEnv "CHROME_ARGS" [] =
    [switch "remote-debugging-address" "0.0.0.0"] /\
  In (switch "remote-debugging-address" "127.0.0.1") (dynamicArgs 9222 Sample.plainLaunch) /\
  chromiumArgsFromEnv (fun _ => None) Sample.addressEnv 9222 Sample.plainLaunch =
    [ "--remote-debugging-address=0.0.0.0";
      "--remote-debugging-port=9222";
      "--remote-debugging-address=127.0.0.1";
      "--disable-dev-shm-usage";
      "--disable-gpu";
      "--window-size=1440,2000";
      "--headless=new";
      "--use-mock-keychain";
      "about:blank" ].
Proof.
  split; [vm_compute; reflexivity |].
  split; [vm_compute; tauto | vm_compute; reflexivity].
Qed.

(** C2, amended.  The effective command line is the configured base
    flags, then the computed dynamic flags, then the user-supplied
    extra flags, each passed on unchanged and followed only by fixed
    trailing arguments.  A base flag and a dynamic flag (whether or not
    they share a key) are therefore both on the command line, the base
    flag at an earlier position, and likewise a dynamic flag comes
    before an extra flag; nothing is removed, so a later flag can
    override an earlier one only inside the browser. *)
Theorem chromiumArgs_concatenates (baseArgs extraArgs : list string) (debugPort : Z)
    (o : LaunchOptions) :
  let args := chromiumArgs baseArgs extraArgs debugPort o in
  (exists rest, args = baseArgs ++ dynamicArgs debugPort o ++ extraArgs ++ rest) /\
  (forall a b, a ∈ baseArgs -> b ∈ dynamicArgs debugPort o ->
     exists i j, args !! i = Some a /\ args !! j = Some b /\ (i < j)%nat) /\
  (forall b c, b ∈ dynamicArgs debugPort o -> c ∈ extraArgs ->
     exists j k, args !! j = Some b /\ args !! k = Some c /\ (j < k)%nat).
Proof.
  cbv zeta. destruct (chromiumArgs_shape baseArgs extraArgs debugPort o) as [rest ->].
  split; [eexists; reflexivity |]. split.
  - intros a b [i Hi]%list_elem_of_lookup [j Hj]%list_elem_of_lookup.
    exists i, (length baseArgs + j)%nat.
    pose proof (lookup_lt_Some _ _ _ Hi).
    split; [apply lookup_app_l_Some; exact Hi |].
    split; [| lia].
    rewrite lookup_app_r by lia.
    replace (length baseArgs + j - length baseArgs)%nat with j by lia.
    apply lookup_app_l_Some; exact Hj.
  - intros b c [j Hj]%list_elem_of_lookup [k Hk]%list_elem_of_lookup.
    exists (length baseArgs + j)%nat,
           (length baseArgs + (length (dynamicArgs debugPort o) + k))%nat.
    pose proof (lookup_lt_Some _ _ _ Hj).
    split; [| split; [| lia]].
    + rewrite lookup_app_r by lia.
      replace (length baseArgs + j - length baseArgs)%nat with j by lia.
      apply lookup_app_l_Some; exact Hj.
    + rewrite lookup_app_r by lia.
      replace (length baseArgs + (length (dynamicArgs debugPort o) + k) - length baseArgs)%nat
        with (length (dynamicArgs debugPort o) + k)%nat by lia.
      rewrite lookup_app_r by lia.
      replace (length (dynamicArgs debugPort o) + k - length (dynamicArgs debugPort o))%nat
        with k by lia.
      apply lookup_app_l_Some; exact Hk.
Qed.

(** The concatenation at the sample environment: the configured
    address flag sits before the computed one. *)
Lemma chromiumArgs_concatenates_witness :
  exists i j,
    chromiumArgs ["--remote-debugging-address=0.0.0.0"] [] 9222 Sample.plainLaunch !! i =
      Some "--remote-debugging-address=0.0.0.0" /\
    chromiumArgs ["--remote-debugging-address=0.0.0.0"] [] 9222 Sample.plainLaunch !! j =
      Some "--remote-debugging-address=127.0.0.1" /\
    (i < j)%nat.
Proof.
  destruct (chromiumArgs_concatenates ["--remote-debugging-address=0.0.0.0"] [] 9222
                                      Sample.plainLaunch) as (_ & H & _).
  apply H.
  - apply list_elem_of_here.
  - apply list_elem_of_In. vm_compute. tauto.
Defined.

End CommandLine.

(** ** The zombie reaper *)

Section ReaperClaims.
Import ChromeUtils.

(** C6, as the claim states it, fails in its last part: when the crawl
    directory is stale and the process answers the liveness probe but
    both [SIGKILL] attempts throw, the marker file is not removed (the
    failure is logged and the file stays for a later pass). *)
Lemma reaper_keeps_marker_when_kill_fails :
  reapCandidate Sample.vanishing 1000 tt Sample.marker =
    (tt,
     [ Kill 4242 SIG0;
       Stderr "[!] Found zombie (PID 4242)";
       Kill (-4242) SIGKILL;
       Kill 4242 SIGKILL;
       Stderr "[!] Failed to kill PID 4242" ],
     0).
Proof. vm_compute. reflexivity. Qed.

(** C6, amended.  For every process-id marker file the reaper collects,
    with [mtime] the modification time of the owning crawl directory:
    - if [mtime] is later than the staleness threshold (now minus five
      minutes), nothing is done, whatever the process state;
    - if it is not later, and the file holds a positive process id that
      does not answer the liveness probe (signal 0), the marker file is
      removed and no [SIGKILL] is sent;
    - if it is not later and the process answers the probe, [SIGKILL] is
      sent to the process group and, only if that throws, to the single
      process id; the marker file is removed and the zombie counted when
      one of the two kills went through, and is left in place (with a
      logged failure) when both threw. *)
Theorem reaper_candidate_cases {OS : Type} (sys : Sys OS) (fiveMinutesAgo : Z) (os : OS)
    (c : Candidate) (mtime : Z) :
  sys_stat sys os (crawlDir c) = Some mtime ->
  let r := reapCandidate sys fiveMinutesAgo os c in
  let calls := syscalls r.1.2 in
  (fiveMinutesAgo < mtime -> r = (os, [], 0)) /\
  (forall text pid,
     mtime <= fiveMinutesAgo ->
     sys_read sys os (pidFile c) = Some text ->
     Js.parseInt (Js.trim text) = Some pid ->
     0 < pid ->
     let probe := sys_kill sys os pid SIG0 in
     let group := sys_kill sys probe.1 (- pid) SIGKILL in
     let single := sys_kill sys group.1 pid SIGKILL in
     (probe.2 = false ->
        r.1.2 = [Kill pid SIG0; Unlink (pidFile c)] /\ r.2 = 0) /\
     (probe.2 = true -> group.2 = true ->
        calls = [Kill pid SIG0; Kill (- pid) SIGKILL; Unlink (pidFile c)] /\ r.2 = 1) /\
     (probe.2 = true -> group.2 = false -> single.2 = true ->
        calls = [Kill pid SIG0; Kill (- pid) SIGKILL; Kill pid SIGKILL; Unlink (pidFile c)]
        /\ r.2 = 1) /\
     (probe.2 = true -> group.2 = false -> single.2 = false ->
        calls = [Kill pid SIG0; Kill (- pid) SIGKILL; Kill pid SIGKILL] /\ r.2 = 0)).
Proof.
  intros Hstat. cbv zeta. unfold reapCandidate. rewrite Hstat. split.
  - intros Hfresh. apply Z.ltb_lt in Hfresh. rewrite Hfresh. reflexivity.
  - intros text pid Hstale Hread Hpid Hpos.
    assert ((fiveMinutesAgo <? mtime) = false) as -> by (apply Z.ltb_ge; lia).
    rewrite Hread, Hpid.
    assert ((pid <=? 0) = false) as -> by (apply Z.leb_gt; lia).
    unfold killGroupThenPid.
    destruct (sys_kill sys os pid SIG0) as [os1 alive]. simpl.
    destruct (sys_kill sys os1 (- pid) SIGKILL) as [os2 okGroup]. simpl.
    destruct (sys_kill sys os2 pid SIGKILL) as [os3 okPid]. simpl.
    repeat split; intros; subst.
    + destruct (sys_unlink sys os1 (pidFile c)). reflexivity.
    + destruct (sys_unlink sys os1 (pidFile c)). reflexivity.
    + simpl. destruct (sys_unlink sys os2 (pidFile c)). reflexivity.
    + simpl. destruct (sys_unlink sys os2 (pidFile c)). reflexivity.
    + simpl. destruct (sys_unlink sys os3 (pidFile c)). reflexivity.
    + simpl. destruct (sys_unlink sys os3 (pidFile c)). reflexivity.
    + simpl. try discriminate; reflexivity.
    + simpl. try discriminate; reflexivity.
Qed.

(** The case of a stale directory and a process that is gone, at the
    sample machine: the marker is removed and only the probe is sent. *)
Lemma reaper_candidate_cases_witness :
  (reapCandidate Sample.gone 1000 tt Sample.marker).1.2 =
    [Kill 4242 SIG0; Unlink "data/crawl1/chrome/chrome.pid"] /\
  (reapCandidate Sample.gone 1000 tt Sample.marker).2 = 0.
Proof.
  destruct (reaper_candidate_cases Sample.gone 1000 tt Sample.marker 0 eq_refl) as [_ H].
  destruct (H "4242" 4242) as (Hdead & _);
    [lia | reflexivity | reflexivity | lia |].
  apply Hdead. reflexivity.
Defined.

End ReaperClaims.

(** ** Connecting a capture hook to its tab *)

Section Connecting.
Import ChromeUtils.

(** The wait returns [true] as soon as the marker files are seen while
    the clock is within the timeout; [fuel] beyond the number of
    looks is enough. *)
Lemma waitLoop_ready (w : Polling) (startTime timeoutMs : Z) (k : nat) :
  forall fuel k0,
    (k0 <= k)%nat -> (k - k0 < fuel)%nat ->
    (forall j, (k0 <= j <= k)%nat -> clock w j - startTime < timeoutMs) ->
    bothExist w k = true ->
    waitLoop fuel w startTime timeoutMs k0 = Some true.
Proof.
  induction fuel as [| fuel IH]; intros k0 Hle Hfuel Hclock Hready; [lia |].
  simpl.
  assert ((clock w k0 - startTime <? timeoutMs) = true) as ->
    by (apply Z.ltb_lt, Hclock; lia).
  destruct (bothExist w k0) eqn:E; [reflexivity |].
  assert (k0 <> k) by (intros ->; congruence).
  apply IH; [lia | lia | | exact Hready].
  intros j Hj. apply Hclock. lia.
Qed.

Lemma waitLoop_result (w : Polling) (startTime timeoutMs : Z) :
  forall fuel k0 b,
    waitLoop fuel w startTime timeoutMs k0 = Some b ->
    if b then exists k, (k0 <= k)%nat /\ bothExist w k = true /\
                        clock w k - startTime < timeoutMs
    else exists k, (k0 <= k)%nat /\ timeoutMs <= clock w k - startTime.
Proof.
  induction fuel as [| fuel IH]; intros k0 b H; [discriminate |].
  simpl in H.
  destruct (Z.ltb_spec (clock w k0 - startTime) timeoutMs) as [Hlt | Hge].
  - destruct (bothExist w k0) eqn:E.
    + injection H as <-. exists k0. auto.
    + apply IH in H. destruct b; destruct H as (k & Hk & H); exists k; split; (lia || exact H).
  - injection H as <-. exists k0. split; [lia | exact Hge].
Qed.

(** C10, as the claim states it, fails: the marker files are there at
    the first look and the browser has an open page, yet the call
    throws, because [cdp_url.txt] holds only a line break. *)
Lemma connectToPage_blank_url_throws :
  waitForChromeSession 5 Sample.ready 60000 = Some true /\
  connectToPage 5 Sample.ready true 60000 (Some (String Js.LF "")) (Some "T1")
                (fun _ => inr [Sample.tabT1]) =
    Some ([], Thrown (Js.newError "No Chrome session found (cdp_url.txt missing)")).
Proof. split; vm_compute; reflexivity. Qed.

(** C10, amended.  When the puppeteer module is passed, the two marker
    files are seen at some look of the wait while the clock is within
    the timeout, [cdp_url.txt] is not blank, the connection to that URL
    succeeds and the browser has at least one page, [connectToPage]
    returns: the first page whose target id equals the persisted one if
    there is one, and otherwise -- the target id file missing or blank,
    or no page matching -- the last page of the list, without any error.
    Conversely it throws only when the module is not passed, the wait
    times out, [cdp_url.txt] is missing or blank when read, the
    connection fails, or the browser has no page. *)
Theorem connectToPage_fallback (fuel : nat) (w : Polling) (puppeteer : bool)
    (timeoutMs : Z) (cdpFile targetIdFile : option string)
    (connect : string -> Js.Error + list Page) :
  (forall (k : nat) (cdpText : string) (pages : list Page),
     puppeteer = true ->
     (1 <= k < fuel + 1)%nat ->
     (forall j, (1 <= j <= k)%nat -> clock w j - clock w 0 < timeoutMs) ->
     bothExist w k = true ->
     cdpFile = Some cdpText -> Js.trim cdpText <> "" ->
     connect (Js.trim cdpText) = inr pages -> pages <> [] ->
     exists p,
       connectToPage fuel w puppeteer timeoutMs cdpFile targetIdFile connect =
         Some ([ConnectBrowser (Js.trim cdpText)],
               Returned (mkConnection p (readTrimmed targetIdFile) (Js.trim cdpText))) /\
       (forall tid q, readTrimmed targetIdFile = Some tid -> tid <> "" ->
                      findPage pages tid = Some q -> p = q) /\
       (missing (readTrimmed targetIdFile) = true \/
        (forall tid, readTrimmed targetIdFile = Some tid -> findPage pages tid = None) ->
        last pages = Some p)) /\
  (forall t e,
     connectToPage fuel w puppeteer timeoutMs cdpFile targetIdFile connect =
       Some (t, Thrown e) ->
     puppeteer = false \/
     (exists k, (1 <= k)%nat /\ timeoutMs <= clock w k - clock w 0) \/
     missing (readTrimmed cdpFile) = true \/
     (exists url, connect url = inl e) \/
     (exists url, connect url = inr [])).
Proof.
  split.
  - intros k cdpText pages -> Hk Hclock Hready -> Hurl Hconn Hpages.
    unfold connectToPage, waitForChromeSession. simpl negb. cbv iota.
    rewrite (waitLoop_ready w (clock w 0) timeoutMs k fuel 1) by (lia || assumption).
    simpl readTrimmed at 1.
    assert (missing (Some (Js.trim cdpText)) = false) as ->.
    { simpl. destruct (Js.trim cdpText); [congruence | reflexivity]. }
    simpl default. rewrite Hconn.
    destruct (last pages) as [lp |] eqn:Hlast;
      [| apply last_None in Hlast; congruence].
    destruct (missing (readTrimmed targetIdFile)) eqn:Hmiss.
    + exists lp. split; [reflexivity |]. split.
      * intros tid q Htid Hne _. rewrite Htid in Hmiss. simpl in Hmiss.
        destruct tid; [congruence | discriminate].
      * intros _. reflexivity.
    + destruct (readTrimmed targetIdFile) as [tid |] eqn:Htid; [| discriminate].
      simpl default.
      destruct (findPage pages tid) as [q |] eqn:Hfind.
      * exists q. split; [reflexivity |]. split.
        -- intros tid' q' [= <-] _ Hq. congruence.
        -- intros [Hm | Hnone]; [discriminate |].
           rewrite (Hnone tid eq_refl) in Hfind. discriminate.
      * exists lp. split; [reflexivity |]. split.
        -- intros tid' q' [= <-] _ Hq. congruence.
        -- intros _. reflexivity.
  - intros t e H. unfold connectToPage in H.
    destruct puppeteer; [| left; reflexivity]. right. simpl in H.
    destruct (waitForChromeSession fuel w timeoutMs) as [[|] |] eqn:Hwait;
      [| left; exact (waitLoop_result w _ _ _ _ false Hwait) | discriminate].
    right.
    destruct (missing (readTrimmed cdpFile)) eqn:Hmiss; [left; reflexivity |]. right.
    destruct (connect (default "" (readTrimmed cdpFile))) as [err | pages] eqn:Hconn.
    + left. injection H as _ <-. eexists. exact Hconn.
    + right. exists (default "" (readTrimmed cdpFile)).
      destruct pages as [| p0 pages]; [exact Hconn |].
      exfalso.
      destruct (if missing (readTrimmed targetIdFile) then None
                else findPage (p0 :: pages) (default "" (readTrimmed targetIdFile)));
        [discriminate |].
      destruct (last (p0 :: pages)) eqn:Hlast; [discriminate |].
      apply last_None in Hlast. discriminate.
Qed.

(** The fallback at a sample browser: the persisted target id matches
    no page, and the last page of the list is returned. *)
Lemma connectToPage_fallback_witness :
  exists p,
    connectToPage 5 Sample.ready true 60000 (Some "ws://127.0.0.1:9222/devtools/browser/b")
                  (Some "T9") (fun _ => inr [Sample.tabT1; Sample.tabT2]) =
      Some ([ConnectBrowser "ws://127.0.0.1:9222/devtools/browser/b"],
            Returned (mkConnection p (Some "T9") "ws://127.0.0.1:9222/devtools/browser/b")) /\
    last [Sample.tabT1; Sample.tabT2] = Some p.
Proof.
  destruct (connectToPage_fallback 5 Sample.ready true 60000
              (Some "ws://127.0.0.1:9222/devtools/browser/b") (Some "T9")
              (fun _ => inr [Sample.tabT1; Sample.tabT2])) as [H _].
  destruct (H 1%nat "ws://127.0.0.1:9222/devtools/browser/b" [Sample.tabT1; Sample.tabT2])
    as (p & Hp & _ & Hlast);
    [reflexivity | lia | intros; simpl; lia | reflexivity | reflexivity
    | vm_compute; discriminate | reflexivity | discriminate |].
  exists p. split; [exact Hp |].
  apply Hlast. right. intros tid [= <-]. reflexivity.
Defined.

End Connecting.

(** ** The TLS extractor on a URL that is not HTTPS *)

Section TlsExtractor.
Import ChromeUtils.

Lemma split_head_cons (sep c : ascii) (s : string) :
  Ascii.eqb c sep = false ->
  default "" (head (Js.split sep (String c s))) =
  String c (default "" (head (Js.split sep s))).
Proof. intros H. simpl. rewrite H. destruct (Js.split sep s); reflexivity. Qed.

Lemma startsWith_trans (s q p : string) :
  Js.startsWith s q = true -> Js.startsWith q p = true -> Js.startsWith s p = true.
Proof.
  revert s q. induction p as [| c p IH]; intros s q Hsq Hqp.
  - apply startsWith_empty.
  - destruct q as [| c' q]; [discriminate |].
    pose proof (startsWith_head _ _ _ _ Hqp) as ->.
    destruct s as [| c'' s]; [discriminate |].
    pose proof (startsWith_head _ _ _ _ Hsq) as ->.
    rewrite startsWith_cons in *. eapply IH; eassumption.
Qed.

Lemma beforeQuery_https (url : string) :
  Js.startsWith url "https://" = true ->
  Js.startsWith (Ssl.beforeQuery url) "https://" = true.
Proof.
  intros H. unfold Ssl.beforeQuery.
  do 8 (destruct url as [| ? url]; [discriminate |];
        let E := fresh in
        pose proof (startsWith_head _ _ _ _ H) as E; subst;
        rewrite startsWith_cons in H;
        rewrite split_head_cons by reflexivity;
        rewrite startsWith_cons).
  apply startsWith_empty.
Qed.

Lemma onResponse_notInsecure (url : string) (st : Ssl.State) (r : Ssl.Response) :
  Js.startsWith url "https://" = true ->
  Ssl.notInsecure st -> Ssl.notInsecure (Ssl.onResponse url st r).
Proof.
  intros Hurl Hst. unfold Ssl.onResponse.
  destruct (negb (Ssl.isNavigationRequest r) || negb (Ssl.inMainFrame r)); [exact Hst |].
  destruct (Js.startsWith (Ssl.responseUrl r) (Ssl.beforeQuery url)) eqn:Hpre; [| exact Hst].
  simpl. unfold Ssl.notInsecure. simpl.
  destruct (Ssl.securityDetails r); [discriminate |].
  rewrite (startsWith_trans _ _ _ Hpre (beforeQuery_https url Hurl)). discriminate.
Qed.

Lemma resident_notInsecure (url : string) (inputs : list Ssl.Input) :
  Js.startsWith url "https://" = true ->
  forall st, Ssl.notInsecure st -> Ssl.notInsecure (Ssl.resident url st inputs).2.
Proof.
  intros Hurl. induction inputs as [| i inputs IH]; intros st Hst; [exact Hst |].
  destruct i as [r | [| | |]]; simpl; auto using onResponse_notInsecure.
Qed.

Lemma main_returned_https (w : CaptureHook.World) (argv : list string)
    (t : Trace) (conn : Connection) :
  CaptureHook.main Ssl.config w argv = (t, Returned conn) ->
  exists u, parseArgs argv !! "url" = Some (Str u) /\ Js.startsWith u "https://" = true.
Proof.
  unfold CaptureHook.main, CaptureHook.setup. simpl.
  destruct (parseArgs argv !! "url") as [url |]; [| discriminate].
  destruct (parseArgs argv !! "snapshot_id"); [| discriminate].
  destruct (negb (getEnvBool (CaptureHook.env w) "SSL_ENABLED" true)); [discriminate |].
  destruct url as [u |]; simpl; [| discriminate].
  destruct (Js.startsWith u "https://") eqn:E; simpl; [| discriminate].
  intros _. exists u. auto.
Qed.

(** C1, as the claim states it, fails: with [SSL_ENABLED] at its
    default and the URL [http://example.com/] the hook ends with a
    failed result and exit code 1, and has recorded no state at all. *)
Lemma ssl_plain_http_fails :
  getEnvBool (CaptureHook.env Sample.world) "SSL_ENABLED" true = true /\
  Ssl.run Sample.world ["--url=http://example.com/"; "--snapshot-id=s1"] [Ssl.Sig SIGTERM] =
    ([ Stderr "ERROR: Error: URL is not HTTPS";
       Stdout (JsonResult (mkResult Failed "Error: URL is not HTTPS" [])) ],
     ExitCode 1,
     Ssl.initial) /\
  Ssl.written Ssl.initial = None.
Proof. repeat split; vm_compute; reflexivity. Qed.

(** C1, amended.  For every invocation of the TLS hook with a URL and a
    snapshot id, [SSL_ENABLED] true and a URL that does not start with
    [https://], the hook throws before it connects to the browser: it
    writes the single result [{status: failed, output_str: "Error: URL
    is not HTTPS"}], exits with code 1, attempts no connection and no
    certificate read, and writes nothing to [ssl.jsonl].  In no run at
    all does the hook record the security state "insecure". *)
Theorem ssl_non_https_fails_before_connecting (w : CaptureHook.World)
    (argv : list string) (inputs : list Ssl.Input) (u : string) (sid : ArgVal) :
  (parseArgs argv !! "url" = Some (Str u) ->
   parseArgs argv !! "snapshot_id" = Some sid ->
   getEnvBool (CaptureHook.env w) "SSL_ENABLED" true = true ->
   Js.startsWith u "https://" = false ->
   Ssl.run w argv inputs =
     ([ Stderr "ERROR: Error: URL is not HTTPS";
        Stdout (JsonResult (mkResult Failed "Error: URL is not HTTPS" [])) ],
      ExitCode 1,
      Ssl.initial) /\
   existsb isConnect (Ssl.run w argv inputs).1.1 = false /\
   Ssl.written (Ssl.run w argv inputs).2 = None) /\
  Ssl.notInsecure (Ssl.run w argv inputs).2.
Proof.
  split.
  - intros Hurl Hsid Hen Hhttp.
    assert (Ssl.run w argv inputs =
            ([ Stderr "ERROR: Error: URL is not HTTPS";
               Stdout (JsonResult (mkResult Failed "Error: URL is not HTTPS" [])) ],
             ExitCode 1, Ssl.initial)) as ->; [| auto].
    unfold Ssl.run, CaptureHook.main, CaptureHook.setup. simpl.
    rewrite Hurl, Hsid, Hen. simpl. rewrite Hhttp. reflexivity.
  - unfold Ssl.run.
    destruct (CaptureHook.main Ssl.config w argv) as [t o] eqn:Hmain.
    destruct o as [conn | e | code |]; try exact I.
    destruct (main_returned_https _ _ _ _ Hmain) as (u' & -> & Hhttps). simpl.
    pose proof (resident_notInsecure u' inputs Hhttps Ssl.initial I) as H.
    destruct (Ssl.resident u' Ssl.initial inputs) as [[t' ending] st]. exact H.
Qed.

(** The failure at a sample invocation. *)
Lemma ssl_non_https_fails_before_connecting_witness :
  Ssl.run Sample.world ["--url=ftp://example.com/file"; "--snapshot-id=s1"] [] =
    ([ Stderr "ERROR: Error: URL is not HTTPS";
       Stdout (JsonResult (mkResult Failed "Error: URL is not HTTPS" [])) ],
     ExitCode 1,
     Ssl.initial).
Proof.
  destruct (ssl_non_https_fails_before_connecting Sample.world
              ["--url=ftp://example.com/file"; "--snapshot-id=s1"] []
              "ftp://example.com/file" (Str "s1")) as [H _].
  apply H; vm_compute; reflexivity.
Defined.

End TlsExtractor.

(** ** Disabled plugins *)

Section Disabled.
Import ChromeUtils.

(** C3, as the claim states it, fails for the screenshot plugin: with
    [SCREENSHOT_ENABLED=false] it exits 0 before any connection, but it
    writes no result line at all. *)
Lemma screenshot_disabled_emits_nothing :
  getEnvBool (Screenshot.env Sample.screenshotOff) "SCREENSHOT_ENABLED" true = false /\
  Screenshot.run Sample.screenshotOff
    ["--url=https://example.com/"; "--snapshot-id=s1"] =
    ([Stderr "Skipping screenshot (SCREENSHOT_ENABLED=False)"], Exited 0).
Proof. split; vm_compute; reflexivity. Qed.

(** C3, amended.  For each of the consolelog, dns, ssl, responses,
    redirects and staticfile plugins invoked with a URL and a snapshot
    id: when its enablement flag evaluates to false the process exits
    with code 0, writes exactly one line to stdout, the ArchiveResult
    with status skipped, and attempts no browser connection.  The
    screenshot plugin with its flag false also exits with code 0 before
    any connection, but writes nothing to stdout. *)
Theorem disabled_plugin_skips (c : CaptureHook.Config) (w : CaptureHook.World)
    (argv : list string) (url sid : ArgVal)
    (sw : Screenshot.World) :
  (parseArgs argv !! "url" = Some url ->
   parseArgs argv !! "snapshot_id" = Some sid ->
   getEnvBool (CaptureHook.env w) (CaptureHook.enabledFlag c) true = false ->
   let r := CaptureHook.main c w argv in
   r.2 = Exited 0 /\
   stdoutLines r.1 =
     [JsonResult (mkResult Skipped (CaptureHook.enabledFlag c +:+ "=False") [])] /\
   existsb isConnect r.1 = false) /\
  (getEnvBool (Screenshot.env sw) "SCREENSHOT_ENABLED" true = false ->
   let r := Screenshot.run sw argv in
   r.2 = Exited 0 /\ stdoutLines r.1 = [] /\ existsb isConnect r.1 = false).
Proof.
  split.
  - intros Hurl Hsid Hoff. cbv zeta. unfold CaptureHook.main.
    rewrite Hurl, Hsid, Hoff. simpl. auto.
  - intros Hoff. cbv zeta. unfold Screenshot.run, Screenshot.moduleInit.
    rewrite Hoff. simpl. auto.
Qed.

(** The skip, plugin by plugin, with the flag set to [off], and the
    silent exit of the screenshot plugin. *)
Lemma disabled_plugin_skips_witness :
  Forall (fun c =>
            let r := CaptureHook.main c (Sample.worldWith (CaptureHook.enabledFlag c) "off")
                                      ["--url=https://example.com/"; "--snapshot-id=s1"] in
            r.2 = Exited 0 /\
            stdoutLines r.1 =
              [JsonResult (mkResult Skipped (CaptureHook.enabledFlag c +:+ "=False") [])] /\
            existsb isConnect r.1 = false)
         Sample.capturePlugins /\
  (let r := Screenshot.run Sample.screenshotOff
                           ["--url=https://example.com/"; "--snapshot-id=s1"] in
   r.2 = Exited 0 /\ stdoutLines r.1 = [] /\ existsb isConnect r.1 = false).
Proof.
  split.
  - unfold Sample.capturePlugins.
    repeat (apply List.Forall_cons;
            [ apply (disabled_plugin_skips _ _ _ (Str "https://example.com/") (Str "s1")
                       Sample.screenshotOff);
              vm_compute; reflexivity
            | ]).
    apply List.Forall_nil.
  - apply (disabled_plugin_skips Dns.config (Sample.worldWith "DNS_ENABLED" "off")
             ["--url=https://example.com/"; "--snapshot-id=s1"]
             (Str "https://example.com/") (Str "s1") Sample.screenshotOff).
    vm_compute; reflexivity.
Defined.

End Disabled.

(** ** The tab allocator without a live session *)

Section TabAllocator.
Import ChromeUtils.

Lemma emitResult_no_spawn (st : ChromeTab.State) (o : option Status) :
  existsb isSpawn (ChromeTab.emitResult st o).2 = false.
Proof. unfold ChromeTab.emitResult. destruct (ChromeTab.finalized st); reflexivity. Qed.

Lemma existsb_isSpawn_app (t1 t2 : Trace) :
  existsb isSpawn (t1 ++ t2) = existsb isSpawn t1 || existsb isSpawn t2.
Proof. apply existsb_app. Qed.






End TabAllocator.

(** ** The stdout contract *)

Section StdoutContract.
Import ChromeUtils.




Lemma resultLines_app (t1 t2 : Trace) :
  resultLines (t1 ++ t2) = resultLines t1 ++ resultLines t2.
Proof. unfold resultLines. apply omap_app. Qed.



(** *** The DNS recorder *)






(** *** The other capture plugins *)










(** *** The tab allocator *)


(** *** The screenshot taker, the foreground wait and the installers *)




(** *** The session launcher *)








(** *** The configurator *)





End StdoutContract.

(** ** The DNS recorder *)

Section DnsKeys.

Lemma includes_cons_false (c : ascii) (s p : string) :
  Js.includes (String c s) p = false -> Js.includes s p = false.
Proof. simpl. intros H. apply orb_false_iff in H as [_ H]. exact H. Qed.

Lemma includes_colon_head (c : ascii) (s : string) :
  Js.includes (String c s) ":" = false -> c <> ":"%char.
Proof.
  simpl. intros H. apply orb_false_iff in H as [H _].
  destruct (ascii_dec ":" c) as [<- |]; [| congruence].
  destruct s; discriminate.
Qed.

Lemma append_nil_l (s : string) : "" +:+ s = s.
Proof. reflexivity. Qed.

Lemma append_cons (c : ascii) (s t : string) : String c s +:+ t = String c (s +:+ t).
Proof. reflexivity. Qed.

Lemma startsWith_single (c d : ascii) (s t : string) :
  Js.startsWith (String c s) (String d "") = Js.startsWith (String c t) (String d "").
Proof.
  unfold Js.startsWith. simpl. destruct (ascii_dec d c); [| reflexivity].
  destruct s, t; reflexivity.
Qed.

Lemma includes_after_colon (h y : string) : Js.includes (h +:+ ":" +:+ y) ":" = true.
Proof.
  induction h as [| c h IH].
  - rewrite append_nil_l, append_cons. simpl. destruct (_ +:+ y); reflexivity.
  - rewrite append_cons. simpl. rewrite IH. apply orb_true_r.
Qed.

(** Two keys built from a colon-free first component agree only if the
    components agree, or the other first component extends this one by
    a colon. *)
Lemma key_split (h : string) :
  Js.includes h ":" = false ->
  forall a h' a',
    Dns.resolutionKey h a = Dns.resolutionKey h' a' ->
    (h = h' /\ a = a') \/ exists y, h' = h +:+ ":" +:+ y.
Proof.
  unfold Dns.resolutionKey. induction h as [| c h IH]; intros Hfree a h' a' Heq.
  - destruct h' as [| c' h'];
      repeat (rewrite append_nil_l in Heq || rewrite append_cons in Heq).
    + left. split; [reflexivity | congruence].
    + right. injection Heq as <- Heq. exists h'. reflexivity.
  - destruct h' as [| c' h'];
      repeat (rewrite append_nil_l in Heq || rewrite append_cons in Heq).
    + injection Heq as Hc _. exfalso.
      apply (includes_colon_head _ _ Hfree). exact Hc.
    + injection Heq as <- Heq.
      destruct (IH (includes_cons_false _ _ _ Hfree) a h' a' Heq) as [[-> ->] | [y ->]].
      * left. auto.
      * right. exists y. reflexivity.
Qed.

Lemma key_inj (h a h' a' : string) :
  Js.includes h ":" = false ->
  Js.startsWith h "[" = false ->
  Js.includes h' ":" = false \/ Js.startsWith h' "[" = true ->
  Dns.resolutionKey h a = Dns.resolutionKey h' a' ->
  h = h' /\ a = a'.
Proof.
  intros Hfree Hname Hshape Heq.
  destruct (key_split h Hfree a h' a' Heq) as [H | [y ->]]; [exact H |].
  exfalso. destruct Hshape as [H | H].
  - rewrite includes_after_colon in H. discriminate.
  - destruct h as [| c h]; [discriminate |].
    rewrite append_cons in H.
    rewrite (startsWith_single c "[" _ h) in H. congruence.
Qed.

End DnsKeys.

Section DnsRecorder.
Variable extractHostname : string -> option string.

(** Host names as URL parsing yields them: free of colons, or a
    bracketed IPv6 literal. *)
Hypothesis hostShape :
  forall url h, extractHostname url = Some h ->
    Js.includes h ":" = false \/ Js.startsWith h "[" = true.

Lemma countWhere_snoc (f : Dns.DnsRecord -> bool) (l : list Dns.DnsRecord)
    (r : Dns.DnsRecord) :
  Dns.countWhere f (l ++ [r]) = (Dns.countWhere f l + (if f r then 1 else 0))%nat.
Proof.
  unfold Dns.countWhere. rewrite List.filter_app, length_app. simpl.
  destruct (f r); reflexivity.
Qed.

Lemma countWhere_zero (f : Dns.DnsRecord -> bool) (l : list Dns.DnsRecord) :
  (forall r, In r l -> f r = false) -> Dns.countWhere f l = 0%nat.
Proof.
  unfold Dns.countWhere. induction l as [| x l IH]; intros H; [reflexivity |].
  simpl. rewrite (H x (or_introl eq_refl)). apply IH.
  intros r Hr. apply H. right. exact Hr.
Qed.

Lemma countWhere_pos (f : Dns.DnsRecord -> bool) (l : list Dns.DnsRecord)
    (r : Dns.DnsRecord) :
  In r l -> f r = true -> (1 <= Dns.countWhere f l)%nat.
Proof.
  unfold Dns.countWhere. intros Hin Hf.
  assert (In r (List.filter f l)) as H by (apply filter_In; auto).
  destruct (List.filter f l); [contradiction | simpl; lia].
Qed.

Lemma countWhere_or (f g : Dns.DnsRecord -> bool) (l : list Dns.DnsRecord) :
  (forall r, f r = true -> g r = true -> False) ->
  Dns.countWhere (fun r => f r || g r) l = (Dns.countWhere f l + Dns.countWhere g l)%nat.
Proof.
  unfold Dns.countWhere. intros Hdis. induction l as [| x l IH]; [reflexivity |].
  simpl. destruct (f x) eqn:Ef, (g x) eqn:Eg; simpl; try lia.
  exfalso. eauto.
Qed.

Lemma isResolution_true (h a : string) (r : Dns.DnsRecord) :
  Dns.isResolution h a r = true <-> Dns.hostname r = h /\ Dns.ip r = Some a.
Proof.
  unfold Dns.isResolution. rewrite andb_true_iff, String.eqb_eq.
  destruct (Dns.ip r) as [x |].
  - rewrite String.eqb_eq. split; intros [? ?]; split; congruence.
  - split; intros [? ?]; discriminate.
Qed.

Lemma isFailure_true (h : string) (r : Dns.DnsRecord) :
  Dns.isFailure h r = true <-> Dns.hostname r = h /\ Dns.rtype r = "NXDOMAIN".
Proof. unfold Dns.isFailure. rewrite andb_true_iff, !String.eqb_eq. reflexivity. Qed.

Lemma onEvent_step (st : Dns.State) (e : Dns.CdpEvent) :
  let st' := Dns.onEvent extractHostname st e in
  (Dns.output st' = Dns.output st /\ Dns.seenResolutions st' = Dns.seenResolutions st) \/
  (exists r k, Dns.added extractHostname st st' r k /\
     ((exists a, Dns.ip r = Some a /\ k = Dns.resolutionKey (Dns.hostname r) a /\
                 Dns.rtype r <> "NXDOMAIN") \/
      (Dns.ip r = None /\ Dns.rtype r = "NXDOMAIN" /\
       k = Dns.resolutionKey (Dns.hostname r) "NXDOMAIN"))).
Proof.
  cbv zeta. destruct e as [rid url | rid url addr port | rid err]; simpl.
  - left. auto.
  - unfold Dns.onResponseReceived.
    destruct (Js.falsy url || Js.falsy addr); [left; auto |].
    destruct (extractHostname url) as [h |] eqn:Eh; [| left; auto].
    destruct (Js.falsy h); [left; auto |].
    destruct (String.eqb h addr); [left; auto |].
    case_bool_decide as Hseen; [left; auto |].
    right. eexists _, _. split.
    + repeat split; simpl; [exact Hseen | exists url; exact Eh].
    + left. exists addr. simpl. repeat split.
      destruct (Js.includes addr ":"); discriminate.
  - unfold Dns.onLoadingFailed.
    destruct (Dns.requestUrls st !! rid) as [url |]; [| left; auto].
    destruct (Js.falsy url); [left; auto |].
    destruct (extractHostname url) as [h |] eqn:Eh; [| left; auto].
    destruct (Js.falsy h); [left; auto |].
    destruct (Js.includes err "net::ERR_NAME_NOT_RESOLVED"
              || Js.includes err "net::ERR_NAME_RESOLUTION_FAILED"); [| left; auto].
    case_bool_decide as Hseen; [left; auto |].
    right. eexists _, _. split.
    + repeat split; simpl; [exact Hseen | exists url; exact Eh].
    + right. simpl. auto.
Qed.

Lemma consistent_initial : Dns.consistent Dns.initial.
Proof.
  unfold Dns.consistent, Dns.initial. simpl.
  repeat split; try (intros; contradiction);
    try (intros; unfold Dns.countWhere; simpl; lia).
  intros k Hk. apply elem_of_empty in Hk. contradiction.
Qed.

Lemma consistent_step (st : Dns.State) (e : Dns.CdpEvent) :
  Dns.consistent st -> Dns.consistent (Dns.onEvent extractHostname st e).
Proof.
  intros (Hshape & Hres & Hnx & Hkeys & Hc1 & Hc2).
  destruct (onEvent_step st e) as [[Hout Hseen] | (r & k & (Hout & Hseen & Hfresh & Hhost) & Hr)];
    unfold Dns.consistent; rewrite Hout, Hseen.
  - repeat split; assumption.
  - destruct Hhost as [url Hurl].
    assert (forall x, In x (Dns.output st ++ [r]) -> In x (Dns.output st) \/ x = r) as Hin.
    { intros x Hx. apply in_app_or in Hx as [Hx | [Hx | []]]; auto. }
    split; [| split; [| split; [| split; [| split]]]].
    + intros x Hx. destruct (Hin x Hx) as [Hx' | ->]; [auto | eapply hostShape; eassumption].
    + intros x a Hx Ha. apply elem_of_union.
      destruct (Hin x Hx) as [Hx' | ->]; [right; eauto |].
      left. apply elem_of_singleton.
      destruct Hr as [(a' & Ha' & -> & _) | (Hnone & _)]; congruence.
    + intros x Hx Ht. apply elem_of_union.
      destruct (Hin x Hx) as [Hx' | ->]; [right; eauto |].
      left. apply elem_of_singleton.
      destruct Hr as [(a' & _ & _ & Hne) | (_ & _ & ->)]; [congruence | reflexivity].
    + intros k' Hk'. apply elem_of_union in Hk' as [Hk' | Hk'].
      * apply elem_of_singleton in Hk' as ->. exists r. split; [apply in_or_app; right; left; reflexivity |].
        destruct Hr as [(a' & Ha' & -> & _) | (_ & _ & ->)]; [left; eauto | right; reflexivity].
      * destruct (Hkeys k' Hk') as (x & Hx & Hx'). exists x. split; [apply in_or_app; auto | exact Hx'].
    + intros h a. rewrite countWhere_snoc.
      destruct (Dns.isResolution h a r) eqn:E; [| specialize (Hc1 h a); lia].
      apply isResolution_true in E as [Eh Ea].
      rewrite countWhere_zero; [lia |].
      intros x Hx. destruct (Dns.isResolution h a x) eqn:Ex; [| reflexivity].
      apply isResolution_true in Ex as [Exh Exa]. exfalso. apply Hfresh.
      destruct Hr as [(a' & Ha' & -> & _) | (Hnone & _)]; [| congruence].
      assert (a' = a) as -> by congruence.
      rewrite Eh, <- Exh. apply Hres; assumption.
    + intros h. rewrite countWhere_snoc.
      destruct (Dns.isFailure h r) eqn:E; [| specialize (Hc2 h); lia].
      apply isFailure_true in E as [Eh Et].
      rewrite countWhere_zero; [lia |].
      intros x Hx. destruct (Dns.isFailure h x) eqn:Ex; [| reflexivity].
      apply isFailure_true in Ex as [Exh Ext]. exfalso. apply Hfresh.
      destruct Hr as [(a' & _ & _ & Hne) | (_ & _ & ->)]; [congruence |].
      rewrite Eh, <- Exh. apply Hnx; assumption.
Qed.

Lemma consistent_fold (events : list Dns.CdpEvent) :
  forall st, Dns.consistent st ->
    Dns.consistent (fold_left (Dns.onEvent extractHostname) events st).
Proof.
  induction events as [| e events IH]; intros st Hst; [exact Hst |].
  simpl. apply IH, consistent_step, Hst.
Qed.

Lemma falsy_false (x : string) : x <> "" -> Js.falsy x = false.
Proof. destruct x; [congruence | reflexivity]. Qed.

Lemma recorded_stays (h a : string) (st : Dns.State) (e : Dns.CdpEvent) :
  (1 <= Dns.countWhere (Dns.isResolution h a) (Dns.output st))%nat ->
  (1 <= Dns.countWhere (Dns.isResolution h a)
          (Dns.output (Dns.onEvent extractHostname st e)))%nat.
Proof.
  intros H.
  destruct (onEvent_step st e) as [[-> _] | (r & k & (-> & _) & _)]; [exact H |].
  rewrite countWhere_snoc. lia.
Qed.

Lemma observed_recorded (h a : string) (st : Dns.State) (e : Dns.CdpEvent) :
  Dns.consistent st ->
  h <> "" -> a <> "" -> h <> a -> a <> "NXDOMAIN" ->
  Js.includes h ":" = false -> Js.startsWith h "[" = false ->
  Dns.observed extractHostname h a e ->
  (1 <= Dns.countWhere (Dns.isResolution h a)
          (Dns.output (Dns.onEvent extractHostname st e)))%nat.
Proof.
  intros (Hshape & _ & _ & Hkeys & _) Hh Ha Hne Hnx Hfree Hname Hobs.
  destruct e as [| rid url addr port |]; try contradiction.
  destruct Hobs as (Hurl & -> & Ehost). simpl. unfold Dns.onResponseReceived.
  rewrite (falsy_false url Hurl), (falsy_false a Ha), Ehost, (falsy_false h Hh). simpl.
  assert (String.eqb h a = false) as -> by (apply String.eqb_neq; exact Hne).
  case_bool_decide as Hseen.
  - destruct (Hkeys _ Hseen) as (r & Hr & [(a' & Hip & Hkey) | Hkey]).
    + destruct (key_inj _ _ _ _ Hfree Hname (Hshape r Hr) Hkey) as [Eh Ea].
      apply (countWhere_pos _ _ r Hr). apply isResolution_true.
      split; congruence.
    + destruct (key_inj _ _ _ _ Hfree Hname (Hshape r Hr) Hkey) as [_ Ea]. congruence.
  - simpl. rewrite countWhere_snoc.
    match goal with |- context [Dns.isResolution h a ?r] =>
      assert (Dns.isResolution h a r = true) as -> by (apply isResolution_true; auto)
    end.
    lia.
Qed.

Lemma observed_fold (h a : string) (events : list Dns.CdpEvent) :
  h <> "" -> a <> "" -> h <> a -> a <> "NXDOMAIN" ->
  Js.includes h ":" = false -> Js.startsWith h "[" = false ->
  forall st,
    Dns.consistent st ->
    (1 <= Dns.countWhere (Dns.isResolution h a) (Dns.output st))%nat \/
    Exists (Dns.observed extractHostname h a) events ->
    (1 <= Dns.countWhere (Dns.isResolution h a)
            (Dns.output (fold_left (Dns.onEvent extractHostname) events st)))%nat.
Proof.
  intros Hh Ha Hne Hnx Hfree Hname.
  induction events as [| e events IH]; intros st Hst [Hhas | Hex].
  - exact Hhas.
  - inversion Hex.
  - simpl. apply IH; [apply consistent_step, Hst |]. left. apply recorded_stays, Hhas.
  - simpl. apply IH; [apply consistent_step, Hst |].
    inversion Hex as [? ? Hobs | ? ? Hrest]; subst.
    + left. apply observed_recorded; assumption.
    + right. exact Hrest.
Qed.

(** C7, amended.  For every snapshot run of the DNS recorder, over host
    names as URL parsing yields them (free of colons unless a bracketed
    IPv6 literal):
    - no (host name, address) pair is written twice, and a failed
      resolution of a host name is written at most once, under the
      record type NXDOMAIN;
    - any number of responses that map a host name to an address
      different from the host name itself produce exactly one record
      for that pair, and the same host name with two such distinct
      addresses produces two records (the host name being a name, not a
      bracketed literal, and the address not the word NXDOMAIN);
    - a response whose host name is its own address (a URL with a
      literal IP address) is skipped and produces no record. *)
Theorem dns_records_deduplicated (events : list Dns.CdpEvent) :
  let out := Dns.output (Dns.record extractHostname events) in
  (forall h a, (Dns.countWhere (Dns.isResolution h a) out <= 1)%nat) /\
  (forall h, (Dns.countWhere (Dns.isFailure h) out <= 1)%nat) /\
  (forall h a,
     Dns.resolvable h a ->
     Exists (Dns.observed extractHostname h a) events ->
     Dns.countWhere (Dns.isResolution h a) out = 1%nat) /\
  (forall h a b,
     Dns.resolvable h a -> Dns.resolvable h b -> a <> b ->
     Exists (Dns.observed extractHostname h a) events ->
     Exists (Dns.observed extractHostname h b) events ->
     Dns.countWhere (fun r => Dns.isResolution h a r || Dns.isResolution h b r) out = 2%nat) /\
  (forall h, Dns.countWhere (Dns.isResolution h h) out = 0%nat).
Proof.
  cbv zeta. unfold Dns.record.
  pose proof (consistent_fold events Dns.initial consistent_initial)
    as (Hshape & Hres & Hnx & Hkeys & Hc1 & Hc2).
  assert (forall h a, Dns.resolvable h a ->
            Exists (Dns.observed extractHostname h a) events ->
            Dns.countWhere (Dns.isResolution h a)
              (Dns.output (fold_left (Dns.onEvent extractHostname) events Dns.initial)) = 1%nat)
    as Hone.
  { intros h a (Hh & Ha & Hne & Hn & Hfree & Hname) Hex.
    pose proof (observed_fold h a events Hh Ha Hne Hn Hfree Hname Dns.initial
                              consistent_initial (or_intror Hex)).
    specialize (Hc1 h a). lia. }
  split; [exact Hc1 |]. split; [exact Hc2 |]. split; [exact Hone |]. split.
  - intros h a b Ha Hb Hab Hexa Hexb.
    rewrite countWhere_or.
    + rewrite (Hone h a Ha Hexa), (Hone h b Hb Hexb). reflexivity.
    + intros r [_ Hra]%isResolution_true [_ Hrb]%isResolution_true. congruence.
  - intros h. apply countWhere_zero. intros r Hr.
    destruct (Dns.isResolution h h r) eqn:E; [| reflexivity]. exfalso.
    apply isResolution_true in E as [Eh Ea].
    clear Hone Hc1 Hc2 Hkeys Hnx Hres Hshape.
    revert r Hr Eh Ea.
    assert (forall st, (forall r, In r (Dns.output st) -> Dns.ip r <> Some (Dns.hostname r)) ->
              forall r, In r (Dns.output (fold_left (Dns.onEvent extractHostname) events st)) ->
                        Dns.ip r <> Some (Dns.hostname r)) as Hskip.
    { induction events as [| e events IH]; intros st Hst; [exact Hst |].
      simpl. apply IH. intros r Hr.
      destruct e as [rid url | rid url addr port | rid err]; simpl in Hr.
      - auto.
      - unfold Dns.onResponseReceived in Hr.
        destruct (Js.falsy url || Js.falsy addr); [auto |].
        destruct (extractHostname url) as [h' |]; [| auto].
        destruct (Js.falsy h'); [auto |].
        destruct (String.eqb_spec h' addr) as [| Hne]; [auto |].
        case_bool_decide; [auto |].
        simpl in Hr. apply in_app_or in Hr as [Hr | [<- | []]]; [auto |].
        simpl. congruence.
      - unfold Dns.onLoadingFailed in Hr.
        destruct (Dns.requestUrls st !! rid) as [url |]; [| auto].
        destruct (Js.falsy url); [auto |].
        destruct (extractHostname url) as [h' |]; [| auto].
        destruct (Js.falsy h'); [auto |].
        destruct (Js.includes err "net::ERR_NAME_NOT_RESOLVED"
                  || Js.includes err "net::ERR_NAME_RESOLUTION_FAILED"); [| auto].
        case_bool_decide; [auto |].
        simpl in Hr. apply in_app_or in Hr as [Hr | [<- | []]]; [auto |].
        simpl. discriminate. }
    intros r Hr Eh Ea. apply (Hskip Dns.initial (fun _ H => match H with end) r Hr).
    congruence.
Qed.

End DnsRecorder.

Section DnsSample.

Lemma hostOf_shape (url h : string) :
  Sample.hostOf url = Some h ->
  Js.includes h ":" = false \/ Js.startsWith h "[" = true.
Proof.
  unfold Sample.hostOf. intros H. left.
  destruct (String.eqb url "http://example.com/"); [injection H as <-; reflexivity |].
  destruct (String.eqb url "http://10.0.0.1/"); [injection H as <-; reflexivity |].
  discriminate.
Qed.

(** C7, as the claim states it, fails: two responses that map the host
    name [10.0.0.1] to the address [10.0.0.1] leave the output file
    empty, because a response whose host name equals its address is
    skipped. *)
Lemma dns_literal_address_not_recorded :
  Exists (Dns.observed Sample.hostOf "10.0.0.1" "10.0.0.1")
         [ Dns.ResponseReceived "1" "http://10.0.0.1/" "10.0.0.1" (Some 80);
           Dns.ResponseReceived "2" "http://10.0.0.1/" "10.0.0.1" (Some 80) ] /\
  Dns.output
    (Dns.record Sample.hostOf
       [ Dns.ResponseReceived "1" "http://10.0.0.1/" "10.0.0.1" (Some 80);
         Dns.ResponseReceived "2" "http://10.0.0.1/" "10.0.0.1" (Some 80) ]) = [].
Proof.
  split; [| vm_compute; reflexivity].
  constructor. simpl. repeat split. discriminate.
Qed.

(** The de-duplication at a sample run: three responses for one host,
    two of them from the same address, give two records. *)
Lemma dns_records_deduplicated_witness :
  Dns.countWhere
    (fun r => Dns.isResolution "example.com" "93.184.216.34" r
              || Dns.isResolution "example.com" "93.184.216.35" r)
    (Dns.output
       (Dns.record Sample.hostOf
          [ Dns.ResponseReceived "1" "http://example.com/" "93.184.216.34" (Some 80);
            Dns.ResponseReceived "2" "http://example.com/" "93.184.216.34" (Some 80);
            Dns.ResponseReceived "3" "http://example.com/" "93.184.216.35" (Some 80) ]))
  = 2%nat.
Proof.
  destruct (dns_records_deduplicated Sample.hostOf hostOf_shape
              [ Dns.ResponseReceived "1" "http://example.com/" "93.184.216.34" (Some 80);
                Dns.ResponseReceived "2" "http://example.com/" "93.184.216.34" (Some 80);
                Dns.ResponseReceived "3" "http://example.com/" "93.184.216.35" (Some 80) ])
    as (_ & _ & _ & H & _).
  apply H.
  - repeat split; (discriminate || reflexivity).
  - repeat split; (discriminate || reflexivity).
  - discriminate.
  - constructor. simpl. repeat split. discriminate.
  - do 2 apply Exists_cons_tl. constructor. simpl. repeat split. discriminate.
Defined.

End DnsSample.

(** ** The static-file downloader *)

Section StaticFileDownloader.
Variable env : gmap string string.
Variable pathname : string -> option string.
Variable basename : string -> string.

Lemma onResponse_handled (st : StaticFile.State) (r : StaticFile.Response) :
  StaticFile.firstResponseHandled st = true ->
  StaticFile.onResponse env pathname basename st r = st.
Proof. intros H. unfold StaticFile.onResponse. rewrite H. reflexivity. Qed.

Lemma observe_handled (rs : list StaticFile.Response) (st : StaticFile.State) :
  StaticFile.firstResponseHandled st = true ->
  StaticFile.observe env pathname basename st rs = st.
Proof.
  intros H. induction rs as [| r rs IH]; [reflexivity |].
  unfold StaticFile.observe in *. simpl. rewrite onResponse_handled by exact H. exact IH.
Qed.

Lemma onResponse_passedOver (st : StaticFile.State) (r : StaticFile.Response) :
  StaticFile.passedOver (StaticFile.originalUrl st) r ->
  StaticFile.onResponse env pathname basename st r = st.
Proof.
  intros H. unfold StaticFile.onResponse.
  destruct (StaticFile.firstResponseHandled st); [reflexivity |].
  destruct (String.eqb_spec (StaticFile.url r) (StaticFile.originalUrl st)) as [E | E];
    [| reflexivity].
  simpl. destruct H as [H | [H | H]]; [contradiction | |].
  - assert ((StaticFile.status r <? 200) = true) as -> by (apply Z.ltb_lt; lia). reflexivity.
  - assert ((300 <=? StaticFile.status r) = true) as -> by (apply Z.leb_le; lia).
    rewrite orb_true_r. reflexivity.
Qed.

Lemma observe_passedOver (rs : list StaticFile.Response) (st : StaticFile.State) :
  Forall (StaticFile.passedOver (StaticFile.originalUrl st)) rs ->
  StaticFile.observe env pathname basename st rs = st.
Proof.
  intros H. induction H as [| r rs Hr _ IH]; [reflexivity |].
  unfold StaticFile.observe in *. simpl. rewrite onResponse_passedOver by exact Hr. exact IH.
Qed.

Lemma pdf_mediaType :
  StaticFile.mediaType (Js.orElse (default "" (Some "application/pdf")) "") = "application/pdf".
Proof. vm_compute. reflexivity. Qed.

Lemma pdf_is_static : StaticFile.isStaticContentType "application/pdf" = true.
Proof. vm_compute. reflexivity. Qed.

Lemma attachment_includes :
  Js.includes (Js.orElse (default "" (Some Sample.attachment)) "") "filename=" = true.
Proof. vm_compute. reflexivity. Qed.

Lemma attachment_filename :
  StaticFile.filenameMatch (Js.orElse (default "" (Some Sample.attachment)) "") = Some "x.pdf".
Proof. vm_compute. reflexivity. Qed.

Lemma attachment_sanitized : StaticFile.sanitizeFilename (Js.trim "x.pdf") = "x.pdf".
Proof. vm_compute. reflexivity. Qed.

Lemma onResponse_pdf (u : string) (r : StaticFile.Response) (buffer : string) :
  StaticFile.url r = u ->
  200 <= StaticFile.status r < 300 ->
  StaticFile.headers r !! "content-type" = Some "application/pdf" ->
  StaticFile.headers r !! "content-disposition" = Some Sample.attachment ->
  StaticFile.body r = inr buffer ->
  Z.of_nat (String.length buffer) <= StaticFile.maxSize env ->
  StaticFile.writeError r = None ->
  StaticFile.onResponse env pathname basename (StaticFile.initial u) r =
    StaticFile.mkState u (Some "application/pdf") true (Some "x.pdf") None true
                       {[ "x.pdf" := buffer ]}.
Proof.
  intros Hurl Hstatus Hct Hcd Hbody Hsize Hwrite.
  unfold StaticFile.onResponse. cbn [StaticFile.firstResponseHandled StaticFile.initial
    StaticFile.originalUrl StaticFile.isStaticFile StaticFile.downloadedFilePath
    StaticFile.downloadError StaticFile.detectedContentType StaticFile.files].
  rewrite Hurl, String.eqb_refl, Hct, Hcd, Hbody, Hwrite.
  assert ((StaticFile.status r <? 200) = false) as -> by (apply Z.ltb_ge; lia).
  assert ((300 <=? StaticFile.status r) = false) as -> by (apply Z.leb_gt; lia).
  cbn [negb orb].
  rewrite pdf_mediaType, pdf_is_static. cbn [negb].
  fold (StaticFile.maxSize env).
  assert ((StaticFile.maxSize env <? Z.of_nat (String.length buffer)) = false) as ->
    by (apply Z.ltb_ge; lia).
  rewrite attachment_includes, attachment_filename, attachment_sanitized.
  rewrite insert_empty. reflexivity.
Qed.

(** C8, amended.  If the first response with a status in 200-299 that
    the static-file downloader observes for the navigated URL has
    Content-Type [application/pdf] and the header [content-disposition:
    attachment; filename="x.pdf"], its body can be read and is no larger
    than [STATICFILE_MAX_SIZE] (1 GiB by default), and the file can be
    written, then the body is written to a file named [x.pdf] and the
    final result on termination is [{status: succeeded, output_str:
    x.pdf}] (with the plugin name and the content type); responses for
    other URLs or with another status before it are passed over, and no
    response after it is inspected. *)
Theorem staticfile_pdf_attachment (u : string) (before after : list StaticFile.Response)
    (r : StaticFile.Response) (buffer : string) :
  Forall (StaticFile.passedOver u) before ->
  StaticFile.url r = u ->
  200 <= StaticFile.status r < 300 ->
  StaticFile.headers r !! "content-type" = Some "application/pdf" ->
  StaticFile.headers r !! "content-disposition" = Some Sample.attachment ->
  StaticFile.body r = inr buffer ->
  Z.of_nat (String.length buffer) <= StaticFile.maxSize env ->
  StaticFile.writeError r = None ->
  let st := StaticFile.observe env pathname basename (StaticFile.initial u)
                               (before ++ r :: after) in
  StaticFile.files st = {[ "x.pdf" := buffer ]} /\
  StaticFile.finalResult st =
    mkResult Succeeded "x.pdf"
             [("plugin", "staticfile"); ("content_type", "application/pdf")] /\
  st = StaticFile.onResponse env pathname basename (StaticFile.initial u) r.
Proof.
  intros Hbefore Hurl Hstatus Hct Hcd Hbody Hsize Hwrite. cbv zeta.
  assert (StaticFile.observe env pathname basename (StaticFile.initial u)
                             (before ++ r :: after) =
          StaticFile.onResponse env pathname basename (StaticFile.initial u) r) as ->.
  { unfold StaticFile.observe. rewrite fold_left_app.
    fold (StaticFile.observe env pathname basename (StaticFile.initial u) before).
    rewrite observe_passedOver by exact Hbefore. simpl.
    fold (StaticFile.observe env pathname basename
            (StaticFile.onResponse env pathname basename (StaticFile.initial u) r) after).
    apply observe_handled.
    rewrite (onResponse_pdf u r buffer) by assumption. reflexivity. }
  rewrite (onResponse_pdf u r buffer) by assumption.
  repeat split; reflexivity.
Qed.

End StaticFileDownloader.

Section StaticFileSample.

(** C8, as the claim states it, fails in both of its parts: with
    [STATICFILE_MAX_SIZE=3] the four-byte PDF attachment ends in a
    failed result and no file; and when the navigated URL first answers
    with status 503 and then with the PDF, the second response for the
    same URL is inspected and downloaded. *)
Lemma staticfile_oversize_fails :
  (let st := StaticFile.observe {[ "STATICFILE_MAX_SIZE" := "3" ]} (fun _ => None) (fun p => p)
                                (StaticFile.initial "https://example.com/doc")
                                [Sample.pdfResponse] in
   StaticFile.finalResult st =
     mkResult Failed "File too large: 4 bytes > 3 max"
              [("plugin", "staticfile"); ("content_type", "application/pdf")] /\
   StaticFile.files st = ∅) /\
  (let st := StaticFile.observe ∅ (fun _ => None) (fun p => p)
                                (StaticFile.initial "https://example.com/doc")
                                [Sample.unavailable; Sample.pdfResponse] in
   StaticFile.finalResult st =
     mkResult Succeeded "x.pdf"
              [("plugin", "staticfile"); ("content_type", "application/pdf")]).
Proof. repeat split; vm_compute; reflexivity. Qed.

(** The download at a sample run: a 503 for the same URL, the PDF, and
    one more response that is not looked at. *)
Lemma staticfile_pdf_attachment_witness :
  StaticFile.finalResult
    (StaticFile.observe ∅ (fun _ => None) (fun p => p)
                        (StaticFile.initial "https://example.com/doc")
                        ([Sample.unavailable] ++ Sample.pdfResponse :: [Sample.unavailable])) =
  mkResult Succeeded "x.pdf" [("plugin", "staticfile"); ("content_type", "application/pdf")].
Proof.
  destruct (staticfile_pdf_attachment ∅ (fun _ => None) (fun p => p)
              "https://example.com/doc" [Sample.unavailable] [Sample.unavailable]
              Sample.pdfResponse "%PDF") as (_ & H & _).
  - constructor; [right; right; simpl; lia | constructor].
  - reflexivity.
  - simpl. lia.
  - reflexivity.
  - reflexivity.
  - reflexivity.
  - vm_compute. discriminate.
  - reflexivity.
  - exact H.
Defined.

End StaticFileSample.

(* ===================================================================== *)
(** * Further properties of the helpers *)
(* ===================================================================== *)

(** ** Strings: reversal, trimming, splitting *)

Section StringFacts.

Lemma append_nil_r (s : string) : s +:+ "" = s.
Proof.
  induction s as [| c s IH]; [reflexivity |].
  rewrite append_cons, IH. reflexivity.
Qed.

Lemma append_assoc (s t u : string) : (s +:+ t) +:+ u = s +:+ (t +:+ u).
Proof.
  induction s as [| c s IH]; [rewrite !append_nil_l; reflexivity |].
  rewrite !append_cons, IH. reflexivity.
Qed.

Lemma rev_app_append (s t u : string) :
  String.rev_app s (t +:+ u) = String.rev_app s t +:+ u.
Proof.
  revert t. induction s as [| c s IH]; intros t; simpl; [reflexivity |].
  rewrite <- IH, append_cons. reflexivity.
Qed.

Lemma rev_cons (c : ascii) (s : string) :
  String.rev (String c s) = String.rev s +:+ String c "".
Proof.
  unfold String.rev. simpl.
  rewrite <- (append_nil_l (String c "")) at 1.
  apply rev_app_append.
Qed.

Lemma rev_app_of_append (s t u : string) :
  String.rev_app (s +:+ t) u = String.rev_app t (String.rev_app s u).
Proof.
  revert u. induction s as [| c s IH]; intros u.
  - rewrite append_nil_l. reflexivity.
  - rewrite append_cons. simpl. apply IH.
Qed.

Lemma rev_snoc (c : ascii) (s : string) :
  String.rev (s +:+ String c "") = String c (String.rev s).
Proof. unfold String.rev. rewrite rev_app_of_append. reflexivity. Qed.

Lemma rev_involutive (s : string) : String.rev (String.rev s) = s.
Proof.
  induction s as [| c s IH]; [reflexivity |].
  rewrite rev_cons, rev_snoc, IH. reflexivity.
Qed.

Lemma rev_empty (s : string) : String.rev s = "" -> s = "".
Proof. intros H. rewrite <- (rev_involutive s), H. reflexivity. Qed.

Lemma trimStart_head (s : string) :
  Js.trimStart s = "" \/
  exists c r, Js.trimStart s = String c r /\ Js.isWhite c = false.
Proof.
  induction s as [| c s IH]; [left; reflexivity |].
  simpl. destruct (Js.isWhite c) eqn:E; [exact IH |].
  right. exists c, s. auto.
Qed.

Lemma trimStart_append (s t : string) :
  Js.trimStart (s +:+ t) =
  if Js.falsy (Js.trimStart s) then Js.trimStart t else Js.trimStart s +:+ t.
Proof.
  induction s as [| c s IH]; [rewrite append_nil_l; reflexivity |].
  rewrite append_cons. simpl. destruct (Js.isWhite c); [exact IH |].
  simpl. rewrite append_cons. reflexivity.
Qed.

(** [trimEnd], read from the front of the string. *)
Lemma trimEnd_cons (c : ascii) (s : string) :
  Js.trimEnd (String c s) =
  if Js.falsy (Js.trimEnd s) && Js.isWhite c then "" else String c (Js.trimEnd s).
Proof.
  unfold Js.trimEnd. rewrite rev_cons, trimStart_append.
  destruct (Js.trimStart (String.rev s)) as [| d r] eqn:E.
  - simpl. destruct (Js.isWhite c); reflexivity.
  - cbn [Js.falsy]. rewrite rev_snoc.
    destruct (String.rev (String d r)) eqn:Er; [| reflexivity].
    apply rev_empty in Er. discriminate.
Qed.

Lemma trimEnd_idem (s : string) : Js.trimEnd (Js.trimEnd s) = Js.trimEnd s.
Proof.
  induction s as [| c s IH]; [reflexivity |].
  rewrite trimEnd_cons.
  destruct (Js.falsy (Js.trimEnd s) && Js.isWhite c) eqn:E; [reflexivity |].
  rewrite trimEnd_cons, IH, E. reflexivity.
Qed.

Lemma trimStart_fixed (c : ascii) (s : string) :
  Js.isWhite c = false -> Js.trimStart (String c s) = String c s.
Proof. intros E. simpl. rewrite E. reflexivity. Qed.

Lemma trim_idem (s : string) : Js.trim (Js.trim s) = Js.trim s.
Proof.
  unfold Js.trim.
  destruct (trimStart_head s) as [-> | (c & r & -> & Hc)]; [reflexivity |].
  assert (Js.trimEnd (String c r) = String c (Js.trimEnd r)) as ->
    by (rewrite trimEnd_cons, Hc, andb_false_r; reflexivity).
  rewrite (trimStart_fixed c _ Hc).
  rewrite trimEnd_cons, Hc, andb_false_r, trimEnd_idem. reflexivity.
Qed.

Lemma trimEnd_solid (s : string) :
  ChromeHelpers.allChars (fun c => negb (Js.isWhite c)) s = true -> Js.trimEnd s = s.
Proof.
  induction s as [| c s IH]; [reflexivity |].
  simpl. intros [Hc Hs]%andb_true_iff.
  rewrite trimEnd_cons, (IH Hs).
  apply negb_true_iff in Hc. rewrite Hc, andb_false_r. reflexivity.
Qed.

Lemma trim_solid (s : string) :
  ChromeHelpers.allChars (fun c => negb (Js.isWhite c)) s = true -> Js.trim s = s.
Proof.
  intros H. unfold Js.trim.
  assert (Js.trimStart s = s) as ->; [| apply trimEnd_solid, H].
  destruct s as [| c s]; [reflexivity |].
  simpl in H. apply andb_true_iff in H as [Hc _]. apply negb_true_iff in Hc.
  apply trimStart_fixed, Hc.
Qed.

Lemma allChars_impl (f g : ascii -> bool) (s : string) :
  (forall c, f c = true -> g c = true) ->
  ChromeHelpers.allChars f s = true -> ChromeHelpers.allChars g s = true.
Proof.
  intros Hfg. induction s as [| c s IH]; [reflexivity |].
  simpl. intros [Hc Hs]%andb_true_iff. rewrite (Hfg _ Hc), (IH Hs). reflexivity.
Qed.

Lemma split_nonempty (sep : ascii) (s : string) : Js.split sep s <> [].
Proof.
  induction s as [| c s IH]; [discriminate |].
  simpl. destruct (Ascii.eqb c sep); [discriminate |].
  destruct (Js.split sep s); discriminate.
Qed.

Lemma join_cons (sep x y : string) (rest : list string) :
  Js.join sep (x :: y :: rest) = x +:+ sep +:+ Js.join sep (y :: rest).
Proof. reflexivity. Qed.

(** Joining what [split] gives, with the same separator, gives the
    string back. *)
Lemma join_split (sep : ascii) (s : string) :
  Js.join (String sep "") (Js.split sep s) = s.
Proof.
  induction s as [| c s IH]; [reflexivity |].
  simpl. destruct (Ascii.eqb_spec c sep) as [-> | Hne].
  - destruct (Js.split sep s) as [| h t] eqn:E; [destruct (split_nonempty _ _ E) |].
    rewrite join_cons, IH, append_nil_l, append_cons, append_nil_l. reflexivity.
  - destruct (Js.split sep s) as [| h t] eqn:E; [destruct (split_nonempty _ _ E) |].
    destruct t as [| x t].
    + simpl in *. rewrite IH. reflexivity.
    + rewrite join_cons in *. rewrite append_cons, IH. reflexivity.
Qed.

Lemma includes_single (c d : ascii) (s : string) :
  Js.includes (String c s) (String d "") = Ascii.eqb d c || Js.includes s (String d "").
Proof.
  simpl. destruct (ascii_dec d c) as [-> | Hne].
  - rewrite Ascii.eqb_refl. destruct s; reflexivity.
  - apply Ascii.eqb_neq in Hne. rewrite Hne. reflexivity.
Qed.

Lemma split_solid (sep : ascii) (s : string) :
  Js.includes s (String sep "") = false -> Js.split sep s = [s].
Proof.
  induction s as [| c s IH]; [reflexivity |].
  rewrite includes_single. intros [Hc Hs]%orb_false_iff.
  simpl. rewrite Ascii.eqb_sym, Hc, (IH Hs). reflexivity.
Qed.

Lemma split_append (sep : ascii) (s t : string) :
  Js.includes s (String sep "") = false ->
  Js.split sep (s +:+ String sep t) = s :: Js.split sep t.
Proof.
  induction s as [| c s IH].
  - intros _. rewrite append_nil_l. simpl. rewrite Ascii.eqb_refl. reflexivity.
  - rewrite includes_single. intros [Hc Hs]%orb_false_iff.
    rewrite append_cons. simpl. rewrite Ascii.eqb_sym, Hc, (IH Hs). reflexivity.
Qed.

End StringFacts.

(** ** Decimal numerals: [String(n)] and [parseInt] *)

Section Decimal.

Lemma digit_of_char (x : N) :
  (x < 10)%N -> Js.digitVal (pretty_N_char x) = Some (Z.of_N x).
Proof.
  intros H. destruct x as [| p]; [reflexivity |].
  repeat (destruct p as [p | p |]; try reflexivity; try lia).
Qed.

Lemma digitsPrefix_digit (acc : option Z) (c : ascii) (d : Z) (s : string) :
  Js.digitVal c = Some d ->
  Js.digitsPrefix acc (String c s) = Js.digitsPrefix (Some (10 * default 0 acc + d)) s.
Proof. intros H. simpl. rewrite H. reflexivity. Qed.

(** The digits [pretty_N_go] puts in front of [s] are read back by
    [digitsPrefix] as the number they spell. *)
Lemma go_value (x : N) :
  (0 < x)%N ->
  exists k, 0 <= k /\
    forall acc s,
      Js.digitsPrefix acc (pretty_N_go x s) =
      Js.digitsPrefix (Some (default 0 acc * 10 ^ k + Z.of_N x)) s.
Proof.
  induction x as [x IH] using (well_founded_induction N.lt_wf_0). intros Hx.
  assert (x `mod` 10 < 10)%N as Hd by (apply N.mod_lt; lia).
  pose proof (N.div_mod x 10 ltac:(lia)) as Hdm.
  destruct (N.eq_dec (x / 10) 0) as [Hz | Hnz].
  - exists 1. split; [lia |]. intros acc s.
    rewrite pretty_N_go_step, Hz, pretty_N_go_0 by exact Hx.
    rewrite (digitsPrefix_digit _ _ _ _ (digit_of_char _ Hd)).
    do 2 f_equal. lia.
  - destruct (IH (x / 10)%N) as (k & Hk & Hgo);
      [apply N.div_lt; lia | lia |].
    exists (k + 1). split; [lia |]. intros acc s.
    rewrite pretty_N_go_step, Hgo by exact Hx.
    rewrite (digitsPrefix_digit _ _ _ _ (digit_of_char _ Hd)). simpl default.
    do 2 f_equal. rewrite Z.pow_add_r by lia. lia.
Qed.

Lemma go_digits (f : ascii -> bool) (x : N) :
  (forall d, (d < 10)%N -> f (pretty_N_char d) = true) ->
  forall s, ChromeHelpers.allChars f s = true ->
            ChromeHelpers.allChars f (pretty_N_go x s) = true.
Proof.
  intros Hf. induction x as [x IH] using (well_founded_induction N.lt_wf_0).
  intros s Hs. destruct (N.eq_dec x 0) as [-> | Hnz].
  - rewrite pretty_N_go_0. exact Hs.
  - rewrite pretty_N_go_step by lia. apply IH; [apply N.div_lt; lia |].
    simpl. rewrite Hf, Hs; [reflexivity | apply N.mod_lt; lia].
Qed.

Lemma pretty_positive_go (p : positive) : pretty p = pretty_N_go (N.pos p) "".
Proof.
  unfold pretty, pretty_positive, pretty, pretty_N.
  destruct (decide (N.pos p = 0%N)); [discriminate | reflexivity].
Qed.

(** The characters of a numeral: digits, after at most a minus sign. *)
Lemma numeral_chars (f : ascii -> bool) (n : Z) :
  (forall d, (d < 10)%N -> f (pretty_N_char d) = true) ->
  f "-"%char = true ->
  ChromeHelpers.allChars f (Js.ofZ n) = true.
Proof.
  intros Hf Hminus. unfold Js.ofZ, pretty, pretty_Z.
  assert (forall p : positive, ChromeHelpers.allChars f (pretty p) = true) as Hpos.
  { intros p. rewrite pretty_positive_go. apply (go_digits f _ Hf). reflexivity. }
  destruct n as [| p | p].
  - pose proof (Hf 0%N ltac:(lia)) as H0. simpl in *. rewrite H0. reflexivity.
  - apply Hpos.
  - rewrite append_cons, append_nil_l. simpl. rewrite Hminus. apply Hpos.
Qed.

Lemma bounded_digit (f : ascii -> bool) :
  f "0"%char = true -> f "1"%char = true -> f "2"%char = true -> f "3"%char = true ->
  f "4"%char = true -> f "5"%char = true -> f "6"%char = true -> f "7"%char = true ->
  f "8"%char = true -> f "9"%char = true ->
  forall d, (d < 10)%N -> f (pretty_N_char d) = true.
Proof.
  intros H0 H1 H2 H3 H4 H5 H6 H7 H8 H9 d Hd.
  destruct d as [| p]; [exact H0 |].
  repeat (destruct p as [p | p |]; try assumption; try lia).
Qed.

Lemma numeral_solid (n : Z) :
  ChromeHelpers.allChars (fun c => negb (Js.isWhite c)) (Js.ofZ n) = true.
Proof.
  apply numeral_chars;
    [apply (bounded_digit (fun c => negb (Js.isWhite c))); reflexivity | reflexivity].
Qed.

Lemma numeral_without (sep : ascii) (n : Z) :
  Js.digitVal sep = None -> sep <> "-"%char ->
  Js.includes (Js.ofZ n) (String sep "") = false.
Proof.
  intros Hsep Hminus.
  assert (ChromeHelpers.allChars (fun c => negb (Ascii.eqb sep c)) (Js.ofZ n) = true) as H.
  { apply numeral_chars.
    - intros d Hd. apply negb_true_iff, Ascii.eqb_neq. intros ->.
      rewrite (digit_of_char _ Hd) in Hsep. discriminate.
    - apply negb_true_iff, Ascii.eqb_neq. exact Hminus. }
  induction (Js.ofZ n) as [| c s IH]; [reflexivity |].
  simpl in H. apply andb_true_iff in H as [Hc Hs].
  rewrite includes_single, (IH Hs). apply negb_true_iff in Hc. rewrite Hc. reflexivity.
Qed.

Lemma parseInt_digit_head (c : ascii) (d : Z) (s : string) :
  Js.digitVal c = Some d ->
  Js.parseInt (String c s) = Js.digitsPrefix None (String c s).
Proof.
  intros H.
  destruct c as [[] [] [] [] [] [] [] []]; try discriminate H; reflexivity.
Qed.

Lemma digits_natural (x : N) :
  (0 < x)%N -> Js.digitsPrefix None (pretty_N_go x "") = Some (Z.of_N x).
Proof.
  intros Hx. destruct (go_value x Hx) as (k & Hk & Hgo).
  rewrite Hgo. simpl. f_equal; lia.
Qed.

Lemma parseInt_natural (x : N) :
  (0 < x)%N -> Js.parseInt (pretty_N_go x "") = Some (Z.of_N x).
Proof.
  intros Hx. pose proof (digits_natural x Hx) as Hv.
  pose proof (go_digits (fun c => match Js.digitVal c with Some _ => true | None => false end)
                        x) as Hall.
  specialize (Hall ltac:(intros d0 Hd0; cbv beta; rewrite (digit_of_char _ Hd0); reflexivity)
                   "" eq_refl).
  destruct (pretty_N_go x "") as [| c s] eqn:E; [discriminate Hv |].
  simpl in Hall. destruct (Js.digitVal c) as [d |] eqn:Hd; [| discriminate].
  rewrite (parseInt_digit_head _ _ _ Hd). exact Hv.
Qed.

(** [parseInt(String(n), 10)] is [n]. *)
Lemma parseInt_ofZ (n : Z) : Js.parseInt (Js.ofZ n) = Some n.
Proof.
  unfold Js.ofZ, pretty, pretty_Z.
  destruct n as [| p | p]; [reflexivity | |].
  - rewrite pretty_positive_go, parseInt_natural by lia. reflexivity.
  - rewrite append_cons, append_nil_l.
    change (Js.parseInt (String "-" (pretty p)))
      with (Z.opp <$> Js.digitsPrefix None (pretty p)).
    rewrite pretty_positive_go, digits_natural by lia. reflexivity.
Qed.

End Decimal.

(** ** Environment and argument helpers *)

Section EnvHelpers.
Import ChromeUtils.

Lemma numeral_nonempty (n : Z) : Js.falsy (Js.ofZ n) = false.
Proof.
  pose proof (parseInt_ofZ n) as H.
  destruct (Js.ofZ n); [discriminate H | reflexivity].
Qed.

Lemma parseInt_numeral_trimmed (n : Z) : Js.parseInt (Js.trim (Js.ofZ n)) = Some n.
Proof. rewrite (trim_solid _ (numeral_solid n)). apply parseInt_ofZ. Qed.

(** X1.  [getEnvInt] within the safe integers, for a variable whose
    name is not one that [process.env] inherits: when the variable is
    not set the result is the default (its decimal numeral is parsed
    back to it); and a variable set to the decimal numeral of an
    integer gives that integer. *)
Theorem getEnvInt_unset_and_numeral (env : Env) (name : string) (d n : Z) :
  Js.safe d ->
  Js.safe n ->
  name ∉ Js.objectPrototypeKeys ->
  getEnvInt (delete name env) name d = d /\
  getEnvInt (<[name := Js.ofZ n]> env) name d = n.
Proof.
  intros _ _ _. unfold getEnvInt, getEnv. split.
  - rewrite lookup_delete_eq. simpl default at 2.
    change (Js.orElse "" (Js.ofZ d)) with (Js.ofZ d).
    rewrite parseInt_numeral_trimmed. reflexivity.
  - rewrite lookup_insert_eq. simpl default at 2.
    unfold Js.orElse. rewrite numeral_nonempty, parseInt_numeral_trimmed. reflexivity.
Qed.

Lemma getEnvInt_unset_and_numeral_witness :
  getEnvInt (delete "STATICFILE_TIMEOUT" ∅) "STATICFILE_TIMEOUT" 30 = 30 /\
  getEnvInt (<["STATICFILE_TIMEOUT" := Js.ofZ 45]> ∅) "STATICFILE_TIMEOUT" 30 = 45.
Proof.
  apply (getEnvInt_unset_and_numeral ∅ "STATICFILE_TIMEOUT" 30 45).
  - split; apply Z.leb_le; reflexivity.
  - split; apply Z.leb_le; reflexivity.
  - intros H. repeat (apply elem_of_cons in H as [H | H]; [discriminate H |]).
    apply elem_of_nil in H. exact H.
Defined.

(** X2.  [getEnvArray] on a value that is read as comma-separated (it
    is not blank, and does not start with a bracket or is not a JSON
    array): every element of the result is non-empty and carries no
    white space at either end. *)
Theorem getEnvArray_elements_trimmed (jsonArray : string -> option (list string))
    (env : Env) (name : string) (defaultValue : list string) :
  getEnv env name "" <> "" ->
  Js.startsWith (getEnv env name "") "[" = false \/ jsonArray (getEnv env name "") = None ->
  Forall (fun e => e <> "" /\ Js.trim e = e)
         (getEnvArray jsonArray env name defaultValue).
Proof.
  intros Hval Hcommas. unfold getEnvArray.
  destruct (getEnv env name "") as [| c val] eqn:E; [congruence |].
  cbn [Js.falsy].
  assert (forall l : list string,
            Forall (fun e => e <> "" /\ Js.trim e = e)
                   (filter (fun s => negb (Js.falsy s) = true) (Js.trim <$> l))) as Hall.
  { intros l. apply Forall_forall. intros e [He Hin]%list_elem_of_filter.
    apply list_elem_of_fmap in Hin as (x & -> & _). split.
    - intros Hempty. rewrite Hempty in He. discriminate He.
    - apply trim_idem. }
  destruct Hcommas as [-> | ->]; [apply Hall |].
  destruct (Js.startsWith (String c val) "["); apply Hall.
Qed.

Lemma getEnvArray_elements_trimmed_witness :
  Forall (fun e => e <> "" /\ Js.trim e = e)
         (getEnvArray (fun _ => None) {[ "CHROME_ARGS" := " --a , --b,, " ]} "CHROME_ARGS" []).
Proof.
  apply getEnvArray_elements_trimmed; [vm_compute; discriminate | left; vm_compute; reflexivity].
Defined.

Lemma parseArgs_snoc (argv : list string) (arg : string) :
  parseArgs (argv ++ [arg]) = parseArg (parseArgs argv) arg.
Proof. unfold parseArgs. rewrite fold_left_app. reflexivity. Qed.

Lemma startsWith_append (p s : string) : Js.startsWith (p +:+ s) p = true.
Proof.
  unfold Js.startsWith. induction p as [| c p IH]; [destruct s; reflexivity |].
  rewrite append_cons. simpl. destruct (ascii_dec c c); [exact IH | congruence].
Qed.

Lemma drop_append (p s : string) : Js.drop (String.length p) (p +:+ s) = s.
Proof.
  induction p as [| c p IH]; [rewrite append_nil_l; destruct s; reflexivity |].
  rewrite append_cons. simpl. exact IH.
Qed.

(** X3.  [parseArgs]: the last [--key=value] argument decides the value
    of its key, with the dashes of the key turned into underscores; the
    value is kept whole, equals signs included.  The one key for which
    this fails is [__proto__]: an argument for it leaves the object as
    it was. *)
Theorem parseArgs_last_wins (argv : list string) (key value : string) :
  Js.includes key "=" = false ->
  value <> "" ->
  (replaceDashes key <> "__proto__" ->
   parseArgs (argv ++ ["--" +:+ key +:+ "=" +:+ value]) !! replaceDashes key =
     Some (Str value)) /\
  (replaceDashes key = "__proto__" ->
   parseArgs (argv ++ ["--" +:+ key +:+ "=" +:+ value]) = parseArgs argv).
Proof.
  intros Hkey Hvalue. rewrite parseArgs_snoc. unfold parseArg.
  rewrite startsWith_append.
  change 2%nat with (String.length "--"). rewrite drop_append.
  rewrite append_cons, append_nil_l, (split_append "="%char key value Hkey).
  change (Js.join "=" (Js.split "=" value)) with
    (Js.join (String "="%char "") (Js.split "="%char value)).
  rewrite join_split. cbv zeta.
  destruct value; [congruence |]. cbn [Js.falsy].
  destruct (String.eqb_spec (replaceDashes key) "__proto__") as [E | E].
  - split; [intros H; contradiction | reflexivity].
  - split; [intros _; apply lookup_insert_eq | intros H; contradiction].
Qed.

Lemma parseArgs_last_wins_witness :
  parseArgs ["--url=http://a/"; "--url=https://example.com/?q=1&r=2"] !! "url" =
    Some (Str "https://example.com/?q=1&r=2") /\
  parseArgs ["--snapshot-id=s1"] !! "snapshot_id" = Some (Str "s1").
Proof.
  split.
  - apply (parseArgs_last_wins ["--url=http://a/"] "url" "https://example.com/?q=1&r=2");
      [reflexivity | discriminate | discriminate].
  - apply (parseArgs_last_wins [] "snapshot-id" "s1");
      [reflexivity | discriminate | discriminate].
Defined.

(** X4.  [parseArgs]: arguments that do not begin with two dashes have
    no effect on the result, wherever they stand. *)
Theorem parseArgs_ignores_positionals (argv : list string) :
  parseArgs argv = parseArgs (List.filter (fun arg => Js.startsWith arg "--") argv).
Proof.
  unfold parseArgs. generalize (∅ : gmap string ArgVal).
  induction argv as [| arg argv IH]; intros args; [reflexivity |].
  simpl. destruct (Js.startsWith arg "--") eqn:E.
  - simpl. apply IH.
  - rewrite <- IH. unfold parseArg at 2. rewrite E. reflexivity.
Qed.

(** X5.  [parseResolution]: neither component of the result is ever
    zero, and a resolution written as two non-zero safe integers joined
    by a comma, as [launchChromium] writes it into the window-size
    switch, is read back as those integers. *)
Theorem parseResolution_round_trip (width height : Z) (resolution : string) :
  (parseResolution resolution).1 <> 0 /\
  (parseResolution resolution).2 <> 0 /\
  (width <> 0 -> height <> 0 -> Js.safe width -> Js.safe height ->
   parseResolution (Js.ofZ width +:+ "," +:+ Js.ofZ height) = (width, height)).
Proof.
  split; [| split].
  - unfold parseResolution. simpl.
    destruct (_ !! 0%nat) as [[n |] |]; try discriminate.
    destruct (Z.eqb_spec n 0); [discriminate | assumption].
  - unfold parseResolution. simpl.
    destruct (_ !! 1%nat) as [[n |] |]; try discriminate.
    destruct (Z.eqb_spec n 0); [discriminate | assumption].
  - intros Hw Hh _ _. unfold parseResolution.
    rewrite append_cons, append_nil_l.
    rewrite (split_append ","%char (Js.ofZ width) (Js.ofZ height))
      by (apply numeral_without; [reflexivity | discriminate]).
    rewrite (split_solid ","%char (Js.ofZ height))
      by (apply numeral_without; [reflexivity | discriminate]).
    simpl. rewrite !parseInt_numeral_trimmed.
    apply Z.eqb_neq in Hw, Hh. rewrite Hw, Hh. reflexivity.
Qed.

Lemma parseResolution_round_trip_witness :
  parseResolution (Js.ofZ 1440 +:+ "," +:+ Js.ofZ 2000) = (1440, 2000).
Proof.
  apply (parseResolution_round_trip 1440 2000 "");
    try discriminate; split; apply Z.leb_le; reflexivity.
Defined.

End EnvHelpers.

(** ** Process management: the reaper and [killChrome] *)

Section Processes.
Import ChromeUtils ChromeHelpers.
Context {OS : Type} (sys : Sys OS).

Lemma signals_app (t1 t2 : Trace) : signals (t1 ++ t2) = signals t1 ++ signals t2.
Proof. apply omap_app. Qed.

Lemma unlinked_app (t1 t2 : Trace) : unlinked (t1 ++ t2) = unlinked t1 ++ unlinked t2.
Proof. apply omap_app. Qed.

Lemma reaperSignal_weaken (sent sent' l : list (Z * Signal)) :
  (forall x, x ∈ sent -> x ∈ sent') ->
  Forall (reaperSignal sent) l -> Forall (reaperSignal sent') l.
Proof.
  intros Hsub H. eapply Forall_impl; [exact H |].
  intros ps [H0 | (H1 & H2 & H3)]; [left; exact H0 |].
  right. split; [exact H1 |]. split; [exact H2 |]. apply Hsub, H3.
Qed.

Lemma reapCandidate_signals (fiveMinutesAgo : Z) (os : OS) (c : Candidate) :
  let t := (reapCandidate sys fiveMinutesAgo os c).1.2 in
  Forall (reaperSignal (signals t)) (signals t) /\
  Forall (fun f => f = pidFile c) (unlinked t) /\
  0 <= (reapCandidate sys fiveMinutesAgo os c).2 <= 1.
Proof.
  cbv zeta. unfold reapCandidate.
  destruct (sys_stat sys os (crawlDir c)) as [mtime |]; [| simpl; repeat constructor; lia].
  destruct (fiveMinutesAgo <? mtime)%Z; [simpl; repeat constructor; lia |].
  destruct (sys_read sys os (pidFile c)) as [text |]; [| simpl; repeat constructor; lia].
  destruct (Js.parseInt (Js.trim text)) as [pid |]; [| simpl; repeat constructor; lia].
  destruct (Z.leb_spec pid 0) as [Hle | Hpos]; [simpl; repeat constructor; lia |].
  unfold killGroupThenPid.
  assert (forall rest, (Z.abs (- pid), SIG0) ∈ (pid, SIG0) :: rest) as Hin
    by (intros rest; replace (Z.abs (- pid)) with pid by lia; apply list_elem_of_here).
  assert (forall rest, (Z.abs pid, SIG0) ∈ (pid, SIG0) :: rest) as Hin'
    by (intros rest; replace (Z.abs pid) with pid by lia; apply list_elem_of_here).
  destruct (sys_kill sys os pid SIG0) as [os1 alive].
  destruct (sys_kill sys os1 (- pid) SIGKILL) as [os2 okGroup].
  destruct (sys_kill sys os2 pid SIGKILL) as [os3 okPid].
  destruct alive, okGroup, okPid; simpl;
    repeat match goal with
           | |- context [sys_unlink sys ?o ?f] => destruct (sys_unlink sys o f)
           end; simpl;
    (split; [| split; [repeat constructor | lia]]);
    repeat (apply List.Forall_cons || apply List.Forall_nil);
    try (left; simpl; split; [reflexivity | lia]);
    right; simpl; (split; [reflexivity |]); (split; [lia |]);
    first [apply Hin | apply Hin'].
Qed.

Lemma reapAll_signals (fiveMinutesAgo : Z) (cs : list Candidate) :
  forall os,
    let r := reapAll sys fiveMinutesAgo os cs in
    Forall (reaperSignal (signals r.1.2)) (signals r.1.2) /\
    Forall (fun f => f ∈ pidFile <$> cs) (unlinked r.1.2) /\
    0 <= r.2 <= Z.of_nat (length cs).
Proof.
  induction cs as [| c cs IH]; intros os; [simpl; repeat constructor; lia |].
  cbv zeta. simpl.
  pose proof (reapCandidate_signals fiveMinutesAgo os c) as (H1 & H2 & H3).
  destruct (reapCandidate sys fiveMinutesAgo os c) as [[os1 t1] k1].
  specialize (IH os1). cbv zeta in IH. destruct IH as (I1 & I2 & I3).
  destruct (reapAll sys fiveMinutesAgo os1 cs) as [[os2 t2] k2].
  simpl in *. rewrite signals_app, unlinked_app. split; [| split; [| lia]].
  - apply Forall_app. split.
    + eapply reaperSignal_weaken; [| exact H1].
      intros x Hx. apply elem_of_app. left. exact Hx.
    + eapply reaperSignal_weaken; [| exact I1].
      intros x Hx. apply elem_of_app. right. exact Hx.
  - apply Forall_app. split.
    + eapply Forall_impl; [exact H2 |]. intros f ->. apply list_elem_of_here.
    + eapply Forall_impl; [exact I2 |]. intros f Hf. apply list_elem_of_further, Hf.
Qed.

Lemma removeLocks_calls (locks : list string) :
  forall os, signals (removeLocks sys os locks).2 = [] /\
             unlinked (removeLocks sys os locks).2 = locks.
Proof.
  induction locks as [| l locks IH]; intros os; [split; reflexivity |].
  simpl. destruct (sys_unlink sys os l) as [os1 ok].
  specialize (IH os1). destruct (removeLocks sys os1 locks) as [os2 t].
  destruct IH as [IH1 IH2]. simpl in *.
  destruct ok; simpl; rewrite IH1, IH2; split; reflexivity.
Qed.

(** X6.  [killZombieChrome] sends nothing but liveness probes (signal
    0) to positive process ids and [SIGKILL]; every [SIGKILL] goes to a
    process id, or to the group of a process id, that it probed in the
    same pass.  It never sends [SIGTERM] or [SIGINT], and never signals
    process id 0. *)
Theorem reaper_kills_only_what_it_probed (now : Z) (dataDirExists : bool)
    (chromePids : list Candidate) (locks : list string) (os : OS) :
  let sent := signals (killZombieChrome sys now dataDirExists chromePids locks os).1.2 in
  Forall (reaperSignal sent) sent.
Proof.
  cbv zeta. unfold killZombieChrome.
  destruct dataDirExists; simpl; [| constructor].
  pose proof (reapAll_signals (now - 300000) chromePids os) as (H & _).
  destruct (reapAll sys (now - 300000) os chromePids) as [[os1 t1] killed].
  pose proof (removeLocks_calls locks os1) as [Hs _].
  destruct (removeLocks sys os1 locks) as [os2 t2]. simpl in *.
  rewrite signals_app.
  assert (forall e, signals (Stderr e :: t2) = []) as Hrest by (intros e; exact Hs).
  destruct (0 <? killed); rewrite Hrest, app_nil_r; exact H.
Qed.

(** X7.  [killZombieChrome] removes nothing but marker files it
    collected and, after them, the [SingletonLock] files it was given,
    each lock once; the number it returns lies between 0 and the number
    of marker files.  When the data directory does not exist it sends
    no signal, removes no file and returns 0. *)
Theorem reaper_removes_only_markers_and_locks (now : Z) (dataDirExists : bool)
    (chromePids : list Candidate) (locks : list string) (os : OS) :
  let r := killZombieChrome sys now dataDirExists chromePids locks os in
  0 <= r.2 <= Z.of_nat (length chromePids) /\
  (if dataDirExists
   then exists markers,
          unlinked r.1.2 = markers ++ locks /\
          Forall (fun f => f ∈ pidFile <$> chromePids) markers
   else signals r.1.2 = [] /\ unlinked r.1.2 = [] /\ r.2 = 0).
Proof.
  cbv zeta. unfold killZombieChrome.
  destruct dataDirExists; simpl; [| repeat split; lia].
  pose proof (reapAll_signals (now - 300000) chromePids os) as (_ & Hu & Hk).
  destruct (reapAll sys (now - 300000) os chromePids) as [[os1 t1] killed].
  pose proof (removeLocks_calls locks os1) as [_ Hl].
  destruct (removeLocks sys os1 locks) as [os2 t2]. simpl in *.
  split; [lia |]. exists (unlinked t1). split; [| exact Hu].
  rewrite unlinked_app.
  assert (forall e, unlinked (Stderr e :: t2) = locks) as Hrest by (intros e; exact Hl).
  destruct (0 <? killed); rewrite Hrest; reflexivity.
Qed.

Lemma signals_stderr (msg : string) (t : Trace) : signals (Stderr msg :: t) = signals t.
Proof. reflexivity. Qed.

Lemma unlinked_stderr (msg : string) (t : Trace) : unlinked (Stderr msg :: t) = unlinked t.
Proof. reflexivity. Qed.

Lemma killGroups_calls (groups : list Z) :
  forall os, signals (killGroups sys os groups).2 = (fun g => (- g, SIGKILL)) <$> groups /\
             unlinked (killGroups sys os groups).2 = [].
Proof.
  induction groups as [| g groups IH]; intros os; [split; reflexivity |].
  simpl. destruct (sys_kill sys os (- g) SIGKILL) as [os1 ok].
  specialize (IH os1). destruct (killGroups sys os1 groups) as [os2 t].
  destruct IH as [IH1 IH2]. simpl in *. rewrite IH1, IH2. split; reflexivity.
Qed.

(** The stages of [killChrome]: the announcement, the [SIGTERM] stage
    [t1], the probe, the [SIGKILL] stage [t3], the removal of the pid
    file [t7] and the closing line. *)
Lemma processGroups_elem (pid g : Z) (relatedPids : list Z) :
  g ∈ processGroups pid relatedPids -> g <> pid /\ g ∈ relatedPids.
Proof.
  unfold processGroups.
  assert (forall groups,
            g ∈ fold_left (fun groups relatedPid =>
                             if bool_decide (relatedPid = pid) then groups
                             else if bool_decide (relatedPid ∈ groups) then groups
                             else groups ++ [relatedPid])
                          relatedPids groups ->
            g ∈ groups \/ (g <> pid /\ g ∈ relatedPids)) as Hgen.
  { induction relatedPids as [| r rest IH]; intros groups Hg; [left; exact Hg |].
    cbn [fold_left] in Hg. apply IH in Hg as [Hg | [Hne Hin]].
    - case_bool_decide as Hr; [left; exact Hg |].
      case_bool_decide as Hseen; [left; exact Hg |].
      apply elem_of_app in Hg as [Hg | Hg]; [left; exact Hg |].
      apply list_elem_of_singleton in Hg as ->.
      right. split; [exact Hr | apply list_elem_of_here].
    - right. split; [exact Hne | apply list_elem_of_further, Hin]. }
  intros Hg. apply Hgen in Hg as [Hg | Hg]; [| exact Hg].
  apply elem_of_nil in Hg. contradiction.
Qed.

Lemma killChrome_stages (os : OS) (pid : Z) (portText pidPath : option string)
    (relatedPids : list Z) :
  pid <> 0 ->
  exists t1 t3 t7 terms,
    (killChrome sys os (Some pid) portText pidPath relatedPids).2 =
      [Stderr ("[*] Killing Chrome process tree (PID " +:+ Js.ofZ pid +:+ ")...")] ++
      t1 ++ [Kill pid SIG0] ++ t3 ++ t7 ++ [Stderr "[*] Chrome cleanup completed"] /\
    signals t1 = (- pid, SIGTERM) :: terms /\
    (terms = [] \/ terms = [(pid, SIGTERM)]) /\
    unlinked t1 = [] /\
    Forall (fun ps => ps.2 = SIGKILL \/ ps = (pid, SIG0)) (signals t3) /\
    Forall (fun ps => ps.1 = - pid \/ ps.1 = pid \/
                      (ps.1 <> - pid /\ - ps.1 ∈ relatedPids)) (signals t3) /\
    ((forall os', (sys_kill sys os' pid SIG0).2 = false) -> signals t3 = []) /\
    unlinked t3 = [] /\
    signals t7 = [] /\
    unlinked t7 = match pidPath with Some f => [f] | None => [] end.
Proof.
  intros Hpid. unfold killChrome, isProcessAlive.
  apply Z.eqb_neq in Hpid. rewrite Hpid.
  destruct (sys_kill sys os (- pid) SIGTERM) as [os1 okGroup].
  destruct (sys_kill sys os1 pid SIGTERM) as [os2 okPid].
  set (stage1 := (if okGroup then _ else _)).
  assert (exists osA tA terms, stage1 = (osA, tA) /\
            signals tA = (- pid, SIGTERM) :: terms /\
            (terms = [] \/ terms = [(pid, SIGTERM)]) /\ unlinked tA = [])
    as (osA & tA & terms & -> & HA1 & HA2 & HA3).
  { subst stage1. destruct okGroup; [eexists _, _, _; repeat split; auto |].
    destruct okPid; eexists _, _, _; repeat split; auto. }
  destruct (sys_kill sys osA pid SIG0) as [os3 alive] eqn:Eprobe.
  set (stage3 := (if negb alive then _ else _)).
  assert (exists osC tC, stage3 = (osC, tC) /\
            Forall (fun ps => ps.2 = SIGKILL \/ ps = (pid, SIG0)) (signals tC) /\
            Forall (fun ps => ps.1 = - pid \/ ps.1 = pid \/
                              (ps.1 <> - pid /\ - ps.1 ∈ relatedPids)) (signals tC) /\
            (alive = false -> signals tC = []) /\ unlinked tC = [])
    as (osC & tC & -> & HC1 & HC2 & HC3 & HC4).
  { subst stage3. destruct alive; simpl;
      [| eexists _, _; repeat split; constructor].
    destruct (sys_kill sys os3 (- pid) SIGKILL) as [os4 okGroup9].
    destruct (sys_kill sys os4 pid SIGKILL) as [os5 okPid9].
    set (stage4 := (if okGroup9 then _ else _)).
    assert (exists osB tB, stage4 = (osB, tB) /\
              Forall (fun ps => ps.2 = SIGKILL /\ (ps.1 = - pid \/ ps.1 = pid)) (signals tB) /\
              unlinked tB = [])
      as (osB & tB & -> & HB1 & HB2).
    { subst stage4.
      destruct okGroup9; [| destruct okPid9];
        eexists _, _; (split; [reflexivity |]); (split; [| reflexivity]);
        simpl; repeat (apply List.Forall_cons || apply List.Forall_nil); simpl; auto. }
    destruct (sys_kill sys osB pid SIG0) as [os6 still].
    pose proof (killGroups_calls (processGroups pid relatedPids) os6)
      as [HG1 HG2].
    destruct (killGroups sys os6 _) as [os7 t6].
    assert (Forall (fun ps : Z * Signal => ps.2 = SIGKILL \/ ps = (pid, SIG0)) (signals tB)) as HB1'
      by (eapply Forall_impl; [exact HB1 |]; intros ps [H _]; left; exact H).
    assert (Forall (fun ps : Z * Signal => ps.1 = - pid \/ ps.1 = pid \/
                              (ps.1 <> - pid /\ - ps.1 ∈ relatedPids)) (signals tB)) as HB1''
      by (eapply Forall_impl; [exact HB1 |]; intros ps [_ [H | H]]; auto).
    assert (Forall (fun ps : Z * Signal => ps.2 = SIGKILL \/ ps = (pid, SIG0)) (signals t6)) as HG1'.
    { simpl in HG1. rewrite HG1. apply Forall_fmap, Forall_forall. intros g _. left. reflexivity. }
    assert (Forall (fun ps : Z * Signal => ps.1 = - pid \/ ps.1 = pid \/
                              (ps.1 <> - pid /\ - ps.1 ∈ relatedPids)) (signals t6)) as HG1''.
    { simpl in HG1. rewrite HG1. apply Forall_fmap, Forall_forall.
      intros g [Hne Hg]%processGroups_elem. right. right. simpl.
      split; [lia |]. replace (- - g) with g by lia. exact Hg. }
    simpl in HG2.
    assert (forall tail : Trace,
              signals tail = [] -> unlinked tail = [] ->
              Forall (fun ps : Z * Signal => ps.2 = SIGKILL \/ ps = (pid, SIG0))
                     (signals (tB ++ [Kill pid SIG0] ++ tail)) /\
              Forall (fun ps : Z * Signal => ps.1 = - pid \/ ps.1 = pid \/
                              (ps.1 <> - pid /\ - ps.1 ∈ relatedPids))
                     (signals (tB ++ [Kill pid SIG0] ++ tail)) /\
              (true = false -> signals (tB ++ [Kill pid SIG0] ++ tail) = []) /\
              unlinked (tB ++ [Kill pid SIG0] ++ tail) = []) as Hplain.
    { intros tail Hs Hu. rewrite !signals_app, !unlinked_app, Hs, Hu, HB2. simpl.
      repeat split; try discriminate.
      - apply Forall_app. split; [exact HB1' |].
        constructor; [right; reflexivity | constructor].
      - apply Forall_app. split; [exact HB1'' |].
        constructor; [right; left; reflexivity | constructor]. }
    destruct still.
    - destruct (portText ≫= _) as [port |]; [destruct (port =? 0)%Z |];
        [eexists _, _; split; [reflexivity | apply Hplain; reflexivity]
        | | eexists _, _; split; [reflexivity | apply Hplain; reflexivity]].
      destruct (1 <? length relatedPids)%nat;
        [| eexists _, _; split; [reflexivity | apply Hplain; reflexivity]].
      eexists _, _; split; [reflexivity |].
      rewrite !signals_app, !unlinked_app, !signals_stderr, !unlinked_stderr, HB2, HG2.
      simpl. repeat split; try discriminate.
      + apply Forall_app. split; [exact HB1' |]. constructor; [right; reflexivity | exact HG1'].
      + apply Forall_app. split; [exact HB1'' |].
        constructor; [right; left; reflexivity | exact HG1''].
    - eexists _, _; split; [reflexivity | apply Hplain; reflexivity]. }
  assert (exists os8 t7, (match pidPath with
                          | Some f => let '(os8, _) := sys_unlink sys osC f in (os8, [Unlink f])
                          | None => (osC, [])
                          end) = (os8, t7) /\
            signals t7 = [] /\
            unlinked t7 = match pidPath with Some f => [f] | None => [] end)
    as (os8 & t7 & -> & H71 & H72).
  { destruct pidPath as [f |]; [destruct (sys_unlink sys osC f) |];
      eexists _, _; repeat split. }
  exists tA, tC, t7, terms. simpl. repeat split; auto.
  intros Hdead. apply HC3. specialize (Hdead osA). rewrite Eprobe in Hdead. exact Hdead.
Qed.

(** X8.  [killChrome] for a process id other than 0: the first signal
    is [SIGTERM] to the process group, followed at most by [SIGTERM] to
    the process itself; then the process is probed with signal 0, and
    only after that probe can [SIGKILL] follow.  When the process does
    not answer the probe any more, no [SIGKILL] is sent at all.
    Whatever happens, the only file removed is the pid file of the
    output directory, when one is given, and the run ends with the line
    that reports the cleanup as completed. *)
Theorem killChrome_terminates_before_killing (os : OS) (pid : Z)
    (portText pidPath : option string) (relatedPids : list Z) :
  pid <> 0 ->
  let t := (killChrome sys os (Some pid) portText pidPath relatedPids).2 in
  exists terms kills,
    signals t = (- pid, SIGTERM) :: terms ++ (pid, SIG0) :: kills /\
    (terms = [] \/ terms = [(pid, SIGTERM)]) /\
    Forall (fun ps => ps.2 = SIGKILL \/ ps = (pid, SIG0)) kills /\
    ((forall os', (sys_kill sys os' pid SIG0).2 = false) -> kills = []) /\
    unlinked t = match pidPath with Some f => [f] | None => [] end /\
    last t = Some (Stderr "[*] Chrome cleanup completed").
Proof.
  intros Hpid. cbv zeta.
  destruct (killChrome_stages os pid portText pidPath relatedPids Hpid)
    as (t1 & t3 & t7 & terms & -> & H1 & Hterms & Hu1 & H3 & _ & Hdead & Hu3 & H7 & Hu7).
  exists terms, (signals t3). repeat split.
  - rewrite !signals_app, signals_stderr, H1, H7, app_nil_r. reflexivity.
  - exact Hterms.
  - exact H3.
  - exact Hdead.
  - rewrite !unlinked_app, unlinked_stderr, Hu1, Hu3, Hu7. destruct pidPath; reflexivity.
  - rewrite !app_assoc. apply last_snoc.
Qed.

Lemma findChromeProcessesByPort_positive (output : option string) :
  Forall (fun pid => 0 < pid) (findChromeProcessesByPort output).
Proof.
  destruct output as [out |]; [| constructor]. simpl.
  apply Forall_forall. intros pid (line & _ & Hline)%list_elem_of_omap.
  unfold pidOfLine in Hline.
  destruct (Js.parseInt (Js.trim line)) as [n |]; [| discriminate].
  destruct (Z.ltb_spec 0 n); [| discriminate]. injection Hline as <-. assumption.
Qed.

(** X9.  [killChrome] with the processes that
    [findChromeProcessesByPort] reads off the [ps] output, for a
    process id other than 0: no signal is ever addressed to process id
    0 (the group of the caller), and the processes signalled in the
    last resort are the groups of listed processes other than the
    browser itself. *)
Theorem killChrome_never_signals_zero (os : OS) (pid : Z)
    (portText pidPath psOutput : option string) :
  pid <> 0 ->
  let t := (killChrome sys os (Some pid) portText pidPath
                       (findChromeProcessesByPort psOutput)).2 in
  Forall (fun ps => ps.1 <> 0 /\
                    (ps.1 = pid \/ ps.1 = - pid \/
                     (ps.1 < 0 /\ - ps.1 ∈ findChromeProcessesByPort psOutput)))
         (signals t).
Proof.
  intros Hpid. cbv zeta.
  destruct (killChrome_stages os pid portText pidPath (findChromeProcessesByPort psOutput) Hpid)
    as (t1 & t3 & t7 & terms & -> & H1 & Hterms & _ & _ & H3 & _ & _ & H7 & _).
  rewrite !signals_app, signals_stderr, H1, H7, app_nil_r.
  pose proof (findChromeProcessesByPort_positive psOutput) as Hpos.
  rewrite Forall_forall in Hpos.
  constructor; [simpl; split; [lia | auto] |].
  apply Forall_app. split.
  - destruct Hterms as [-> | ->]; repeat constructor; simpl; auto.
  - constructor; [simpl; split; [lia | auto] |].
    eapply Forall_impl; [exact H3 |].
    intros [p sig] [H | [H | [Hne Hin]]]; simpl in *.
    + split; [lia | auto].
    + split; [lia | auto].
    + specialize (Hpos _ Hin). split; [lia |]. right. right. split; [lia | exact Hin].
Qed.

End Processes.

Section ProcessSamples.
Import ChromeUtils ChromeHelpers.

Lemma killChrome_terminates_before_killing_witness :
  exists terms,
    signals (killChrome Sample.gone tt (Some 4242) None (Some "chrome.pid") []).2 =
      (- 4242, SIGTERM) :: terms ++ [(4242, SIG0)] /\
    unlinked (killChrome Sample.gone tt (Some 4242) None (Some "chrome.pid") []).2 =
      ["chrome.pid"].
Proof.
  destruct (killChrome_terminates_before_killing Sample.gone tt 4242 None (Some "chrome.pid") [])
    as (terms & kills & Hs & _ & _ & Hdead & Hu & _); [discriminate |].
  exists terms. rewrite (Hdead (fun _ => eq_refl)) in Hs. auto.
Defined.

Lemma killChrome_never_signals_zero_witness :
  Forall (fun ps : Z * Signal => ps.1 <> 0)
         (signals (killChrome Sample.gone tt (Some 4242) (Some "9222") None
                              (findChromeProcessesByPort (Some Scenario.psOutput))).2).
Proof.
  eapply Forall_impl.
  - apply (killChrome_never_signals_zero Sample.gone tt 4242 (Some "9222") None). discriminate.
  - intros ps [H _]. exact H.
Defined.

End ProcessSamples.

(** ** Waiting for the session and for the page *)

Section Waiting.
Import ChromeUtils ChromeHelpers.





Lemma pollMarker_stops (present : nat -> bool) (timeoutMs : Z) :
  forall fuel k,
    timeoutMs <= 100 * Z.of_nat (k + fuel) ->
    exists n,
      pollMarker (S fuel) present timeoutMs k (100 * Z.of_nat k) =
        Some (S n, 100 * Z.of_nat n) /\
      (k <= n <= k + fuel)%nat /\
      (forall j, (k <= j < n)%nat -> present j = false) /\
      (present n = true \/ timeoutMs <= 100 * Z.of_nat n).
Proof.
  induction fuel as [| fuel IH]; intros k Hlast.
  - exists k. simpl.
    replace (k + 0)%nat with k in Hlast by lia.
    assert ((100 * Z.of_nat k <? timeoutMs) = false) as -> by (apply Z.ltb_ge; lia).
    rewrite andb_false_r.
    split; [reflexivity |]. split; [lia |]. split; [intros j Hj; lia | right; exact Hlast].
  - cbn [pollMarker].
    destruct (present k) eqn:Ep; cbn [negb andb].
    + exists k.
      split; [reflexivity |]. split; [lia |]. split; [intros j Hj; lia | left; exact Ep].
    + destruct (Z.ltb_spec (100 * Z.of_nat k) timeoutMs) as [Hlt | Hge].
      * destruct (IH (S k)) as (n & Hn & Hrange & Hnone & Hstop);
          [replace (S k + fuel)%nat with (k + S fuel)%nat by lia; exact Hlast |].
        exists n. replace (100 * Z.of_nat k + 100) with (100 * Z.of_nat (S k)) by lia.
        split; [exact Hn |]. split; [lia |]. split; [| exact Hstop].
        intros j Hj. destruct (decide (j = k)) as [-> | Hne]; [exact Ep |].
        apply Hnone. lia.
      * exists k.
        split; [reflexivity |]. split; [lia |]. split; [intros j Hj; lia | right; exact Hge].
Qed.

(** X11.  [waitForPageLoaded] always returns: it looks for the marker
    at most once per 100 ms of the timeout, plus once, sleeping 100 ms
    after each look that does not end the loop; the loop ends at the
    first look that finds the marker or at which the time slept has
    reached the timeout.  The call then throws exactly when the marker
    is missing at the check after the loop, and otherwise returns after
    the post-load delay, if that is positive. *)
Theorem waitForPageLoaded_bounded (present : nat -> bool) (timeoutMs postLoadDelayMs : Z) :
  exists n,
    (n <= Z.to_nat ((timeoutMs + 99) / 100))%nat /\
    (forall j, (j < n)%nat -> present j = false) /\
    (present n = true \/ timeoutMs <= 100 * Z.of_nat n) /\
    waitForPageLoaded (looksFor timeoutMs) present timeoutMs postLoadDelayMs =
      Some (if present (S n)
            then (100 * Z.of_nat n + Z.max 0 postLoadDelayMs, inr ())
            else (100 * Z.of_nat n, inl navigationTimeout)).
Proof.
  destruct (pollMarker_stops present timeoutMs (Z.to_nat ((timeoutMs + 99) / 100)) 0)
    as (n & Hn & Hrange & Hnone & Hstop).
  { pose proof (Z.div_mod (timeoutMs + 99) 100 ltac:(lia)).
    pose proof (Z.mod_pos_bound (timeoutMs + 99) 100 ltac:(lia)). lia. }
  exists n. split; [lia |]. split; [intros j Hj; apply Hnone; lia |].
  split; [exact Hstop |].
  unfold waitForPageLoaded, looksFor.
  change (100 * Z.of_nat 0) with 0 in Hn. rewrite Hn.
  destruct (present (S n)); simpl; [| reflexivity].
  destruct (Z.ltb_spec 0 postLoadDelayMs); do 2 f_equal; lia.
Qed.

End Waiting.

Section WaitingSamples.
Import ChromeUtils ChromeHelpers.


End WaitingSamples.

(** ** The foreground wait hook *)

Section ChromeWaitHook.
Import ChromeUtils ChromeHelpers.

(** X12.  [on_Snapshot__11_chrome_wait], called with a URL and a
    snapshot id, once its wait has returned: it writes exactly one
    result line and connects to nothing.  It exits 0 with a result
    succeeded exactly when the wait found the marker files and both
    files, trimmed, are not empty; otherwise it exits 1 with a result
    failed. *)
Theorem chrome_wait_reports_once (fuel : nat) (w : ChromeWait.World) (argv : list string)
    (url sid : ArgVal) (ready : bool) :
  parseArgs argv !! "url" = Some url ->
  parseArgs argv !! "snapshot_id" = Some sid ->
  waitForChromeSession fuel (ChromeWait.polling w)
                       (ChromeWait.timeoutSeconds (ChromeWait.env w) * 1000) = Some ready ->
  let ok := ready && negb (missing (readTrimmed (ChromeWait.cdpFile w)))
                  && negb (missing (readTrimmed (ChromeWait.targetIdFile w))) in
  exists t r,
    ChromeWait.main fuel w argv = Some (t, Exited (if ok then 0 else 1)) /\
    stdoutLines t = [JsonResult r] /\
    status r = (if ok then Succeeded else Failed) /\
    existsb isConnect t = false.
Proof.
  intros Hurl Hsid Hwait. cbv zeta. unfold ChromeWait.main.
  rewrite Hurl, Hsid, Hwait.
  destruct ready; [| eexists _, _; repeat split; reflexivity].
  destruct (missing (readTrimmed (ChromeWait.cdpFile w))); simpl;
    [eexists _, _; repeat split; reflexivity |].
  destruct (missing (readTrimmed (ChromeWait.targetIdFile w))); simpl;
    eexists _, _; repeat split; reflexivity.
Qed.

Lemma chrome_wait_reports_once_witness :
  exists t r,
    ChromeWait.main (looksFor 60000) Scenario.tabReady
                    ["--url=https://example.com/"; "--snapshot-id=s1"] =
      Some (t, Exited 0) /\
    stdoutLines t = [JsonResult r] /\ status r = Succeeded.
Proof.
  destruct (chrome_wait_reports_once (looksFor 60000) Scenario.tabReady
              ["--url=https://example.com/"; "--snapshot-id=s1"]
              (Str "https://example.com/") (Str "s1") true)
    as (t & r & Hmain & Hout & Hstatus & _);
    [reflexivity | reflexivity | vm_compute; reflexivity |].
  exists t, r. auto.
Defined.

End ChromeWaitHook.

(** ** Cookie records and their import *)

Section CookieRecords.
Import ChromeUtils ChromeLaunch.









End CookieRecords.

(** ** The lines of the DNS recorder *)

Section DnsLines.
Variable extractHostname : string -> option string.

Lemma falsy_nonempty (x : string) : Js.falsy x = false -> x <> "".
Proof. destruct x; [discriminate | discriminate]. Qed.

Lemma dnsLine_step (st : Dns.State) (e : Dns.CdpEvent) :
  Forall (dnsLine extractHostname) (Dns.output st) ->
  Forall (dnsLine extractHostname) (Dns.output (Dns.onEvent extractHostname st e)).
Proof.
  intros Hst. destruct e as [rid url | rid url addr port | rid err]; simpl.
  - exact Hst.
  - unfold Dns.onResponseReceived.
    destruct (Js.falsy url) eqn:Eurl; [exact Hst |].
    destruct (Js.falsy addr) eqn:Eaddr; [exact Hst |]. cbn [orb].
    destruct (extractHostname url) as [h |] eqn:Eh; [| exact Hst].
    destruct (Js.falsy h) eqn:Ehost; [exact Hst |].
    destruct (String.eqb h addr) eqn:Esame; [exact Hst |].
    case_bool_decide as Hseen; [exact Hst |].
    cbn [Dns.output]. apply Forall_app. split; [exact Hst |].
    apply List.Forall_cons; [| apply List.Forall_nil].
    unfold dnsLine. cbn [Dns.hostname Dns.url Dns.protocol Dns.ip Dns.rtype Dns.port Dns.error].
    split; [apply falsy_nonempty, Ehost |]. split; [exact Eh |]. split; [reflexivity |].
    split; [apply falsy_nonempty, Eaddr |].
    split; [intros ->; rewrite String.eqb_refl in Esame; discriminate |].
    split; [reflexivity |]. split; [| reflexivity].
    destruct port as [p |]; [| discriminate].
    destruct (Z.eqb_spec p 0); [discriminate | congruence].
  - unfold Dns.onLoadingFailed.
    destruct (Dns.requestUrls st !! rid) as [url |]; [| exact Hst].
    destruct (Js.falsy url); [exact Hst |].
    destruct (extractHostname url) as [h |] eqn:Eh; [| exact Hst].
    destruct (Js.falsy h) eqn:Ehost; [exact Hst |].
    destruct (Js.includes err "net::ERR_NAME_NOT_RESOLVED"
              || Js.includes err "net::ERR_NAME_RESOLUTION_FAILED") eqn:Eerr; [| exact Hst].
    case_bool_decide as Hseen; [exact Hst |].
    cbn [Dns.output]. apply Forall_app. split; [exact Hst |].
    apply List.Forall_cons; [| apply List.Forall_nil].
    unfold dnsLine. cbn [Dns.hostname Dns.url Dns.protocol Dns.ip Dns.rtype Dns.port Dns.error].
    split; [apply falsy_nonempty, Ehost |]. split; [exact Eh |]. split; [reflexivity |].
    split; [reflexivity |]. split; [reflexivity |].
    exists err. split; [reflexivity | exact Eerr].
Qed.

Lemma dnsLine_fold (events : list Dns.CdpEvent) (st : Dns.State) :
  Forall (dnsLine extractHostname) (Dns.output st) ->
  Forall (dnsLine extractHostname)
         (Dns.output (fold_left (Dns.onEvent extractHostname) events st)).
Proof.
  revert st. induction events as [| e events IH]; intros st Hst; [exact Hst |].
  simpl. apply IH, dnsLine_step, Hst.
Qed.

(** X15.  Every line the DNS recorder writes to [dns.jsonl] names the
    non-empty host of its own URL and the protocol of that URL, and is
    of one of two kinds: an address record, with a non-empty address
    different from the host name, type [AAAA] when the address holds a
    colon and [A] otherwise, a port that is not 0 and no error; or an
    [NXDOMAIN] record, with no address, no port, and the error text of
    a failed name resolution. *)
Theorem dns_lines_well_formed (events : list Dns.CdpEvent) (r : Dns.DnsRecord) :
  In r (Dns.output (Dns.record extractHostname events)) ->
  dnsLine extractHostname r.
Proof.
  intros Hin.
  pose proof (dnsLine_fold events Dns.initial (List.Forall_nil _)) as Hall.
  rewrite List.Forall_forall in Hall. apply Hall, Hin.
Qed.

Lemma count_step (st : Dns.State) (e : Dns.CdpEvent) :
  Dns.recordCount st = Z.of_nat (length (Dns.output st)) /\ Dns.shuttingDown st = false ->
  let st' := Dns.onEvent extractHostname st e in
  Dns.recordCount st' = Z.of_nat (length (Dns.output st')) /\ Dns.shuttingDown st' = false.
Proof.
  intros [Hcount Hup]. cbv zeta.
  assert (forall r, Dns.recordCount st + 1 = Z.of_nat (length (Dns.output st ++ [r]))) as Hnext
    by (intros r; rewrite length_app; simpl; lia).
  destruct e as [rid url | rid url addr port | rid err]; simpl.
  - auto.
  - unfold Dns.onResponseReceived.
    destruct (Js.falsy url || Js.falsy addr); [auto |].
    destruct (extractHostname url) as [h |]; [| auto].
    destruct (Js.falsy h); [auto |].
    destruct (String.eqb h addr); [auto |].
    case_bool_decide; [auto |]. simpl. auto.
  - unfold Dns.onLoadingFailed.
    destruct (Dns.requestUrls st !! rid) as [url |]; [| auto].
    destruct (Js.falsy url); [auto |].
    destruct (extractHostname url) as [h |]; [| auto].
    destruct (Js.falsy h); [auto |].
    destruct (Js.includes err "net::ERR_NAME_NOT_RESOLVED"
              || Js.includes err "net::ERR_NAME_RESOLUTION_FAILED"); [| auto].
    case_bool_decide; [auto |]. simpl. auto.
Qed.

Lemma count_fold (events : list Dns.CdpEvent) (st : Dns.State) :
  Dns.recordCount st = Z.of_nat (length (Dns.output st)) /\ Dns.shuttingDown st = false ->
  let st' := fold_left (Dns.onEvent extractHostname) events st in
  Dns.recordCount st' = Z.of_nat (length (Dns.output st')) /\ Dns.shuttingDown st' = false.
Proof.
  revert st. induction events as [| e events IH]; intros st Hst; [exact Hst |].
  simpl. apply IH, count_step, Hst.
Qed.

Lemma resident_events (events : list Dns.CdpEvent) (rest : list Dns.Input) (st : Dns.State) :
  Dns.resident extractHostname st ((Dns.Cdp <$> events) ++ rest) =
  Dns.resident extractHostname (fold_left (Dns.onEvent extractHostname) events st) rest.
Proof.
  revert st. induction events as [| e events IH]; intros st; [reflexivity |].
  simpl. apply IH.
Qed.

(** X16.  A DNS recorder that has installed its listeners and then
    receives [SIGTERM] exits with code 0 after one result line, status
    succeeded, whose text gives the number of lines that the protocol
    events seen so far have put into [dns.jsonl]; it then disconnects
    from the browser.  Inputs that arrive after the signal change
    nothing. *)
Theorem dns_reports_lines_written (w : CaptureHook.World) (argv : list string)
    (t : Trace) (conn : ChromeUtils.Connection)
    (events : list Dns.CdpEvent) (rest : list Dns.Input) :
  CaptureHook.main Dns.config w argv = (t, Returned conn) ->
  let lines := length (Dns.output (Dns.record extractHostname events)) in
  Dns.run extractHostname w argv ((Dns.Cdp <$> events) ++ Dns.Sig SIGTERM :: rest) =
    (t ++ [Stderr (String Js.LF "Received SIGTERM, emitting final results...");
           Stdout (JsonResult
             (mkResult Succeeded
                ("dns.jsonl (" +:+ Js.ofZ (Z.of_nat lines) +:+ " DNS records)") []));
           DisconnectBrowser],
     ExitCode 0).
Proof.
  intros Hmain. cbv zeta. unfold Dns.run. rewrite Hmain, resident_events.
  pose proof (count_fold events Dns.initial (conj eq_refl eq_refl)) as [Hcount Hup].
  cbv zeta in Hcount, Hup. fold (Dns.record extractHostname events) in Hcount, Hup.
  fold (Dns.record extractHostname events).
  cbn [Dns.resident]. unfold Dns.handleShutdown, Dns.emitResult.
  rewrite Hup, Hcount. reflexivity.
Qed.

End DnsLines.

Section DnsLinesSample.

Lemma dns_lines_well_formed_witness :
  let r := Dns.mkRecord "example.com" (Some "93.184.216.34") (Some 80) "A" "http"
                        "http://example.com/" "7" None in
  In r (Dns.output (Dns.record Sample.hostOf
          [Dns.ResponseReceived "7" "http://example.com/" "93.184.216.34" (Some 80)])) /\
  dnsLine Sample.hostOf r.
Proof.
  cbv zeta.
  assert (In (Dns.mkRecord "example.com" (Some "93.184.216.34") (Some 80) "A" "http"
                           "http://example.com/" "7" None)
             (Dns.output (Dns.record Sample.hostOf
                [Dns.ResponseReceived "7" "http://example.com/" "93.184.216.34" (Some 80)])))
    as Hin by (vm_compute; left; reflexivity).
  split; [exact Hin |].
  exact (dns_lines_well_formed Sample.hostOf _ _ Hin).
Defined.

Lemma dns_reports_lines_written_witness :
  exists t,
    Dns.run Sample.hostOf Sample.world ["--url=http://example.com/"; "--snapshot-id=s1"]
            [Dns.Cdp (Dns.ResponseReceived "7" "http://example.com/" "93.184.216.34" (Some 80));
             Dns.Sig SIGTERM] =
      (t ++ [Stderr (String Js.LF "Received SIGTERM, emitting final results...");
             Stdout (JsonResult (mkResult Succeeded "dns.jsonl (1 DNS records)" []));
             DisconnectBrowser],
       ExitCode 0).
Proof.
  eexists.
  apply (dns_reports_lines_written Sample.hostOf Sample.world
           ["--url=http://example.com/"; "--snapshot-id=s1"] _ Sample.connection
           [Dns.ResponseReceived "7" "http://example.com/" "93.184.216.34" (Some 80)] []).
  vm_compute. reflexivity.
Defined.

End DnsLinesSample.

(** ** What the TLS extractor leaves in its file *)

Section TlsFile.

Lemma tls_resident_responses (url : string) (rs : list Ssl.Response)
    (rest : list Ssl.Input) (st : Ssl.State) :
  Ssl.resident url st ((Ssl.Resp <$> rs) ++ rest) =
  Ssl.resident url (fold_left (Ssl.onResponse url) rs st) rest.
Proof.
  revert st. induction rs as [| r rs IH]; intros st; [reflexivity |].
  simpl. apply IH.
Qed.

Lemma onResponse_candidate (url : string) (st : Ssl.State) (r : Ssl.Response) :
  Ssl.onResponse url st r =
  if tlsCandidate url r then
    Ssl.mkState true (Ssl.shuttingDown st)
      (Some match Ssl.securityDetails r with
            | Some d => Ssl.mkInfo "secure" true (Some d) None
            | None =>
                if Js.startsWith (Ssl.responseUrl r) "https://"
                then Ssl.mkInfo "unknown" true None (Some "No security details available")
                else Ssl.mkInfo "insecure" false None None
            end)
  else st.
Proof.
  unfold Ssl.onResponse, tlsCandidate.
  destruct (Ssl.isNavigationRequest r), (Ssl.inMainFrame r); try reflexivity.
  cbn [negb orb andb].
  destruct (Js.startsWith (Ssl.responseUrl r) (Ssl.beforeQuery url)); reflexivity.
Qed.

Lemma tls_fold_snoc (url : string) (rs : list Ssl.Response) (r : Ssl.Response)
    (st : Ssl.State) :
  fold_left (Ssl.onResponse url) (rs ++ [r]) st =
  Ssl.onResponse url (fold_left (Ssl.onResponse url) rs st) r.
Proof. rewrite fold_left_app. reflexivity. Qed.

Lemma tls_fold_state (url : string) (rs : list Ssl.Response) :
  let st := fold_left (Ssl.onResponse url) rs Ssl.initial in
  Ssl.shuttingDown st = false /\
  match last (List.filter (tlsCandidate url) rs) with
  | None => st = Ssl.initial
  | Some r =>
      Ssl.sslCaptured st = true /\
      exists info,
        Ssl.written st = Some info /\
        Ssl.details info = Ssl.securityDetails r /\
        (Ssl.securityState info = "secure" <-> is_Some (Ssl.securityDetails r)) /\
        (is_Some (Ssl.securityDetails r) -> Ssl.sslError info = None)
  end.
Proof.
  cbv zeta. induction rs as [| r rs IH] using rev_ind; [split; reflexivity |].
  destruct IH as [Hup IH].
  rewrite tls_fold_snoc, List.filter_app, onResponse_candidate. cbn [List.filter].
  destruct (tlsCandidate url r) eqn:Ecand.
  - rewrite last_snoc. cbn [Ssl.shuttingDown Ssl.sslCaptured Ssl.written].
    split; [exact Hup |]. split; [reflexivity |].
    eexists. split; [reflexivity |].
    destruct (Ssl.securityDetails r) as [d |]; cbn.
    + repeat split; eauto.
    + assert (forall A, ~ @is_Some A None) as Hnone by (intros A [x Hx]; discriminate Hx).
      destruct (Js.startsWith (Ssl.responseUrl r) "https://"); cbn;
        (split; [reflexivity |]);
        (split; [split |]); intros H; try discriminate H; exfalso; exact (Hnone _ H).
  - rewrite app_nil_r. split; [exact Hup | exact IH].
Qed.

(** X17.  The TLS extractor, once resident: every navigation response
    of the main frame for the target URL overwrites [ssl.jsonl], so at
    the signal the file holds what the last such response gave: its
    certificate details, no error and the state secure when it had
    security details, another state and no details when it had none.  If no
    such response came, nothing was written -- and still the hook
    exits with code 0 after the one result line succeeded, naming
    [ssl.jsonl]. *)
Theorem tls_file_holds_last_navigation (url : string) (rs : list Ssl.Response)
    (rest : list Ssl.Input) :
  let '(t, ending, st) :=
    Ssl.resident url Ssl.initial ((Ssl.Resp <$> rs) ++ Ssl.Sig SIGTERM :: rest) in
  ending = ExitCode 0 /\
  stdoutLines t = [JsonResult (mkResult Succeeded "ssl.jsonl" [])] /\
  match last (List.filter (tlsCandidate url) rs) with
  | None => Ssl.written st = None /\ Ssl.sslCaptured st = false
  | Some r =>
      Ssl.sslCaptured st = true /\
      exists info,
        Ssl.written st = Some info /\
        Ssl.details info = Ssl.securityDetails r /\
        (Ssl.securityState info = "secure" <-> is_Some (Ssl.securityDetails r)) /\
        (is_Some (Ssl.securityDetails r) -> Ssl.sslError info = None)
  end.
Proof.
  rewrite tls_resident_responses.
  pose proof (tls_fold_state url rs) as [Hup Hst]. cbv zeta in Hup, Hst.
  set (st := fold_left (Ssl.onResponse url) rs Ssl.initial) in *. clearbody st.
  cbn [Ssl.resident]. unfold Ssl.handleShutdown, Ssl.emitResult. rewrite Hup.
  split; [reflexivity |]. split; [reflexivity |].
  destruct (last (List.filter (tlsCandidate url) rs)) as [r |]; [exact Hst |].
  subst st. split; reflexivity.
Qed.

End TlsFile.

(** ** What the static-file downloader writes *)

Section StaticFileKept.
Import ChromeHelpers.
Variable env : gmap string string.
Variable pathname : string -> option string.
Variable basename : string -> string.

Lemma allChars_take (f : ascii -> bool) (n : nat) (s : string) :
  allChars f s = true -> allChars f (Js.take n s) = true.
Proof.
  revert s. induction n as [| n IH]; intros s H; [reflexivity |].
  destruct s as [| c s]; [reflexivity |].
  simpl in *. apply andb_true_iff in H as [Hc Hs]. rewrite Hc. simpl. apply IH, Hs.
Qed.

Lemma take_length (n : nat) (s : string) : (String.length (Js.take n s) <= n)%nat.
Proof.
  revert s. induction n as [| n IH]; intros s; [simpl; lia |].
  destruct s as [| c s]; simpl; [lia |]. specialize (IH s). lia.
Qed.

Lemma sanitizeFilename_safe (s : string) :
  allChars StaticFile.safeChar (StaticFile.sanitizeFilename s) = true /\
  (String.length (StaticFile.sanitizeFilename s) <= 200)%nat.
Proof.
  unfold StaticFile.sanitizeFilename. split; [| apply take_length].
  apply allChars_take. induction s as [| c s IH]; [reflexivity |].
  cbn [Js.mapChars allChars]. rewrite IH, andb_true_r.
  destruct (StaticFile.safeChar c) eqn:E; [exact E | reflexivity].
Qed.

Lemma getFilenameFromUrl_safe (u : string) :
  allChars StaticFile.safeChar (StaticFile.getFilenameFromUrl pathname basename u) = true /\
  (String.length (StaticFile.getFilenameFromUrl pathname basename u) <= 200)%nat.
Proof.
  unfold StaticFile.getFilenameFromUrl.
  destruct (pathname u); [apply sanitizeFilename_safe |].
  split; [reflexivity | simpl; lia].
Qed.

Lemma static_type_nonempty (ct : string) :
  StaticFile.isStaticContentType ct = true -> Js.falsy ct = false.
Proof. unfold StaticFile.isStaticContentType. destruct (Js.falsy ct); [discriminate | reflexivity]. Qed.

Lemma onResponse_first (st : StaticFile.State) (r : StaticFile.Response) :
  StaticFile.onResponse env pathname basename st r = st \/
  StaticFile.firstResponseHandled (StaticFile.onResponse env pathname basename st r) = true.
Proof.
  unfold StaticFile.onResponse.
  destruct (StaticFile.firstResponseHandled st); [left; reflexivity |].
  destruct (negb (String.eqb (StaticFile.url r) (StaticFile.originalUrl st)));
    [left; reflexivity |].
  destruct ((StaticFile.status r <? 200) || (300 <=? StaticFile.status r));
    [left; reflexivity |].
  right. cbv zeta.
  destruct (negb (StaticFile.isStaticContentType _)); [reflexivity |].
  destruct (StaticFile.body r) as [e | buffer]; [reflexivity |].
  destruct (_ <? _); [reflexivity |].
  destruct (StaticFile.writeError r); reflexivity.
Qed.

Lemma observe_first (rs : list StaticFile.Response) (st : StaticFile.State) :
  StaticFile.observe env pathname basename st rs = st \/
  exists r, In r rs /\
    StaticFile.observe env pathname basename st rs =
      StaticFile.onResponse env pathname basename st r.
Proof.
  revert st. induction rs as [| r rs IH]; intros st; [left; reflexivity |].
  change (StaticFile.observe env pathname basename st (r :: rs))
    with (StaticFile.observe env pathname basename
            (StaticFile.onResponse env pathname basename st r) rs).
  destruct (onResponse_first st r) as [Hsame | Hdone].
  - rewrite Hsame. destruct (IH st) as [H | (r' & Hin & H)]; [left; exact H |].
    right. exists r'. split; [right; exact Hin | exact H].
  - right. exists r. split; [left; reflexivity |].
    apply observe_handled, Hdone.
Qed.

Lemma kept_after_one (u : string) (r : StaticFile.Response) :
  let st := StaticFile.onResponse env pathname basename (StaticFile.initial u) r in
  downloadKept st /\
  forall f,
    StaticFile.downloadedFilePath st = Some f /\ f <> "" <->
    status (StaticFile.finalResult st) = Succeeded /\
    output_str (StaticFile.finalResult st) = f.
Proof.
  cbv zeta. unfold StaticFile.onResponse. cbn [StaticFile.initial StaticFile.firstResponseHandled
    StaticFile.originalUrl].
  assert (forall st, StaticFile.downloadedFilePath st = None ->
            status (StaticFile.finalResult st) <> Succeeded) as Hnone.
  { intros st Hst. unfold StaticFile.finalResult. rewrite Hst.
    destruct (StaticFile.detectedContentType st) as [ct |]; [| discriminate].
    destruct (Js.falsy ct); [discriminate |].
    destruct (negb (StaticFile.isStaticFile st)); [discriminate |].
    destruct (StaticFile.downloadError st) as [err |]; [| discriminate].
    destruct (Js.falsy err); discriminate. }
  assert (forall st, StaticFile.downloadedFilePath st = None -> StaticFile.files st = ∅ ->
            downloadKept st /\
            forall f,
              StaticFile.downloadedFilePath st = Some f /\ f <> "" <->
              status (StaticFile.finalResult st) = Succeeded /\
              output_str (StaticFile.finalResult st) = f) as Hidle.
  { intros st Hst Hfiles. split; [unfold downloadKept; rewrite Hst; exact Hfiles |].
    intros f. split; [intros [H _]; congruence | intros [H _]; destruct (Hnone st Hst H)]. }
  destruct (negb (String.eqb (StaticFile.url r) u)); [apply Hidle; reflexivity |].
  destruct ((StaticFile.status r <? 200) || (300 <=? StaticFile.status r));
    [apply Hidle; reflexivity |].
  cbv zeta.
  destruct (StaticFile.isStaticContentType _) eqn:Estatic; cbn [negb];
    [| apply Hidle; reflexivity].
  apply static_type_nonempty in Estatic.
  destruct (StaticFile.body r) as [e | buffer]; [apply Hidle; reflexivity |].
  destruct (_ <? _); [apply Hidle; reflexivity |].
  destruct (StaticFile.writeError r); [apply Hidle; reflexivity |].
  match goal with
  | |- context [StaticFile.mkState _ _ _ (Some ?name) _ _ _] => set (filename := name)
  end.
  assert (allChars StaticFile.safeChar filename = true /\
          (String.length filename <= 200)%nat) as [Hsafe Hlen].
  { subst filename.
    destruct (Js.includes _ "filename="); [| apply getFilenameFromUrl_safe].
    destruct (StaticFile.filenameMatch _);
      [apply sanitizeFilename_safe | apply getFilenameFromUrl_safe]. }
  clearbody filename. split.
  - unfold downloadKept. cbn [StaticFile.downloadedFilePath StaticFile.downloadError
      StaticFile.files StaticFile.initial].
    split; [exact Hsafe |]. split; [exact Hlen |]. split; [reflexivity |].
    exists buffer. apply insert_empty.
  - intros f. unfold StaticFile.finalResult.
    cbn [StaticFile.detectedContentType StaticFile.isStaticFile StaticFile.downloadError
         StaticFile.downloadedFilePath StaticFile.initial].
    rewrite Estatic. cbn [negb].
    destruct filename as [| c rest]; cbn [Js.falsy status output_str].
    + split; [intros [[= <-] H]; congruence | intros [H _]; discriminate H].
    + split; [intros [[= <-] _]; auto | intros [_ <-]; split; [reflexivity | discriminate]].
Qed.

(** X18.  Whatever responses the static-file downloader sees, its
    directory then holds at most one file: the one it reports, under a
    name of at most 200 characters, each a letter, a digit, a dot, an
    underscore or a hyphen (so no path separator); and the result at
    shutdown is succeeded with a name [f] exactly when [f] is the
    non-empty name of that file. *)
Theorem staticfile_keeps_one_safe_file (u : string) (rs : list StaticFile.Response) :
  let st := StaticFile.observe env pathname basename (StaticFile.initial u) rs in
  downloadKept st /\
  forall f,
    StaticFile.downloadedFilePath st = Some f /\ f <> "" <->
    status (StaticFile.finalResult st) = Succeeded /\
    output_str (StaticFile.finalResult st) = f.
Proof.
  cbv zeta. destruct (observe_first rs (StaticFile.initial u)) as [-> | (r & _ & ->)].
  - split; [reflexivity |].
    intros f. split; [intros [H _]; discriminate H | intros [H _]; discriminate H].
  - apply kept_after_one.
Qed.

End StaticFileKept.

(** ** Readings of a trace built from parts *)

Section TraceParts.

Lemma written_app (t1 t2 : Trace) : written (t1 ++ t2) = written t1 ++ written t2.
Proof. apply omap_app. Qed.

Lemma closesBrowser_app (t1 t2 : Trace) :
  closesBrowser (t1 ++ t2) = closesBrowser t1 || closesBrowser t2.
Proof. apply existsb_app. Qed.


End TraceParts.

(** ** The tab allocator with a live session *)

Section TabLifecycle.
Import ChromeUtils.

Lemma tab_cleanup_trace (w : ChromeTab.World) (st : ChromeTab.State) (s : Signal) :
  let t := (ChromeTab.cleanup w st s).1.1 in
  written t = [] /\ existsb isSpawn t = false /\ signals t = [] /\ closesBrowser t = false /\
  resultLines t = resultLines (ChromeTab.emitResult st None).2.
Proof.
  cbv zeta. unfold ChromeTab.cleanup.
  destruct (ChromeTab.emitResult st None) as [st' emitted] eqn:Eemit.
  assert (written emitted = [] /\ existsb isSpawn emitted = false /\ signals emitted = [] /\
          closesBrowser emitted = false) as (H1 & H2 & H3 & H4).
  { unfold ChromeTab.emitResult in Eemit.
    destruct (ChromeTab.finalized st); injection Eemit as <- <-; repeat split. }
  cbn [fst snd].
  set (closing := match ChromeTab.fs w "cdp_url.txt" with NoFile => _ | _ => _ end).
  assert (written closing = [] /\ existsb isSpawn closing = false /\ signals closing = [] /\
          closesBrowser closing = false /\ resultLines closing = []) as (C1 & C2 & C3 & C4 & C5).
  { subst closing.
    destruct (ChromeTab.fs w "cdp_url.txt") as [| | cdpText]; [repeat split .. |].
    destruct (ChromeTab.fs w "target_id.txt") as [| | idText]; [repeat split .. |].
    destruct (ChromeTab.closeTab w); repeat split. }
  clearbody closing.
  rewrite !written_app, !existsb_app, !signals_app, !closesBrowser_app, !resultLines_app.
  rewrite H1, H2, H3, H4, C1, C2, C3, C4, C5. repeat split.
Qed.


End TabLifecycle.

Section TabLifecycleSample.


End TabLifecycleSample.

(** ** The session launcher from start to shutdown *)

Section LauncherShutdown.
Import ChromeUtils.
Context {OS : Type} (sys : Sys OS).








End LauncherShutdown.

Section LauncherShutdownSample.


End LauncherShutdownSample.

(** ** Who closes the shared browser *)

Section SharedBrowser.
Import ChromeUtils.

Lemma capture_main_open (c : CaptureHook.Config) (w : CaptureHook.World)
    (argv : list string) :
  (forall url made, CaptureHook.prepare c url = inr made -> closesBrowser made = false) ->
  closesBrowser (CaptureHook.main c w argv).1 = false.
Proof.
  intros Hprepare. unfold CaptureHook.main.
  destruct (parseArgs argv !! "url") as [url |]; [| reflexivity].
  destruct (parseArgs argv !! "snapshot_id"); [| reflexivity].
  destruct (negb (getEnvBool (CaptureHook.env w) (CaptureHook.enabledFlag c) true));
    [reflexivity |].
  unfold CaptureHook.setup.
  destruct (CaptureHook.prepare c url) as [e | made] eqn:Eprepare; [reflexivity |].
  specialize (Hprepare url made Eprepare).
  destruct (CaptureHook.prepareError w); [reflexivity |].
  destruct (CaptureHook.connection w) as [e | conn];
    [cbn [fst]; rewrite !closesBrowser_app, Hprepare; reflexivity |].
  destruct (CaptureHook.cdpSession c).
  - destruct (CaptureHook.sessionError w);
      [cbn [fst]; rewrite !closesBrowser_app, Hprepare; reflexivity |].
    cbn [fst]. rewrite !closesBrowser_app, Hprepare.
    destruct (CaptureHook.pageLoaded w); reflexivity.
  - cbn [fst]. rewrite !closesBrowser_app, Hprepare.
    destruct (CaptureHook.pageLoaded w); reflexivity.
Qed.

Lemma dns_resident_open (extractHostname : string -> option string)
    (inputs : list Dns.Input) (st : Dns.State) :
  closesBrowser (Dns.resident extractHostname st inputs).1 = false.
Proof.
  revert st. induction inputs as [| i inputs IH]; intros st; [reflexivity |].
  destruct i as [e | [| | |]]; cbn [Dns.resident]; try apply IH; try reflexivity;
    unfold Dns.handleShutdown, Dns.emitResult; destruct (Dns.shuttingDown st); reflexivity.
Qed.

Lemma tls_resident_open (url : string) (inputs : list Ssl.Input) (st : Ssl.State) :
  closesBrowser (Ssl.resident url st inputs).1.1 = false.
Proof.
  revert st. induction inputs as [| i inputs IH]; intros st; [reflexivity |].
  destruct i as [r | [| | |]]; cbn [Ssl.resident]; try apply IH; try reflexivity;
    unfold Ssl.handleShutdown, Ssl.emitResult; destruct (Ssl.shuttingDown st); reflexivity.
Qed.

Lemma tab_main_open (w : ChromeTab.World) (argv : list string) :
  closesBrowser (ChromeTab.main w argv).1.1 = false.
Proof.
  unfold ChromeTab.main.
  destruct (parseArgs argv !! "url") as [url |]; [| reflexivity].
  destruct (parseArgs argv !! "snapshot_id"); [| reflexivity].
  destruct (ChromeTab.chromium w) as [binary |]; [| reflexivity].
  destruct (ChromeTab.findCrawlChromeSession w) as [[cdpUrl pid] |]; [| reflexivity].
  unfold ChromeTab.createTabInExistingChrome.
  destruct (ChromeTab.newTab w) as [e | targetId].
  - cbn. destruct (Js.falsy (Js.describe e)); reflexivity.
  - destruct url as [u |]; [reflexivity |].
    cbn. destruct (Js.falsy (Js.describe ChromeTab.notWritable)); reflexivity.
Qed.

(** X21.  No hook that works on a snapshot closes the browser it
    shares with the others: not one of the six capture plugins in its
    [main], not the DNS recorder and not the TLS extractor at any
    signal, not the tab allocator in its run nor in its signal handler
    (which closes its own tab only), not the screenshot taker, not the
    foreground wait.  Closing the browser is left to the session
    launcher. *)
Theorem snapshot_hooks_leave_browser_open :
  Forall (fun c => forall w argv, closesBrowser (CaptureHook.main c w argv).1 = false)
         Sample.capturePlugins /\
  (forall extractHostname w argv inputs,
     closesBrowser (Dns.run extractHostname w argv inputs).1 = false) /\
  (forall w argv inputs, closesBrowser (Ssl.run w argv inputs).1.1 = false) /\
  (forall w argv, closesBrowser (ChromeTab.run w argv).1 = false) /\
  (forall w st s, closesBrowser (ChromeTab.cleanup w st s).1.1 = false) /\
  (forall w argv, closesBrowser (Screenshot.run w argv).1 = false) /\
  (forall fuel w argv,
     match ChromeWait.main fuel w argv with
     | Some (t, _) => closesBrowser t = false
     | None => True
     end).
Proof.
  assert (forall f url made, CaptureHook.truncate f url = inr made -> closesBrowser made = false)
    as Htruncate by (intros f url made [= <-]; reflexivity).
  assert (forall url made, Ssl.httpsOnly url = inr made -> closesBrowser made = false)
    as Hhttps.
  { intros [u |] made; cbn; [| discriminate].
    destruct (negb (Js.startsWith u "https://")); [discriminate |]. intros [= <-]. reflexivity. }
  assert (forall w argv, closesBrowser (CaptureHook.main Dns.config w argv).1 = false) as Hdns
    by (intros; apply capture_main_open, Htruncate).
  assert (forall w argv, closesBrowser (CaptureHook.main Ssl.config w argv).1 = false) as Htls
    by (intros; apply capture_main_open, Hhttps).
  split; [| split; [| split; [| split; [| split; [| split]]]]].
  - unfold Sample.capturePlugins.
    apply List.Forall_cons;
      [intros w argv; apply capture_main_open; intros url made [= <-]; reflexivity |].
    apply List.Forall_cons; [exact Hdns |].
    apply List.Forall_cons; [exact Htls |].
    apply List.Forall_cons;
      [intros w argv; apply capture_main_open; intros url made [= <-]; reflexivity |].
    apply List.Forall_cons;
      [intros w argv; apply capture_main_open; intros url made [= <-]; reflexivity |].
    apply List.Forall_cons;
      [intros w argv; apply capture_main_open; intros url made [= <-]; reflexivity |].
    apply List.Forall_nil.
  - intros extractHostname w argv inputs. unfold Dns.run.
    specialize (Hdns w argv).
    destruct (CaptureHook.main Dns.config w argv) as [t o]. cbn [fst] in Hdns.
    destruct o as [conn | e | code |]; try exact Hdns.
    pose proof (dns_resident_open extractHostname inputs Dns.initial) as Hres.
    destruct (Dns.resident extractHostname Dns.initial inputs) as [t' ending].
    cbn [fst] in *. rewrite closesBrowser_app, Hdns, Hres. reflexivity.
  - intros w argv inputs. unfold Ssl.run.
    specialize (Htls w argv).
    destruct (CaptureHook.main Ssl.config w argv) as [t o]. cbn [fst] in Htls.
    destruct o as [conn | e | code |]; try exact Htls.
    match goal with
    | |- context [Ssl.resident ?u Ssl.initial inputs] =>
        pose proof (tls_resident_open u inputs Ssl.initial) as Hres;
        destruct (Ssl.resident u Ssl.initial inputs) as [[t' ending] st]
    end.
    cbn [fst] in *. rewrite closesBrowser_app, Htls, Hres. reflexivity.
  - intros w argv. unfold ChromeTab.run.
    pose proof (tab_main_open w argv) as Hmain.
    destruct (ChromeTab.main w argv) as [[t o] st]. cbn [fst] in Hmain.
    destruct o as [[] | e | code |]; exact Hmain.
  - intros w st s. apply tab_cleanup_trace.
  - intros w argv. unfold Screenshot.run, Screenshot.moduleInit.
    destruct (negb (getEnvBool (Screenshot.env w) "SCREENSHOT_ENABLED" true)); [reflexivity |].
    unfold Screenshot.main.
    destruct (parseArgs argv !! "url") as [url |]; [| reflexivity].
    destruct (parseArgs argv !! "snapshot_id"); [| reflexivity].
    destruct (Screenshot.staticFileOutput w); [reflexivity |].
    unfold Screenshot.takeScreenshot.
    destruct (negb (Screenshot.tabLoaded w)); [reflexivity |].
    destruct (Screenshot.cdpUrl w) as [url' |]; [| reflexivity].
    destruct (Js.falsy url'); [reflexivity |].
    destruct (Screenshot.targetIdFile w); [| reflexivity].
    destruct (Screenshot.capture w) as [e | [e | []]]; try reflexivity.
    destruct (Screenshot.stat w); reflexivity.
  - intros fuel w argv. unfold ChromeWait.main.
    destruct (parseArgs argv !! "url"); [| reflexivity].
    destruct (parseArgs argv !! "snapshot_id"); [| reflexivity].
    destruct (waitForChromeSession _ _ _) as [[|] |]; [| reflexivity | exact I].
    destruct (missing _ || missing _); reflexivity.
Qed.

End SharedBrowser.

(** ** Finding the browser binary *)

Section FindingChromium.
Import ChromeUtils ChromeHelpers.
Variable resolve : string -> string.
Variable join : string -> string -> string.
Variable existsSync : string -> bool.
Variable runs : string -> bool.
Variable readdir : string -> option (list string).
Variable newestFirst : list string -> list string.

Lemma validateBinary_true (b : string) :
  validateBinary existsSync runs b = true ->
  b <> "" /\ existsSync b = true /\ runs b = true.
Proof.
  unfold validateBinary. destruct b as [| c b]; [discriminate |]. cbn [Js.falsy orb].
  destruct (existsSync (String c b)); [| discriminate]. cbn [negb].
  intros ->. repeat split. discriminate.
Qed.

Lemma searchFallbacks_validated (locs : list string) (b : string) :
  searchFallbacks join existsSync runs readdir newestFirst locs = Some b ->
  validateBinary existsSync runs b = true.
Proof.
  induction locs as [| loc locs IH]; [discriminate |].
  cbn [searchFallbacks].
  destruct (Js.includes loc ".cache/puppeteer").
  - destruct (findInPuppeteerDir join existsSync readdir newestFirst loc) as [binary |];
      [| exact IH].
    destruct (negb (Js.falsy binary)); cbn [andb]; [| exact IH].
    destruct (validateBinary existsSync runs binary) eqn:E; [| exact IH].
    intros [= <-]. exact E.
  - destruct (validateBinary existsSync runs loc) eqn:E; [| exact IH].
    intros [= <-]. exact E.
Qed.

(** X22.  Whatever [findChromium] returns is a non-empty path that
    exists and whose version probe ran.  It returns without a warning
    only when the binary is the one that [CHROME_BINARY] names, a
    path that holds neither [Google Chrome] nor [google-chrome]. *)
Theorem findChromium_returns_validated (env : Env) (b : string) :
  let r := findChromium resolve join existsSync runs readdir newestFirst env in
  r.2 = Some b ->
  b <> "" /\ existsSync b = true /\ runs b = true /\
  (r.1 = [] ->
   b = resolve (getEnv env "CHROME_BINARY" "") /\
   Js.includes b "Google Chrome" = false /\ Js.includes b "google-chrome" = false).
Proof.
  cbv zeta. unfold findChromium.
  destruct (Js.falsy (getEnv env "CHROME_BINARY" "")).
  - cbn [fst snd]. intros H%searchFallbacks_validated%validateBinary_true.
    destruct H as (H1 & H2 & H3). repeat split; try assumption; discriminate.
  - destruct (Js.includes (resolve _) "Google Chrome") eqn:E1.
    + cbn [orb fst snd]. intros H%searchFallbacks_validated%validateBinary_true.
      destruct H as (H1 & H2 & H3). repeat split; try assumption; discriminate.
    + destruct (Js.includes (resolve _) "google-chrome") eqn:E2.
      * cbn [orb fst snd]. intros H%searchFallbacks_validated%validateBinary_true.
        destruct H as (H1 & H2 & H3). repeat split; try assumption; discriminate.
      * cbn [orb].
        destruct (validateBinary existsSync runs (resolve _)) eqn:Ev; cbn [fst snd].
        -- intros [= <-]. apply validateBinary_true in Ev as (H1 & H2 & H3).
           repeat split; assumption.
        -- intros H%searchFallbacks_validated%validateBinary_true.
           destruct H as (H1 & H2 & H3). repeat split; try assumption; discriminate.
Qed.

End FindingChromium.

Section FindingChromiumSample.
Import ChromeHelpers.

Lemma findChromium_returns_validated_witness :
  (findChromium (fun path => path) (fun a b => a +:+ "/" +:+ b) Scenario.onlySystemChromium
                (fun _ => true) (fun _ => None) (fun versions => versions) ∅).2 =
    Some "/usr/bin/chromium" /\
  Scenario.onlySystemChromium "/usr/bin/chromium" = true.
Proof.
  assert ((findChromium (fun path => path) (fun a b => a +:+ "/" +:+ b)
                        Scenario.onlySystemChromium
                        (fun _ => true) (fun _ => None) (fun versions => versions) ∅).2 =
          Some "/usr/bin/chromium") as Hfound by (vm_compute; reflexivity).
  split; [exact Hfound |].
  exact (proj1 (proj2 (findChromium_returns_validated _ _ _ _ _ _ ∅ _ Hfound))).
Defined.

End FindingChromiumSample.

(** ** Extension ids *)

Section ExtensionIds.
Import ChromeHelpers.

Lemma idChar_letter (c : ascii) : hexDigit c = true -> idLetter (idChar c) = true.
Proof.
  destruct c as [[] [] [] [] [] [] [] []]; intros H; try discriminate H; reflexivity.
Qed.

Lemma mapChars_length (f : ascii -> ascii) (s : string) :
  String.length (Js.mapChars f s) = String.length s.
Proof. induction s as [| c s IH]; [reflexivity |]. simpl. rewrite IH. reflexivity. Qed.

Lemma take_full (n : nat) (s : string) :
  (n <= String.length s)%nat -> String.length (Js.take n s) = n.
Proof.
  revert s. induction n as [| n IH]; intros s H; [reflexivity |].
  destruct s as [| c s]; simpl in *; [lia |]. rewrite IH by lia. reflexivity.
Qed.

Lemma mapChars_letters (s : string) :
  allChars hexDigit s = true -> allChars idLetter (Js.mapChars idChar s) = true.
Proof.
  induction s as [| c s IH]; [reflexivity |].
  cbn [allChars Js.mapChars]. intros [Hc Hs]%andb_true_iff.
  rewrite (idChar_letter c Hc), (IH Hs). reflexivity.
Qed.

(** X23.  With a digest function that yields 64 hexadecimal digits,
    [getExtensionId] yields 32 characters, each a letter from a to p;
    and a path that [realpath] resolves has the id of the path it
    resolves to. *)
Theorem getExtensionId_letters (realpath : string -> option string)
    (sha256hex : string -> string) (unpacked_path : string) :
  (forall s, String.length (sha256hex s) = 64%nat /\ allChars hexDigit (sha256hex s) = true) ->
  let id := getExtensionId realpath sha256hex unpacked_path in
  String.length id = 32%nat /\
  allChars idLetter id = true /\
  forall target,
    realpath unpacked_path = Some target -> realpath target = Some target ->
    getExtensionId realpath sha256hex target = id.
Proof.
  intros Hdigest. cbv zeta. unfold getExtensionId.
  split; [| split].
  - rewrite mapChars_length. apply take_full.
    destruct (Hdigest (default unpacked_path (realpath unpacked_path))) as [-> _]. lia.
  - apply mapChars_letters, allChars_take.
    apply (Hdigest (default unpacked_path (realpath unpacked_path))).
  - intros target -> ->. reflexivity.
Qed.

End ExtensionIds.

Section ExtensionIdsSample.
Import ChromeHelpers.

Lemma getExtensionId_letters_witness :
  getExtensionId (fun _ => None) (fun _ => Scenario.digest) "extensions/ublock" =
    "jpignaibiiemhngfjkcpokkamffknabf" /\
  allChars idLetter
    (getExtensionId (fun _ => None) (fun _ => Scenario.digest) "extensions/ublock") = true.
Proof.
  split; [vm_compute; reflexivity |].
  apply (getExtensionId_letters (fun _ => None) (fun _ => Scenario.digest) "extensions/ublock").
  intros s. split; vm_compute; reflexivity.
Defined.

End ExtensionIdsSample.

(** ** The report of the redirect recorder *)

Section RedirectReport.
Import ChromeUtils.

Lemma redirect_step (st : Redirects.State) (i : Redirects.Input) :
  let st' := Redirects.onInput st i in
  Redirects.redirectChain st' = Redirects.redirectChain st ++ omap Redirects.lineOf [i] /\
  Redirects.output st' = Redirects.output st ++ omap Redirects.lineOf [i] /\
  Redirects.originalUrl st' = Redirects.originalUrl st /\
  Redirects.finalUrl st' =
    default (Redirects.finalUrl st) (last (omap Redirects.httpRequest [i])).
Proof.
  cbv zeta. destruct i as [rid url rr | pageUrl m | pageUrl j | s].
  - unfold Redirects.onInput, Redirects.onRequestWillBeSent, Redirects.httpRequest,
      Redirects.lineOf.
    destruct rr as [[from code] |];
      destruct (negb (Js.falsy url) && Js.startsWith url "http") eqn:E;
      cbn; rewrite ?E, ?app_nil_r; repeat split.
  - unfold Redirects.onInput, Redirects.onMetaRefresh, Redirects.lineOf.
    destruct m as [[content [url |]] |]; try destruct (Js.falsy url) eqn:E;
      cbn; rewrite ?E, ?app_nil_r; repeat split.
  - unfold Redirects.onInput, Redirects.onJsRedirect, Redirects.lineOf.
    destruct j as [url |]; try destruct (Js.falsy url) eqn:E;
      cbn; rewrite ?E, ?app_nil_r; repeat split.
  - cbn. rewrite ?app_nil_r. repeat split.
Qed.

Lemma redirect_fold (url : ArgVal) (events : list Redirects.Input) :
  let st := fold_left Redirects.onInput events (Redirects.initial url) in
  Redirects.redirectChain st = omap Redirects.lineOf events /\
  Redirects.output st = omap Redirects.lineOf events /\
  Redirects.originalUrl st = url /\
  Redirects.finalUrl st = default "" (last (omap Redirects.httpRequest events)).
Proof.
  cbv zeta. induction events as [| i events IH] using rev_ind; [repeat split |].
  destruct IH as (H1 & H2 & H3 & H4).
  rewrite fold_left_app. cbn [fold_left].
  destruct (redirect_step (fold_left Redirects.onInput events (Redirects.initial url)) i)
    as (S1 & S2 & S3 & S4).
  cbv zeta in S1, S2, S3, S4. rewrite S1, S2, S3, S4, H1, H2, H3, H4, !omap_app.
  repeat split.
  destruct (omap Redirects.httpRequest [i]) as [| f [| g l]] eqn:E.
  - rewrite app_nil_r. reflexivity.
  - rewrite last_snoc. reflexivity.
  - cbn in E. destruct (Redirects.httpRequest i); discriminate E.
Qed.

Lemma redirect_resident (st : Redirects.State) (events rest : list Redirects.Input) :
  forallb Redirects.isEvent events = true ->
  Redirects.resident st (events ++ Redirects.Sig SIGTERM :: rest) =
    ((Redirects.handleShutdown (fold_left Redirects.onInput events st) SIGTERM).1,
     ExitCode 0,
     fold_left Redirects.onInput events st).
Proof.
  revert st. induction events as [| i events IH]; intros st Hall; [reflexivity |].
  cbn [forallb] in Hall. apply andb_true_iff in Hall as [Hi Hall].
  destruct i as [rid url rr | pageUrl m | pageUrl j | s]; try discriminate Hi;
    cbn [app Redirects.resident fold_left]; apply IH, Hall.
Qed.

Lemma last_request_nonempty (events : list Redirects.Input) (f : string) :
  last (omap Redirects.httpRequest events) = Some f -> Js.falsy f = false.
Proof.
  intros Hlast%last_Some_elem_of. apply list_elem_of_omap in Hlast as (i & _ & Hi).
  destruct i as [rid x rr | | |]; try discriminate Hi. cbn in Hi.
  destruct (Js.falsy x) eqn:Ex; [discriminate Hi |]. cbn in Hi.
  destruct (Js.startsWith x "http"); [| discriminate Hi]. injection Hi as <-.
  exact Ex.
Qed.

(** X24.  The redirect recorder, resident, then signalled: the lines
    of [redirects.jsonl] are the redirects seen, in order -- one for
    each request that carries a redirect response, one for each meta
    refresh and each script redirect found with a non-empty URL.  The
    report counts these lines; its final URL is the URL of the last
    request that starts with [http], whatever that request was for, or
    the original URL when there was none; and it flags a redirect when
    there is a line, or when that last URL is not the original one.
    With no request at all the flag is the empty string. *)
Theorem redirects_report_from_events (url : ArgVal)
    (events rest : list Redirects.Input) :
  forallb Redirects.isEvent events = true ->
  let '(t, ending, st) :=
    Redirects.resident (Redirects.initial url) (events ++ Redirects.Sig SIGTERM :: rest) in
  let lines := omap Redirects.lineOf events in
  let lastUrl := last (omap Redirects.httpRequest events) in
  ending = ExitCode 0 /\
  t = (Redirects.handleShutdown st SIGTERM).1 /\
  Redirects.output st = lines /\
  Redirects.report st =
    {| Redirects.original_url := Redirects.ofArg url;
       Redirects.final_url :=
         match lastUrl with
         | Some f => Redirects.Text f
         | None => Redirects.ofArg url
         end;
       Redirects.redirect_count := length lines;
       Redirects.is_redirect :=
         if (0 <? length lines)%nat then Redirects.Flag true
         else match lastUrl with
              | Some f =>
                  Redirects.Flag match url with
                                 | Str s => negb (String.eqb f s)
                                 | True_ => true
                                 end
              | None => Redirects.Text ""
              end |}.
Proof.
  intros Hall. rewrite (redirect_resident _ _ _ Hall). cbv zeta.
  pose proof (redirect_fold url events) as (H1 & H2 & H3 & H4). cbv zeta in H1, H2, H3, H4.
  set (st := fold_left Redirects.onInput events (Redirects.initial url)) in *. clearbody st.
  split; [reflexivity |]. split; [reflexivity |]. split; [exact H2 |].
  unfold Redirects.report. rewrite H1, H3, H4.
  destruct (last (omap Redirects.httpRequest events)) as [f |] eqn:Elast; cbn [from_option id].
  - rewrite (last_request_nonempty events f Elast). reflexivity.
  - reflexivity.
Qed.

(** X25.  A page that was not redirected at all is still reported as
    a redirect once it has requested anything from another [http]
    URL: with no line in the file, and the last such request going to
    a URL other than the original one, the report has a count of 0
    and the flag true, and gives that URL as the final one. *)
Theorem redirects_flagged_by_subrequest (u f : string)
    (events rest : list Redirects.Input) :
  forallb Redirects.isEvent events = true ->
  omap Redirects.lineOf events = [] ->
  last (omap Redirects.httpRequest events) = Some f ->
  f <> u ->
  let st := (Redirects.resident (Redirects.initial (Str u))
                                (events ++ Redirects.Sig SIGTERM :: rest)).2 in
  Redirects.output st = [] /\
  Redirects.redirect_count (Redirects.report st) = 0%nat /\
  Redirects.is_redirect (Redirects.report st) = Redirects.Flag true /\
  Redirects.final_url (Redirects.report st) = Redirects.Text f.
Proof.
  intros Hall Hnone Hlast Hne. cbv zeta.
  rewrite (redirect_resident _ _ _ Hall). cbn [snd].
  pose proof (redirect_fold (Str u) events) as (H1 & H2 & H3 & H4).
  cbv zeta in H1, H2, H3, H4.
  set (st := fold_left Redirects.onInput events (Redirects.initial (Str u))) in *.
  clearbody st. rewrite Hnone in H1, H2. rewrite Hlast in H4. cbn [from_option id] in H4.
  unfold Redirects.report. rewrite H1, H2, H3, H4. cbn [length Nat.ltb Nat.leb
    Redirects.redirect_count Redirects.is_redirect Redirects.final_url].
  pose proof (last_request_nonempty events f Hlast) as Hf.
  rewrite Hf. repeat split.
  destruct (String.eqb_spec f u); [contradiction | reflexivity].
Qed.

End RedirectReport.

Section RedirectReportSample.
Import ChromeUtils.

Lemma redirects_report_from_events_witness :
  let '(t, ending, st) :=
    Redirects.resident (Redirects.initial (Str "http://example.com/"))
      ([Redirects.Request "1" "http://example.com/" None;
        Redirects.Request "1" "https://example.com/" (Some ("http://example.com/", 301))]
       ++ [Redirects.Sig SIGTERM]) in
  ending = ExitCode 0 /\
  Redirects.output st =
    [Redirects.Http "http://example.com/" "https://example.com/" 301 "1"] /\
  Redirects.redirect_count (Redirects.report st) = 1%nat.
Proof.
  pose proof (redirects_report_from_events (Str "http://example.com/")
                [Redirects.Request "1" "http://example.com/" None;
                 Redirects.Request "1" "https://example.com/" (Some ("http://example.com/", 301))]
                [] eq_refl) as H.
  destruct (Redirects.resident _ _) as [[t ending] st].
  destruct H as (Hend & _ & Hout & Hreport).
  split; [exact Hend |]. split; [exact Hout |]. rewrite Hreport. reflexivity.
Defined.

Lemma redirects_flagged_by_subrequest_witness :
  let st := (Redirects.resident (Redirects.initial (Str "https://example.com/"))
               ([Redirects.Request "1" "https://example.com/" None;
                 Redirects.Request "2" "https://cdn.example.com/app.js" None]
                ++ [Redirects.Sig SIGTERM])).2 in
  Redirects.output st = [] /\
  Redirects.redirect_count (Redirects.report st) = 0%nat /\
  Redirects.is_redirect (Redirects.report st) = Redirects.Flag true /\
  Redirects.final_url (Redirects.report st) = Redirects.Text "https://cdn.example.com/app.js".
Proof.
  apply (redirects_flagged_by_subrequest "https://example.com/" "https://cdn.example.com/app.js"
           [Redirects.Request "1" "https://example.com/" None;
            Redirects.Request "2" "https://cdn.example.com/app.js" None] []);
    [reflexivity | reflexivity | reflexivity | discriminate].
Defined.

End RedirectReportSample.

(** ** The counts of the console recorder *)

Section ConsoleCounts.

Lemma console_count_snoc (f : ConsoleLog.Line -> bool) (lines : list ConsoleLog.Line)
    (l : ConsoleLog.Line) :
  ConsoleLog.count f (lines ++ [l]) = ConsoleLog.count f lines + (if f l then 1 else 0).
Proof.
  unfold ConsoleLog.count. rewrite List.filter_app, length_app. cbn [List.filter].
  destruct (f l); cbn [length]; lia.
Qed.

Lemma console_step (st : ConsoleLog.State) (i : ConsoleLog.Input) :
  ConsoleLog.logCount st = ConsoleLog.count ConsoleLog.isConsoleLine (ConsoleLog.output st) /\
  ConsoleLog.errorCount st = ConsoleLog.count ConsoleLog.isPageErrorLine (ConsoleLog.output st) /\
  ConsoleLog.requestFailCount st =
    ConsoleLog.count ConsoleLog.isRequestFailedLine (ConsoleLog.output st) /\
  ConsoleLog.shuttingDown st = false ->
  let st' := ConsoleLog.onInput st i in
  ConsoleLog.logCount st' = ConsoleLog.count ConsoleLog.isConsoleLine (ConsoleLog.output st') /\
  ConsoleLog.errorCount st' =
    ConsoleLog.count ConsoleLog.isPageErrorLine (ConsoleLog.output st') /\
  ConsoleLog.requestFailCount st' =
    ConsoleLog.count ConsoleLog.isRequestFailedLine (ConsoleLog.output st') /\
  ConsoleLog.shuttingDown st' = false.
Proof.
  intros (H1 & H2 & H3 & H4). cbv zeta.
  destruct i as [type text args location | message stack | url failure | s];
    cbn [ConsoleLog.onInput ConsoleLog.onConsole ConsoleLog.onPageError
         ConsoleLog.onRequestFailed ConsoleLog.logCount ConsoleLog.errorCount
         ConsoleLog.requestFailCount ConsoleLog.shuttingDown ConsoleLog.output];
    rewrite ?console_count_snoc;
    cbn [ConsoleLog.isConsoleLine ConsoleLog.isPageErrorLine ConsoleLog.isRequestFailedLine];
    repeat split; try assumption; lia.
Qed.

Lemma console_fold (events : list ConsoleLog.Input) (st : ConsoleLog.State) :
  ConsoleLog.logCount st = ConsoleLog.count ConsoleLog.isConsoleLine (ConsoleLog.output st) /\
  ConsoleLog.errorCount st = ConsoleLog.count ConsoleLog.isPageErrorLine (ConsoleLog.output st) /\
  ConsoleLog.requestFailCount st =
    ConsoleLog.count ConsoleLog.isRequestFailedLine (ConsoleLog.output st) /\
  ConsoleLog.shuttingDown st = false ->
  let st' := fold_left ConsoleLog.onInput events st in
  ConsoleLog.logCount st' = ConsoleLog.count ConsoleLog.isConsoleLine (ConsoleLog.output st') /\
  ConsoleLog.errorCount st' =
    ConsoleLog.count ConsoleLog.isPageErrorLine (ConsoleLog.output st') /\
  ConsoleLog.requestFailCount st' =
    ConsoleLog.count ConsoleLog.isRequestFailedLine (ConsoleLog.output st') /\
  ConsoleLog.shuttingDown st' = false.
Proof.
  revert st. induction events as [| i events IH]; intros st Hst; [exact Hst |].
  cbn [fold_left]. apply IH, console_step, Hst.
Qed.

Lemma console_resident (st : ConsoleLog.State) (events rest : list ConsoleLog.Input) :
  forallb ConsoleLog.isEvent events = true ->
  ConsoleLog.resident st (events ++ ConsoleLog.Sig SIGTERM :: rest) =
    ((ConsoleLog.handleShutdown (fold_left ConsoleLog.onInput events st) SIGTERM).1,
     ExitCode 0,
     fold_left ConsoleLog.onInput events st).
Proof.
  revert st. induction events as [| i events IH]; intros st Hall; [reflexivity |].
  cbn [forallb] in Hall. apply andb_true_iff in Hall as [Hi Hall].
  destruct i as [type text args location | message stack | url failure | s];
    try discriminate Hi; cbn [app ConsoleLog.resident fold_left]; apply IH, Hall.
Qed.

Lemma console_lines_by_kind (lines : list ConsoleLog.Line) :
  ConsoleLog.count ConsoleLog.isConsoleLine lines +
  ConsoleLog.count ConsoleLog.isPageErrorLine lines +
  ConsoleLog.count ConsoleLog.isRequestFailedLine lines = Z.of_nat (length lines).
Proof.
  unfold ConsoleLog.count. induction lines as [| l lines IH]; [reflexivity |].
  destruct l; cbn [List.filter ConsoleLog.isConsoleLine ConsoleLog.isPageErrorLine
                   ConsoleLog.isRequestFailedLine length]; lia.
Qed.

Lemma console_count_le (f g : ConsoleLog.Line -> bool) (lines : list ConsoleLog.Line) :
  (forall l, f l = true -> g l = true) ->
  ConsoleLog.count f lines <= ConsoleLog.count g lines.
Proof.
  intros Hfg. unfold ConsoleLog.count. apply Nat2Z.inj_le.
  induction lines as [| l lines IH]; [reflexivity |].
  cbn [List.filter]. destruct (f l) eqn:Ef.
  - rewrite (Hfg l Ef). cbn [length]. lia.
  - destruct (g l); cbn [length]; lia.
Qed.

(** X26.  The console recorder, resident, then signalled: it writes
    one result line, succeeded, whose three counts are the numbers of
    lines that the console listener, the page-error listener and the
    failed-request listener have put into [console.jsonl]; the counts
    add up to the length of the file.  It then disconnects and exits
    with code 0.  A console message is counted as console whatever its
    type: one of type [error] gives a line of type [error] that the
    count of errors leaves out. *)
Theorem console_reports_lines_by_listener (events rest : list ConsoleLog.Input) :
  forallb ConsoleLog.isEvent events = true ->
  let '(t, ending, st) :=
    ConsoleLog.resident ConsoleLog.initial (events ++ ConsoleLog.Sig SIGTERM :: rest) in
  let lines := ConsoleLog.output st in
  let console := ConsoleLog.count ConsoleLog.isConsoleLine lines in
  let errors := ConsoleLog.count ConsoleLog.isPageErrorLine lines in
  let failed := ConsoleLog.count ConsoleLog.isRequestFailedLine lines in
  ending = ExitCode 0 /\
  t = [Stderr (String Js.LF "Received SIGTERM, emitting final results...");
       Stdout (JsonResult
         (mkResult Succeeded
            ("console.jsonl (" +:+
             (Js.ofZ console +:+ " console, " +:+ Js.ofZ errors +:+ " errors, " +:+
              Js.ofZ failed +:+ " failed requests") +:+ ")") []));
       DisconnectBrowser] /\
  console + errors + failed = Z.of_nat (length lines) /\
  errors <= ConsoleLog.count (fun l => String.eqb (ConsoleLog.lineType l) "error") lines.
Proof.
  intros Hall. rewrite (console_resident _ _ _ Hall). cbv zeta.
  pose proof (console_fold events ConsoleLog.initial
                (conj eq_refl (conj eq_refl (conj eq_refl eq_refl)))) as (H1 & H2 & H3 & H4).
  cbv zeta in H1, H2, H3, H4.
  set (st := fold_left ConsoleLog.onInput events ConsoleLog.initial) in *. clearbody st.
  split; [reflexivity |]. split; [| split].
  - unfold ConsoleLog.handleShutdown, ConsoleLog.emitResult, ConsoleLog.counts.
    rewrite H4, H1, H2, H3. reflexivity.
  - apply console_lines_by_kind.
  - apply console_count_le. intros [type text args location | text stack | text error url] H;
      try discriminate H. reflexivity.
Qed.

End ConsoleCounts.

Section ConsoleCountsSample.

Lemma console_reports_lines_by_listener_witness :
  let '(t, ending, st) :=
    ConsoleLog.resident ConsoleLog.initial
      ([ConsoleLog.Console "error" "boom" [ConsoleLog.Printable "boom"] "app.js:1";
        ConsoleLog.PageError "ReferenceError: x is not defined" None]
       ++ [ConsoleLog.Sig SIGTERM]) in
  stdoutLines t =
    [JsonResult (mkResult Succeeded
       "console.jsonl (1 console, 1 errors, 0 failed requests)" [])] /\
  ConsoleLog.lineType <$> ConsoleLog.output st = ["error"; "error"].
Proof.
  pose proof (console_reports_lines_by_listener
                [ConsoleLog.Console "error" "boom" [ConsoleLog.Printable "boom"] "app.js:1";
                 ConsoleLog.PageError "ReferenceError: x is not defined" None]
                [] eq_refl) as H.
  destruct (ConsoleLog.resident _ _) as [[t ending] st] eqn:E.
  destruct H as (_ & -> & _ & _).
  vm_compute in E. injection E as _ _ <-. split; vm_compute; reflexivity.
Defined.

End ConsoleCountsSample.
